(** * Todo backend: authentication and ownership-checked task store

    A shallow embedding of the service layer of the FastAPI backend
    ([backend/src/services], [backend/src/models], [backend/src/api]) and the
    properties its specification states about it.

    Conventions of the embedding
    - a Python [str] is the list of its Unicode code points ([N]); [len] is
      [length];
    - a [datetime] is the number of microseconds since the epoch (UTC);
    - raising is returning [Raise e]; a function that touches the database
      takes the database and returns the new one beside its value, and a raise
      leaves the database as it was (nothing was committed);
    - the wall clock is an explicit argument wherever the code calls
      [datetime.utcnow()];
    - log calls have no observable effect and are left out. *)

From Stdlib Require Import ZArith NArith List Bool String Ascii Lia.
From Stdlib Require Import Sorting.Sorted.
From Stdlib Require DecimalZ DecimalPos DecimalString.
Import ListNotations.

Local Open Scope Z_scope.

(* ================================================================== *)
(** * Python values                                                    *)
(* ================================================================== *)

Module Py.

Definition char := N.
Definition str := list char.

(** A string literal of the source. *)
Definition lit (s : string) : str := map N_of_ascii (list_ascii_of_string s).

Fixpoint str_eqb (a b : str) : bool :=
  match a, b with
  | [], [] => true
  | x :: a', y :: b' => N.eqb x y && str_eqb a' b'
  | _, _ => false
  end.

(** [str.isspace] on one code point (CPython's [_PyUnicode_IsWhitespace]). *)
Definition isspace (c : char) : bool :=
  let c := Z.of_N c in
  ((9 <=? c) && (c <=? 13)) || ((28 <=? c) && (c <=? 32))
  || (c =? 133) || (c =? 160) || (c =? 5760)
  || ((8192 <=? c) && (c <=? 8202))
  || (c =? 8232) || (c =? 8233) || (c =? 8239) || (c =? 8287) || (c =? 12288).

Fixpoint lstrip (s : str) : str :=
  match s with
  | c :: s' => if isspace c then lstrip s' else s
  | [] => []
  end.

Definition rstrip (s : str) : str := rev (lstrip (rev s)).

(** [s.strip()] *)
Definition strip (s : str) : str := rstrip (lstrip s).

(** Truthiness of a string: [if v:] *)
Definition truthy (s : str) : bool :=
  match s with [] => false | _ => true end.

Definition datetime := Z.

(** [timedelta(hours=h)] in microseconds. *)
Definition timedelta_hours (h : Z) : Z := h * 3600 * 1000000.

(** [timegm(d.utctimetuple())]: whole seconds since the epoch. *)
Definition timegm (d : datetime) : Z := d / 1000000.

(** The values that travel in JSON bodies and token claims.  A JSON number
    is an integer here; [PDatetime] exists on the issuing side only. *)
#[warnings="-register-all"]
Inductive value :=
| PNone
| PBool (b : bool)
| PInt (z : Z)
| PStr (s : str)
| PDatetime (d : datetime)
| PList (l : list value)
| PDict (l : list (str * value)).

Definition dict := list (str * value).

(** [d.get(k)], [None] in Rocq standing for a key that is absent; the first
    binding of a key is the one in force. *)
Fixpoint get (d : dict) (k : str) : option value :=
  match d with
  | [] => None
  | (k', v) :: d' => if str_eqb k' k then Some v else get d' k
  end.

Definition is_str (v : value) : bool :=
  match v with PStr _ => true | _ => false end.

(** ** Exceptions *)

Inductive exn :=
| ValueError (msg : string)
| TypeError (msg : string)
| JWTError (msg : string)
| ExpiredSignatureError (msg : string)
| JWTClaimsError (msg : string)
| MultipleResultsFound
| RequestValidationError (msg : string)
| HTTPException (status_code : Z) (detail : string) (www_authenticate : bool).

(** [isinstance(e, JWTError)]: the two claim errors derive from it. *)
Definition is_JWTError (e : exn) : bool :=
  match e with
  | JWTError _ | ExpiredSignatureError _ | JWTClaimsError _ => true
  | _ => false
  end.

Definition is_ValueError (e : exn) : bool :=
  match e with ValueError _ => true | _ => false end.

Definition is_HTTPException (e : exn) : bool :=
  match e with HTTPException _ _ _ => true | _ => false end.

(** [str(e)] *)
Definition str_exn (e : exn) : string :=
  match e with
  | ValueError m | TypeError m | JWTError m | ExpiredSignatureError m
  | JWTClaimsError m | RequestValidationError m => m
  | MultipleResultsFound =>
      "Multiple rows were found when one or none was required"
  | HTTPException c d _ =>
      DecimalString.NilZero.string_of_int (Z.to_int c) ++ ": " ++ d
  end%string.

Inductive result (A : Type) :=
| Ok (a : A)
| Raise (e : exn).
Arguments Ok {A} a.
Arguments Raise {A} e.

Definition bind {A B} (r : result A) (k : A -> result B) : result B :=
  match r with
  | Ok a => k a
  | Raise e => Raise e
  end.

(** ** [str(int)] and [int(str)] *)

Fixpoint uint_digits (d : Decimal.uint) : str :=
  match d with
  | Decimal.Nil => []
  | Decimal.D0 d => 48%N :: uint_digits d
  | Decimal.D1 d => 49%N :: uint_digits d
  | Decimal.D2 d => 50%N :: uint_digits d
  | Decimal.D3 d => 51%N :: uint_digits d
  | Decimal.D4 d => 52%N :: uint_digits d
  | Decimal.D5 d => 53%N :: uint_digits d
  | Decimal.D6 d => 54%N :: uint_digits d
  | Decimal.D7 d => 55%N :: uint_digits d
  | Decimal.D8 d => 56%N :: uint_digits d
  | Decimal.D9 d => 57%N :: uint_digits d
  end.

(** [str(x)] for an [int]: the decimal digits, [-] in front when negative. *)
Definition str_of_int (x : Z) : str :=
  match Z.to_int x with
  | Decimal.Pos d => uint_digits d
  | Decimal.Neg d => 45%N :: uint_digits d
  end.

(** The code points of the digit zero of every script with decimal digits
    (Unicode 14, the data of CPython 3.11); the nine that follow each are
    its digits one to nine. *)
Definition decimal_zeros : list N :=
  [ 48; 1632; 1776; 1984; 2406; 2534; 2662; 2790;
    2918; 3046; 3174; 3302; 3430; 3558; 3664; 3792;
    3872; 4160; 4240; 6112; 6160; 6470; 6608; 6784;
    6800; 6992; 7088; 7232; 7248; 42528; 43216; 43264;
    43472; 43504; 43600; 44016; 65296; 66720; 68912; 69734;
    69872; 69942; 70096; 70384; 70736; 70864; 71248; 71360;
    71472; 71904; 72016; 72784; 73040; 73120; 92768; 92864;
    93008; 120782; 120792; 120802; 120812; 120822; 123200; 123632;
    125264; 130032 ]%N.

(** [Py_UNICODE_TODECIMAL]: the value of a decimal digit of any script. *)
Definition digit_val (c : char) : option N :=
  match find (fun z => (z <=? c) && (c <=? z + 9))%N decimal_zeros with
  | Some z => Some (c - z)%N
  | None => None
  end.

(** The whitespace [int] skips at the two ends of a string: the ASCII
    characters of C's [isspace], and the whitespace beyond ASCII.  The
    separators U+001C to U+001F, which [str.strip] drops, are not among
    them. *)
Definition int_isspace (c : char) : bool :=
  isspace c && negb ((28 <=? c) && (c <=? 31))%N.

Fixpoint int_lstrip (s : str) : str :=
  match s with
  | c :: s' => if int_isspace c then int_lstrip s' else s
  | [] => []
  end.

Definition int_strip (s : str) : str := rev (int_lstrip (rev (int_lstrip s))).

(** The digits after the first one; [_] may separate two digits. *)
Fixpoint int_digits (acc : N) (s : str) : option N :=
  match s with
  | [] => Some acc
  | c :: s' =>
      if (c =? 95)%N then
        match s' with
        | d :: s'' =>
            match digit_val d with
            | Some v => int_digits (10 * acc + v) s''
            | None => None
            end
        | [] => None
        end
      else
        match digit_val c with
        | Some v => int_digits (10 * acc + v) s'
        | None => None
        end
  end.

Definition int_unsigned (s : str) : option N :=
  match s with
  | c :: s' =>
      match digit_val c with
      | Some v => int_digits v s'
      | None => None
      end
  | [] => None
  end.

Definition invalid_literal : exn :=
  ValueError "invalid literal for int() with base 10".

(** [int(s)] for a string: the whitespace at its ends is skipped, a sign is
    allowed, then decimal digits of any script, single underscores allowed
    between two digits.  (The interpreter's cap on the number of digits is
    left out.) *)
Definition int_of_str (s : str) : result Z :=
  match int_strip s with
  | c :: s' =>
      if (c =? 45)%N then
        match int_unsigned s' with
        | Some n => Ok (- Z.of_N n)
        | None => Raise invalid_literal
        end
      else if (c =? 43)%N then
        match int_unsigned s' with
        | Some n => Ok (Z.of_N n)
        | None => Raise invalid_literal
        end
      else
        match int_unsigned (c :: s') with
        | Some n => Ok (Z.of_N n)
        | None => Raise invalid_literal
        end
  | [] => Raise invalid_literal
  end.

(** [int(v)] *)
Definition int (v : value) : result Z :=
  match v with
  | PInt z => Ok z
  | PBool b => Ok (if b then 1 else 0)
  | PStr s => int_of_str s
  | _ => Raise (TypeError "int() argument must be a string or a number")
  end.

End Py.

Export Py.

Declare Scope py_scope.
Delimit Scope py_scope with py.
Notation "x <- c ;; k" := (Py.bind c (fun x => k))
  (at level 61, c at next level, right associativity) : py_scope.
Notation "c ;;; k" := (Py.bind c (fun _ => k))
  (at level 61, right associativity) : py_scope.
Local Open Scope py_scope.

(* ================================================================== *)
(** * python-jose: [jwt.encode] and [jwt.decode]                       *)
(* ================================================================== *)

(** The library is modelled on the decoded form of a compact JWS: the header's
    [alg], the payload and the signature.  The MAC itself is a parameter; the
    signing input is the pair of header and payload. *)

Module Jose.

Definition digest := list N.

Inductive payload :=
| NotJsonObject (raw : str)
| Claims (c : dict).

Inductive token :=
| Malformed (raw : str)
| Compact (alg : option str) (body : payload) (signature : digest).

Definition signing_input : Type := option str * payload.

Section WithMac.

Variable hmac_sha256 : str -> signing_input -> digest.

Definition digest_eqb (a b : digest) : bool := str_eqb a b.

(** [jws.verify]: the header must name an allowed algorithm and the signature
    must be the MAC of the signing input under the key. *)
Definition jws_verify (t : token) (key : str) (algorithms : list str)
  : result payload :=
  match t with
  | Malformed _ => Raise (JWTError "Not enough segments")
  | Compact None _ _ =>
      Raise (JWTError "No algorithm was specified in the JWS header.")
  | Compact (Some alg) body sig =>
      if negb (existsb (str_eqb alg) algorithms) then
        Raise (JWTError "The specified alg value is not allowed")
      else if negb (digest_eqb sig (hmac_sha256 key (Some alg, body))) then
        Raise (JWTError "Signature verification failed.")
      else Ok body
  end.

(** [int(claims[name])] with [ValueError] turned into a claims error. *)
Definition claim_int (v : value) (msg : string) : result Z :=
  match int v with
  | Ok z => Ok z
  | Raise e => if is_ValueError e then Raise (JWTClaimsError msg) else Raise e
  end.

Definition _validate_iat (claims : dict) : result unit :=
  match get claims (lit "iat") with
  | None => Ok tt
  | Some v =>
      _ <- claim_int v "Issued At claim (iat) must be an integer." ;; Ok tt
  end.

Definition _validate_nbf (claims : dict) (now leeway : Z) : result unit :=
  match get claims (lit "nbf") with
  | None => Ok tt
  | Some v =>
      nbf <- claim_int v "Not Before claim (nbf) must be an integer." ;;
      if nbf >? now + leeway then
        Raise (JWTClaimsError "The token is not yet valid (nbf)")
      else Ok tt
  end.

Definition _validate_exp (claims : dict) (now leeway : Z) : result unit :=
  match get claims (lit "exp") with
  | None => Ok tt
  | Some v =>
      exp <- claim_int v "Expiration Time claim (exp) must be an integer." ;;
      if exp <? now - leeway then
        Raise (ExpiredSignatureError "Signature has expired.")
      else Ok tt
  end.

(** No audience is passed to [decode], so an [aud] claim never matches. *)
Definition _validate_aud (claims : dict) : result unit :=
  match get claims (lit "aud") with
  | None => Ok tt
  | Some (PStr _) => Raise (JWTClaimsError "Invalid audience")
  | Some (PList l) =>
      if forallb is_str l then Raise (JWTClaimsError "Invalid audience")
      else Raise (JWTClaimsError "Invalid claim format in token")
  | Some _ => Raise (JWTClaimsError "Invalid claim format in token")
  end.

Definition _validate_sub (claims : dict) : result unit :=
  match get claims (lit "sub") with
  | None => Ok tt
  | Some v =>
      if is_str v then Ok tt
      else Raise (JWTClaimsError "Subject must be a string.")
  end.

Definition _validate_jti (claims : dict) : result unit :=
  match get claims (lit "jti") with
  | None => Ok tt
  | Some v =>
      if is_str v then Ok tt
      else Raise (JWTClaimsError "JWT ID must be a string.")
  end.

(** No access token is passed to [decode]. *)
Definition _validate_at_hash (claims : dict) : result unit :=
  match get claims (lit "at_hash") with
  | None => Ok tt
  | Some _ =>
      Raise (JWTClaimsError
        "No access_token provided to compare against at_hash claim.")
  end.

(** [_validate_claims] under the default options (every check on, leeway 0,
    no audience, issuer or subject to compare with). *)
Definition _validate_claims (claims : dict) (now : Z) : result unit :=
  _validate_iat claims ;;;
  _validate_nbf claims now 0 ;;;
  _validate_exp claims now 0 ;;;
  _validate_aud claims ;;;
  _validate_sub claims ;;;
  _validate_jti claims ;;;
  _validate_at_hash claims.

(** [jwt.decode(token, key, algorithms=algorithms)], the clock read at [now]. *)
Definition decode (t : token) (key : str) (algorithms : list str)
    (now : datetime) : result dict :=
  body <- jws_verify t key algorithms ;;
  match body with
  | NotJsonObject _ => Raise (JWTError "Invalid payload string")
  | Claims claims =>
      _validate_claims claims (timegm now) ;;;
      Ok claims
  end.

(** [exp], [iat] and [nbf] given as datetimes become whole seconds. *)
Definition numeric_date (kv : str * value) : str * value :=
  let (k, v) := kv in
  if str_eqb k (lit "exp") || str_eqb k (lit "iat") || str_eqb k (lit "nbf")
  then match v with
       | PDatetime d => (k, PInt (timegm d))
       | _ => (k, v)
       end
  else (k, v).

(** [jwt.encode(claims, key, algorithm=algorithm)] *)
Definition encode (claims : dict) (key : str) (algorithm : str) : token :=
  let body := Claims (map numeric_date claims) in
  Compact (Some algorithm) body (hmac_sha256 key (Some algorithm, body)).

End WithMac.

End Jose.

(* ================================================================== *)
(** * services/auth.py and UserService.create_access_token            *)
(* ================================================================== *)

Module Auth.

Section WithSecret.

Variable hmac_sha256 : str -> Jose.signing_input -> Jose.digest.

(** [os.getenv("BETTER_AUTH_SECRET", ...)], read once per process. *)
Variable BETTER_AUTH_SECRET : str.

Definition ALGORITHM : str := lit "HS256".

Definition unauthorized (detail : string) : exn :=
  HTTPException 401 detail true.

(** The [try] block of [verify_token]. *)
Definition verify_token_body (token : Jose.token) (now : datetime) : result Z :=
  payload <- Jose.decode hmac_sha256 token BETTER_AUTH_SECRET [ALGORITHM] now ;;
  match get payload (lit "sub") with
  | None | Some PNone =>
      Raise (unauthorized "Invalid token: missing user ID")
  | Some user_id => int user_id
  end.

Definition verify_token (token : Jose.token) (now : datetime) : result Z :=
  match verify_token_body token now with
  | Ok user_id => Ok user_id
  | Raise e =>
      if is_JWTError e then
        Raise (unauthorized ("Invalid or expired token: " ++ str_exn e))
      else if is_ValueError e then
        Raise (unauthorized "Invalid token: user ID must be an integer")
      else
        Raise (unauthorized ("Token verification failed: " ++ str_exn e))
  end.

End WithSecret.

End Auth.

(* ================================================================== *)
(** * models/task.py, models/user.py and the database                  *)
(* ================================================================== *)

Module Task.

Record t := mk {
  id : Z;
  user_id : Z;
  title : str;
  description : option str;
  is_complete : bool;
  created_at : datetime;
  updated_at : datetime
}.

End Task.

Module User.

Record t := mk {
  id : Z;
  email : str;
  password_hash : str;
  full_name : option str;
  is_active : bool;
  created_at : datetime;
  updated_at : datetime
}.

End User.

(** The two tables, rows in storage order, and the counter behind the
    [tasks.id] primary key (AUTOINCREMENT). *)
Module Db.

Record t := mk {
  tasks : list Task.t;
  next_task_id : Z;
  users : list User.t
}.

(** [result.scalar_one_or_none()] *)
Definition scalar_one_or_none {A} (rows : list A) : result (option A) :=
  match rows with
  | [] => Ok None
  | [r] => Ok (Some r)
  | _ => Raise MultipleResultsFound
  end.

(** [select(Task).where(Task.id == task_id, Task.user_id == user_id)] *)
Definition select_task (d : t) (task_id user_id : Z) : list Task.t :=
  filter (fun r => (Task.id r =? task_id) && (Task.user_id r =? user_id))
         (tasks d).

(** [select(Task).where(Task.user_id == user_id)] *)
Definition select_user_tasks (d : t) (user_id : Z) : list Task.t :=
  filter (fun r => Task.user_id r =? user_id) (tasks d).

(** [.where(Task.is_complete == flag)] on a query's rows. *)
Definition where_is_complete (flag : bool) (rows : list Task.t) : list Task.t :=
  filter (fun r => Bool.eqb (Task.is_complete r) flag) rows.

Fixpoint insert_desc (x : Task.t) (l : list Task.t) : list Task.t :=
  match l with
  | [] => [x]
  | y :: l' =>
      if Task.created_at x <? Task.created_at y
      then y :: insert_desc x l'
      else x :: l
  end.

(** [.order_by(Task.created_at.desc())]; rows with equal timestamps keep
    their storage order. *)
Definition order_by_created_at_desc (rows : list Task.t) : list Task.t :=
  fold_right insert_desc [] rows.

(** [select(User).where(User.email == email)] *)
Definition select_user_by_email (d : t) (email : str) : list User.t :=
  filter (fun u => str_eqb (User.email u) email) (users d).

(** INSERT of a new task: the key comes from the counter. *)
Definition insert_task (d : t) (row : Z -> Task.t) : t * Task.t :=
  let r := row (next_task_id d) in
  (mk (tasks d ++ [r]) (next_task_id d + 1) (users d), r).

(** UPDATE ... WHERE id = [Task.id r]. *)
Definition update_task (d : t) (r : Task.t) : t :=
  mk (map (fun r0 => if Task.id r0 =? Task.id r then r else r0) (tasks d))
     (next_task_id d) (users d).

(** DELETE ... WHERE id = [task_id]. *)
Definition delete_task (d : t) (task_id : Z) : t :=
  mk (filter (fun r0 => negb (Task.id r0 =? task_id)) (tasks d))
     (next_task_id d) (users d).

Fixpoint distinct (l : list Z) : bool :=
  match l with
  | [] => true
  | x :: l' => negb (existsb (Z.eqb x) l') && distinct l'
  end.

(** [tasks.id] is a primary key. *)
Definition primary_key (d : t) : bool := distinct (map Task.id (tasks d)).

(** The key counter is ahead of every key in use. *)
Definition counter_ahead (d : t) : bool :=
  forallb (fun r => Task.id r <? next_task_id d) (tasks d).

(** The state of a database that only this service has written to. *)
Definition wf (d : t) : bool := primary_key d && counter_ahead d.

Definition empty : t := mk [] 1 [].

(** [select(User).where(User.id == user_id)] *)
Definition select_user_by_id (d : t) (user_id : Z) : list User.t :=
  filter (fun u => User.id u =? user_id) (users d).

(** The key of the next [users] row.  AUTOINCREMENT hands out one past the
    largest key it has stored, and no code path deletes a user, so that is
    one past the largest key in the table. *)
Definition next_user_id (d : t) : Z :=
  1 + fold_right (fun u m => Z.max (User.id u) m) 0 (users d).

(** INSERT of a new user. *)
Definition insert_user (d : t) (row : Z -> User.t) : t * User.t :=
  let r := row (next_user_id d) in
  (mk (tasks d) (next_task_id d) (users d ++ [r]), r).

Fixpoint distinct_str (l : list str) : bool :=
  match l with
  | [] => true
  | x :: l' => negb (existsb (str_eqb x) l') && distinct_str l'
  end.

(** [users.id] is a primary key and [users.email] is UNIQUE. *)
Definition users_wf (d : t) : bool :=
  distinct (map User.id (users d)) && distinct_str (map User.email (users d)).



End Db.

(* ================================================================== *)
(** * models/schemas.py                                                *)
(* ================================================================== *)

Definition validation_error (msg : string) : exn := RequestValidationError msg.

Module TaskCreate.

Record t := mk { title : str; description : option str }.

Definition title_not_whitespace (v : str) : result str :=
  if negb (truthy (strip v)) then
    Raise (ValueError "Title cannot be only whitespace")
  else Ok (strip v).

Definition clean_description (v : option str) : option str :=
  match v with
  | Some s =>
      if truthy s then
        let stripped := strip s in
        if truthy stripped then Some stripped else None
      else None
  | None => None
  end.

(** [title: str = Field(min_length=1, max_length=200)], then the validator. *)
Definition validate_title (field : option value) : result str :=
  match field with
  | Some (PStr v) =>
      if (List.length v <? 1)%nat then
        Raise (validation_error "String should have at least 1 character")
      else if (200 <? List.length v)%nat then
        Raise (validation_error "String should have at most 200 characters")
      else
        match title_not_whitespace v with
        | Ok v' => Ok v'
        | Raise e => Raise (validation_error (str_exn e))
        end
  | Some _ => Raise (validation_error "Input should be a valid string")
  | None => Raise (validation_error "Field required")
  end.

(** [description: Optional[str] = Field(None, max_length=1000)], then the
    validator; the default of an absent field is taken as it is. *)
Definition validate_description (field : option value) : result (option str) :=
  match field with
  | None => Ok None
  | Some PNone => Ok (clean_description None)
  | Some (PStr v) =>
      if (1000 <? List.length v)%nat then
        Raise (validation_error "String should have at most 1000 characters")
      else Ok (clean_description (Some v))
  | Some _ => Raise (validation_error "Input should be a valid string")
  end.

(** The request body parsed into the model; keys the model does not declare
    are dropped. *)
Definition model_validate (body : dict) : result t :=
  title <- validate_title (get body (lit "title")) ;;
  description <- validate_description (get body (lit "description")) ;;
  Ok (mk title description).

End TaskCreate.

Module TaskUpdate.

Record t := mk { title : option str; description : option str }.

Definition title_not_whitespace (v : option str) : result (option str) :=
  match v with
  | Some s =>
      if negb (truthy (strip s)) then
        Raise (ValueError "Title cannot be only whitespace")
      else Ok (Some (strip s))
  | None => Ok None
  end.

Definition clean_description (v : option str) : option str :=
  match v with
  | Some s =>
      if truthy s then
        let stripped := strip s in
        if truthy stripped then Some stripped else None
      else None
  | None => None
  end.

(** [title: Optional[str] = Field(None, min_length=1, max_length=200)] *)
Definition validate_title (field : option value) : result (option str) :=
  match field with
  | None => Ok None
  | Some PNone =>
      match title_not_whitespace None with
      | Ok v' => Ok v'
      | Raise e => Raise (validation_error (str_exn e))
      end
  | Some (PStr v) =>
      if (List.length v <? 1)%nat then
        Raise (validation_error "String should have at least 1 character")
      else if (200 <? List.length v)%nat then
        Raise (validation_error "String should have at most 200 characters")
      else
        match title_not_whitespace (Some v) with
        | Ok v' => Ok v'
        | Raise e => Raise (validation_error (str_exn e))
        end
  | Some _ => Raise (validation_error "Input should be a valid string")
  end.

(** [description: Optional[str] = Field(None, max_length=1000)] *)
Definition validate_description (field : option value) : result (option str) :=
  match field with
  | None => Ok None
  | Some PNone => Ok (clean_description None)
  | Some (PStr v) =>
      if (1000 <? List.length v)%nat then
        Raise (validation_error "String should have at most 1000 characters")
      else Ok (clean_description (Some v))
  | Some _ => Raise (validation_error "Input should be a valid string")
  end.

Definition model_validate (body : dict) : result t :=
  title <- validate_title (get body (lit "title")) ;;
  description <- validate_description (get body (lit "description")) ;;
  Ok (mk title description).

End TaskUpdate.

Module TaskResponse.

Record t := mk {
  id : Z;
  title : str;
  description : option str;
  is_complete : bool;
  created_at : datetime;
  updated_at : datetime;
  user_id : Z
}.

(** [TaskResponse.model_validate(task)] with [from_attributes]. *)
Definition model_validate (task : Task.t) : t :=
  mk (Task.id task) (Task.title task) (Task.description task)
     (Task.is_complete task) (Task.created_at task) (Task.updated_at task)
     (Task.user_id task).

End TaskResponse.

Module TaskListResponse.

Record t := mk {
  tasks : list TaskResponse.t;
  total_count : Z;
  filtered_count : Z
}.

End TaskListResponse.

(* ================================================================== *)
(** * services/task_service.py                                         *)
(* ================================================================== *)

Module TaskService.

Definition not_found : exn :=
  HTTPException 404 "Task not found or access denied" false.

(** The owner-scoped query and the 404 raise that [get_task_by_id],
    [update_task], [delete_task] and [toggle_completion] each start with. *)
Definition lookup (d : Db.t) (user_id task_id : Z) : result Task.t :=
  task <- Db.scalar_one_or_none (Db.select_task d task_id user_id) ;;
  match task with
  | None => Raise not_found
  | Some task => Ok task
  end.

(** [created] and [updated] are the two clock readings of the model's
    [default_factory] fields. *)
Definition create_task (d : Db.t) (user_id : Z) (task_data : TaskCreate.t)
    (created updated : datetime) : result (Db.t * TaskResponse.t) :=
  let task := fun id =>
    Task.mk id user_id (TaskCreate.title task_data)
            (TaskCreate.description task_data) false created updated in
  let (d', task) := Db.insert_task d task in
  Ok (d', TaskResponse.model_validate task).

Definition get_user_tasks (d : Db.t) (user_id : Z)
    (status_filter : option str) : TaskListResponse.t :=
  let query := Db.select_user_tasks d user_id in
  let query :=
    match status_filter with
    | Some f =>
        if str_eqb f (lit "complete") then Db.where_is_complete true query
        else if str_eqb f (lit "incomplete") then
          Db.where_is_complete false query
        else query
    | None => query
    end in
  let tasks := Db.order_by_created_at_desc query in
  let total_count := Z.of_nat (List.length (Db.select_user_tasks d user_id)) in
  let task_responses := map TaskResponse.model_validate tasks in
  TaskListResponse.mk task_responses total_count
                      (Z.of_nat (List.length task_responses)).

Definition get_task_by_id (d : Db.t) (user_id task_id : Z)
  : result TaskResponse.t :=
  task <- lookup d user_id task_id ;;
  Ok (TaskResponse.model_validate task).

Section WithTrigger.

(** What the database writes into [updated_at] when a row is rewritten, from
    the row before, the row as sent and the clock.  The trigger the source
    mentions is not part of the repository. *)
Variable updated_at_trigger : Task.t -> Task.t -> datetime -> datetime.

Definition set_title (task : Task.t) (v : str) : Task.t :=
  Task.mk (Task.id task) (Task.user_id task) v (Task.description task)
          (Task.is_complete task) (Task.created_at task) (Task.updated_at task).

Definition set_description (task : Task.t) (v : option str) : Task.t :=
  Task.mk (Task.id task) (Task.user_id task) (Task.title task) v
          (Task.is_complete task) (Task.created_at task) (Task.updated_at task).

Definition set_is_complete (task : Task.t) (v : bool) : Task.t :=
  Task.mk (Task.id task) (Task.user_id task) (Task.title task)
          (Task.description task) v (Task.created_at task)
          (Task.updated_at task).

Definition set_updated_at (task : Task.t) (v : datetime) : Task.t :=
  Task.mk (Task.id task) (Task.user_id task) (Task.title task)
          (Task.description task) (Task.is_complete task)
          (Task.created_at task) v.

(** [session.commit()] then [session.refresh(task)] for a loaded row that
    was modified in memory: the row is rewritten by key and read back. *)
Definition commit_refresh (d : Db.t) (old task : Task.t) (now : datetime)
  : Db.t * Task.t :=
  let stored := set_updated_at task (updated_at_trigger old task now) in
  (Db.update_task d stored, stored).

Definition update_task (d : Db.t) (user_id task_id : Z)
    (task_data : TaskUpdate.t) (now : datetime)
  : result (Db.t * TaskResponse.t) :=
  task0 <- lookup d user_id task_id ;;
  let task :=
    match TaskUpdate.title task_data with
    | Some v => set_title task0 v
    | None => task0
    end in
  let task :=
    match TaskUpdate.description task_data with
    | Some v => set_description task (Some v)
    | None => task
    end in
  let (d', task) := commit_refresh d task0 task now in
  Ok (d', TaskResponse.model_validate task).

Definition delete_task (d : Db.t) (user_id task_id : Z) : result (Db.t * unit) :=
  task <- lookup d user_id task_id ;;
  Ok (Db.delete_task d (Task.id task), tt).

Definition toggle_completion (d : Db.t) (user_id task_id : Z) (now : datetime)
  : result (Db.t * TaskResponse.t) :=
  task0 <- lookup d user_id task_id ;;
  let task := set_is_complete task0 (negb (Task.is_complete task0)) in
  let (d', task) := commit_refresh d task0 task now in
  Ok (d', TaskResponse.model_validate task).

End WithTrigger.

End TaskService.

(* ================================================================== *)
(** * models/auth_schemas.py and services/user_service.py              *)
(* ================================================================== *)

Module UserLoginRequest.

Record t := mk { email : str; password : str }.

End UserLoginRequest.

Module UserRegisterRequest.

Record t := mk { email : str; password : str; full_name : option str }.

Section WithEmail.

(** [EmailStr] (the email-validator package): the normalised address, or
    [None] for a string it refuses. *)
Variable validate_email : str -> option str.

Definition validate_email_field (field : option value) : result str :=
  match field with
  | Some (PStr v) =>
      match validate_email v with
      | Some v' => Ok v'
      | None =>
          Raise (validation_error "value is not a valid email address")
      end
  | Some _ => Raise (validation_error "Input should be a valid string")
  | None => Raise (validation_error "Field required")
  end.

(** [password: str = Field(..., min_length=8, max_length=100)] *)
Definition validate_password (field : option value) : result str :=
  match field with
  | Some (PStr v) =>
      if (List.length v <? 8)%nat then
        Raise (validation_error "String should have at least 8 characters")
      else if (100 <? List.length v)%nat then
        Raise (validation_error "String should have at most 100 characters")
      else Ok v
  | Some _ => Raise (validation_error "Input should be a valid string")
  | None => Raise (validation_error "Field required")
  end.

(** [full_name: Optional[str] = Field(None, max_length=200)] *)
Definition validate_full_name (field : option value) : result (option str) :=
  match field with
  | None => Ok None
  | Some PNone => Ok None
  | Some (PStr v) =>
      if (200 <? List.length v)%nat then
        Raise (validation_error "String should have at most 200 characters")
      else Ok (Some v)
  | Some _ => Raise (validation_error "Input should be a valid string")
  end.

Definition model_validate (body : dict) : result t :=
  email <- validate_email_field (get body (lit "email")) ;;
  password <- validate_password (get body (lit "password")) ;;
  full_name <- validate_full_name (get body (lit "full_name")) ;;
  Ok (mk email password full_name).

End WithEmail.

End UserRegisterRequest.

Module MessageResponse.

Record t := mk { message : str }.

End MessageResponse.

Module UserResponse.

Record t := mk {
  id : Z;
  email : str;
  full_name : option str;
  is_active : bool;
  created_at : datetime
}.

Definition model_validate (u : User.t) : t :=
  mk (User.id u) (User.email u) (User.full_name u) (User.is_active u)
     (User.created_at u).

End UserResponse.

Module TokenResponse.

Record t := mk {
  access_token : Jose.token;
  token_type : str;
  user : UserResponse.t
}.

End TokenResponse.

Module UserService.

Section WithContext.

Variable hmac_sha256 : str -> Jose.signing_input -> Jose.digest.
Variable BETTER_AUTH_SECRET : str.

(** [pwd_context.verify(plain, hashed)] (passlib, bcrypt); [None] where
    passlib raises because it cannot identify the stored hash. *)
Variable pwd_context_verify : str -> str -> option bool.

Definition ALGORITHM : str := lit "HS256".
Definition ACCESS_TOKEN_EXPIRE_HOURS : Z := 24.

Definition verify_password (plain_password hashed_password : str)
  : result bool :=
  match pwd_context_verify plain_password hashed_password with
  | Some b => Ok b
  | None => Raise (ValueError "hash could not be identified")
  end.

(** [now_exp] and [now_iat] are the two successive clock readings. *)
Definition create_access_token (user_id : Z) (now_exp now_iat : datetime)
  : Jose.token :=
  let expire := now_exp + timedelta_hours ACCESS_TOKEN_EXPIRE_HOURS in
  let to_encode :=
    [ (lit "sub", PStr (str_of_int user_id));
      (lit "exp", PDatetime expire);
      (lit "iat", PDatetime now_iat) ] in
  Jose.encode hmac_sha256 to_encode BETTER_AUTH_SECRET ALGORITHM.

Definition bad_credentials : exn :=
  HTTPException 401 "Incorrect email or password" true.

Definition inactive_account : exn :=
  HTTPException 403 "Account is inactive" false.

(** The [try] block of [login_user]; [not user or not verify_password(...)]
    evaluates the password check only for a user that was found. *)
Definition login_user_body (d : Db.t) (login_data : UserLoginRequest.t)
    (now_exp now_iat : datetime) : result TokenResponse.t :=
  user <- Db.scalar_one_or_none
            (Db.select_user_by_email d (UserLoginRequest.email login_data)) ;;
  match user with
  | None => Raise bad_credentials
  | Some user =>
      ok <- verify_password (UserLoginRequest.password login_data)
                            (User.password_hash user) ;;
      if negb ok then Raise bad_credentials
      else if negb (User.is_active user) then Raise inactive_account
      else
        let access_token :=
          create_access_token (User.id user) now_exp now_iat in
        Ok (TokenResponse.mk access_token (lit "bearer")
                             (UserResponse.model_validate user))
  end.

Definition login_user (d : Db.t) (login_data : UserLoginRequest.t)
    (now_exp now_iat : datetime) : result TokenResponse.t :=
  match login_user_body d login_data now_exp now_iat with
  | Ok r => Ok r
  | Raise e =>
      if is_HTTPException e then Raise e
      else Raise (HTTPException 500 "Login failed due to server error" false)
  end.

(** [pwd_context.hash(password)] (passlib, bcrypt), as a function of the
    salt passlib draws; [None] where the backend refuses the password. *)
Variable pwd_context_hash : str -> str -> option str.

Definition hash_password (salt password : str) : result str :=
  match pwd_context_hash salt password with
  | Some h => Ok h
  | None => Raise (ValueError "password cannot be hashed")
  end.

Definition email_taken : exn :=
  HTTPException 400 "Email already registered" false.

(** The [try] block of [register_user]; [created] and [updated] are the
    clock readings of the model's [default_factory] fields. *)
Definition register_user_body (d : Db.t) (user_data : UserRegisterRequest.t)
    (salt : str) (created updated now_exp now_iat : datetime)
  : result (Db.t * TokenResponse.t) :=
  existing_user <-
    Db.scalar_one_or_none
      (Db.select_user_by_email d (UserRegisterRequest.email user_data)) ;;
  match existing_user with
  | Some _ => Raise email_taken
  | None =>
      hashed_password <-
        hash_password salt (UserRegisterRequest.password user_data) ;;
      let new_user := fun id =>
        User.mk id (UserRegisterRequest.email user_data) hashed_password
                (UserRegisterRequest.full_name user_data) true
                created updated in
      let (d', new_user) := Db.insert_user d new_user in
      let access_token :=
        create_access_token (User.id new_user) now_exp now_iat in
      Ok (d', TokenResponse.mk access_token (lit "bearer")
                               (UserResponse.model_validate new_user))
  end.

Definition register_user (d : Db.t) (user_data : UserRegisterRequest.t)
    (salt : str) (created updated now_exp now_iat : datetime)
  : result (Db.t * TokenResponse.t) :=
  match register_user_body d user_data salt created updated now_exp now_iat
  with
  | Ok r => Ok r
  | Raise e =>
      if is_HTTPException e then Raise e
      else Raise (HTTPException 500 "Registration failed due to server error"
                                false)
  end.

(** Any exception of the query is swallowed into [None]. *)
Definition get_user_by_id (d : Db.t) (user_id : Z) : option User.t :=
  match Db.scalar_one_or_none (Db.select_user_by_id d user_id) with
  | Ok user => user
  | Raise _ => None
  end.

Definition user_not_found : exn := HTTPException 404 "User not found" false.

Definition get_current_user_body (d : Db.t) (user_id : Z)
  : result UserResponse.t :=
  match get_user_by_id d user_id with
  | None => Raise user_not_found
  | Some user => Ok (UserResponse.model_validate user)
  end.

Definition get_current_user (d : Db.t) (user_id : Z) : result UserResponse.t :=
  match get_current_user_body d user_id with
  | Ok r => Ok r
  | Raise e =>
      if is_HTTPException e then Raise e
      else Raise (HTTPException 500 "Failed to retrieve user information"
                                false)
  end.

End WithContext.

End UserService.

(* ================================================================== *)
(** * middleware/auth.py and api/tasks.py                              *)
(* ================================================================== *)

Module Api.

Section WithContext.

Variable hmac_sha256 : str -> Jose.signing_input -> Jose.digest.
Variable BETTER_AUTH_SECRET : str.
Variable updated_at_trigger : Task.t -> Task.t -> datetime -> datetime.

(** [credentials] is what [HTTPBearer] extracted, if anything. *)
Definition get_current_user_id (credentials : option Jose.token)
    (now : datetime) : result Z :=
  match credentials with
  | None => Raise (HTTPException 401 "Missing authentication token" true)
  | Some token => Auth.verify_token hmac_sha256 BETTER_AUTH_SECRET token now
  end.

(** POST /api/tasks: the body is parsed into [TaskCreate] before the handler
    runs. *)
Definition create_task (d : Db.t) (body : dict) (user_id : Z)
    (created updated : datetime) : result (Db.t * TaskResponse.t) :=
  task_data <- TaskCreate.model_validate body ;;
  TaskService.create_task d user_id task_data created updated.

(** GET /api/tasks *)
Definition get_tasks (d : Db.t) (status_filter : option str) (user_id : Z)
  : result TaskListResponse.t :=
  Ok (TaskService.get_user_tasks d user_id status_filter).

(** PUT /api/tasks/{task_id} *)
Definition update_task (d : Db.t) (task_id : Z) (body : dict) (user_id : Z)
    (now : datetime) : result (Db.t * TaskResponse.t) :=
  task_data <- TaskUpdate.model_validate body ;;
  TaskService.update_task updated_at_trigger d user_id task_id task_data now.

Variable pwd_context_verify : str -> str -> option bool.
Variable pwd_context_hash : str -> str -> option str.
Variable validate_email : str -> option str.

(** GET /api/tasks/{task_id} *)
Definition get_task (d : Db.t) (task_id user_id : Z) : result TaskResponse.t :=
  TaskService.get_task_by_id d user_id task_id.

(** DELETE /api/tasks/{task_id} *)
Definition delete_task (d : Db.t) (task_id user_id : Z)
  : result (Db.t * unit) :=
  TaskService.delete_task d user_id task_id.


(** POST /api/auth/register: the body is parsed into [UserRegisterRequest]
    before the handler runs. *)
Definition register (d : Db.t) (body : dict) (salt : str)
    (created updated now_exp now_iat : datetime)
  : result (Db.t * TokenResponse.t) :=
  user_data <- UserRegisterRequest.model_validate validate_email body ;;
  UserService.register_user hmac_sha256 BETTER_AUTH_SECRET pwd_context_hash
    d user_data salt created updated now_exp now_iat.

(** POST /api/auth/login *)
Definition login (d : Db.t) (login_data : UserLoginRequest.t)
    (now_exp now_iat : datetime) : result TokenResponse.t :=
  UserService.login_user hmac_sha256 BETTER_AUTH_SECRET pwd_context_verify
    d login_data now_exp now_iat.

(** POST /api/auth/logout: the token is left as it is. *)
Definition logout (user_id : Z) : MessageResponse.t :=
  MessageResponse.mk (lit "Logged out successfully").

(** GET /api/auth/me *)
Definition get_current_user (d : Db.t) (user_id : Z) : result UserResponse.t :=
  UserService.get_current_user d user_id.

End WithContext.

End Api.

(* ================================================================== *)
(** * Observations used in the statements                              *)
(* ================================================================== *)

(** The database after a call: a raise leaves it as it was. *)
Definition db_after {A} (d : Db.t) (r : result (Db.t * A)) : Db.t :=
  match r with
  | Ok (d', _) => d'
  | Raise _ => d
  end.

(** The row stored under a key, if any. *)
Definition row (d : Db.t) (task_id : Z) : option Task.t :=
  find (fun r => Task.id r =? task_id) (Db.tasks d).

(** The expiry a token carries, as [jwt.decode] reads it. *)
Definition token_exp (t : Jose.token) : option Z :=
  match t with
  | Jose.Compact _ (Jose.Claims c) _ =>
      match get c (lit "exp") with
      | Some v => match int v with Ok e => Some e | Raise _ => None end
      | None => None
      end
  | _ => None
  end.

(** The row [update_task] leaves in the table for the loaded row [task0]:
    the assignments of the request, then the database's [updated_at]. *)
Definition updated_row
    (updated_at_trigger : Task.t -> Task.t -> datetime -> datetime)
    (task0 : Task.t) (task_data : TaskUpdate.t) (now : datetime) : Task.t :=
  let task :=
    match TaskUpdate.title task_data with
    | Some v => TaskService.set_title task0 v
    | None => task0
    end in
  let task :=
    match TaskUpdate.description task_data with
    | Some v => TaskService.set_description task (Some v)
    | None => task
    end in
  TaskService.set_updated_at task (updated_at_trigger task0 task now).

(** Following the specification: a title is accepted when it has 1 to 200
    characters and is not only whitespace, and is stored trimmed. *)
Definition spec_title (v t : str) : Prop :=
  (1 <= List.length v <= 200)%nat /\ strip v <> [] /\ t = strip v.

(** Following the specification: a description is optional, has at most
    1000 characters, is stored trimmed, and an empty one is absent. *)
Definition spec_description (field : option value) (stored : option str)
  : Prop :=
  match field with
  | None | Some PNone => stored = None
  | Some (PStr v) =>
      (List.length v <= 1000)%nat /\
      stored = (if truthy (strip v) then Some (strip v) else None)
  | Some _ => False
  end.

(** Following the specification: on update the title is optional, and a
    supplied one is held to the rule of create. *)
Definition spec_optional_title (field : option value) (parsed : option str)
  : Prop :=
  match field with
  | None | Some PNone => parsed = None
  | Some (PStr v) => exists t, parsed = Some t /\ spec_title v t
  | Some _ => False
  end.

(* ================================================================== *)
(** * Sample data                                                      *)
(* ================================================================== *)

(** A stand-in MAC: the tag is the key followed by the algorithm name. *)
Definition sample_mac (key : str) (input : Jose.signing_input) : Jose.digest :=
  key ++ match fst input with Some alg => alg | None => [] end.

(** A stand-in password check: the stored hash is a fixed prefix followed by
    the password. *)
Definition sample_pwd_verify (plain hashed : str) : option bool :=
  Some (str_eqb hashed (lit "$2b$12$" ++ plain)).

(** A database that stamps every rewritten row with the clock. *)
Definition stamp_now (old new : Task.t) (now : datetime) : datetime := now.

(** A token signed under the secret of the samples that expired an hour
    before 1700000000 s. *)
Definition stale_token : Jose.token :=
  Jose.encode sample_mac
    [ (lit "sub", PStr (lit "7")); (lit "exp", PInt 1699996400) ]
    (lit "secret") (lit "HS256").

(** A token signed under the same secret whose expiry is 1700000000 s. *)
Definition last_second_token : Jose.token :=
  Jose.encode sample_mac
    [ (lit "sub", PStr (lit "7")); (lit "exp", PInt 1700000000) ]
    (lit "secret") (lit "HS256").

Definition sample_task : Task.t :=
  Task.mk 1 10 (lit "write report") (Some (lit "first draft")) false
          1700000000000000 1700000000000000.

(** Two users, one of them inactive, and their tasks. *)
Definition sample_db : Db.t :=
  Db.mk
    [ sample_task;
      Task.mk 2 20 (lit "buy milk") None true
              1700000100000000 1700000200000000;
      Task.mk 3 10 (lit "call bank") None true
              1700000300000000 1700000300000000 ]
    4
    [ User.mk 10 (lit "a@x.com") (lit "$2b$12$aaaa") None true
              1690000000000000 1690000000000000;
      User.mk 20 (lit "b@x.com") (lit "$2b$12$bbbb") (Some (lit "B")) false
              1690000000000000 1690000000000000 ].

(** A stand-in hasher matching [sample_pwd_verify]; the salt is dropped. *)
Definition sample_pwd_hash (salt plain : str) : option str :=
  Some (lit "$2b$12$" ++ plain).

(** A stand-in address check: the string must hold an [@]. *)
Definition sample_validate_email (v : str) : option str :=
  if existsb (N.eqb 64) v then Some v else None.

(* ================================================================== *)
(** * Tactics                                                          *)
(* ================================================================== *)

(** Reading one decimal digit, by the lemma [step] for it. *)
Ltac digit_step step k :=
  match goal with
  | |- context [int_digits ?acc (?c :: ?s)] =>
      change c with (48 + k)%N; rewrite (step k acc s) by lia
  end.

Ltac any_digit_step step :=
  first [ digit_step step 0%N | digit_step step 1%N | digit_step step 2%N
        | digit_step step 3%N | digit_step step 4%N | digit_step step 5%N
        | digit_step step 6%N | digit_step step 7%N | digit_step step 8%N
        | digit_step step 9%N ].


(** A registration request for the samples. *)
Definition sample_registration : UserRegisterRequest.t :=
  UserRegisterRequest.mk (lit "c@x.com") (lit "pw12345678") None.

(** The same as a body, with a key the schema does not declare. *)
Definition sample_register_body : dict :=
  [ (lit "email", PStr (lit "c@x.com"));
    (lit "password", PStr (lit "pw12345678"));
    (lit "is_active", PBool false) ].
(* ================================================================== *)
(** * Strings and integers                                             *)
(* ================================================================== *)

Lemma str_eqb_refl (s : str) : str_eqb s s = true.
Proof.
  induction s as [|c s IH]; simpl; [reflexivity|].
  now rewrite N.eqb_refl, IH.
Qed.

Lemma str_eqb_eq (a b : str) : str_eqb a b = true <-> a = b.
Proof.
  split; [|intros ->; apply str_eqb_refl].
  revert b; induction a as [|x a IH]; intros [|y b]; simpl; try easy.
  intros H; apply andb_true_iff in H as [H1 H2].
  apply N.eqb_eq in H1; apply IH in H2; congruence.
Qed.

Lemma lstrip_id (s : str) :
  Forall (fun c => isspace c = false) s -> lstrip s = s.
Proof. destruct 1 as [|c s Hc _]; simpl; [reflexivity | now rewrite Hc]. Qed.

Lemma strip_id (s : str) :
  Forall (fun c => isspace c = false) s -> strip s = s.
Proof.
  intros H; unfold strip, rstrip.
  rewrite (lstrip_id s H), lstrip_id, rev_involutive; [reflexivity|].
  now apply Forall_rev.
Qed.

Lemma int_lstrip_id (s : str) :
  Forall (fun c => int_isspace c = false) s -> int_lstrip s = s.
Proof.
  destruct 1 as [|c s Hc _]; cbn [int_lstrip]; [reflexivity | now rewrite Hc].
Qed.

Lemma int_strip_id (s : str) :
  Forall (fun c => int_isspace c = false) s -> int_strip s = s.
Proof.
  intros H; unfold int_strip.
  rewrite (int_lstrip_id s H), int_lstrip_id, rev_involutive; [reflexivity|].
  now apply Forall_rev.
Qed.

Lemma uint_digits_not_space (d : Decimal.uint) :
  Forall (fun c => int_isspace c = false) (uint_digits d).
Proof. induction d; cbn [uint_digits]; constructor; auto. Qed.

Lemma digit_val_digit (k : N) : (k <= 9)%N -> digit_val (48 + k)%N = Some k.
Proof.
  intro H.
  assert (Hk : In k [0; 1; 2; 3; 4; 5; 6; 7; 8; 9]%N).
  { destruct k as [|p]; [now left|].
    do 10 (destruct p as [p|p|]; try lia; cbn [In]; auto 12). }
  cbn [In] in Hk.
  repeat (destruct Hk as [<- | Hk]; [reflexivity|]). destruct Hk.
Qed.

Lemma int_digits_step (k acc : N) (s : str) :
  (k <= 9)%N ->
  int_digits acc ((48 + k)%N :: s) = int_digits (10 * acc + k)%N s.
Proof.
  intro H; cbn [int_digits].
  replace ((48 + k =? 95)%N) with false
    by (symmetry; apply N.eqb_neq; lia).
  now rewrite digit_val_digit.
Qed.

Lemma int_digits_acc (d : Decimal.uint) (acc : positive) :
  int_digits (Npos acc) (uint_digits d) = Some (Npos (Pos.of_uint_acc d acc)).
Proof.
  revert acc; induction d; intro acc;
    cbn [uint_digits Pos.of_uint_acc]; [reflexivity|..];
    any_digit_step int_digits_step; rewrite <- IHd; f_equal; lia.
Qed.

Lemma int_digits_zero (d : Decimal.uint) :
  int_digits 0 (uint_digits d) = Some (Pos.of_uint d).
Proof.
  induction d; cbn [uint_digits Pos.of_uint]; [reflexivity|..];
    any_digit_step int_digits_step; first [ exact IHd | apply (int_digits_acc d) ].
Qed.

Lemma int_unsigned_digits (d : Decimal.uint) :
  d <> Decimal.Nil -> int_unsigned (uint_digits d) = Some (N.of_uint d).
Proof.
  destruct d; intro H; try congruence; unfold int_unsigned;
    cbn [uint_digits];
    match goal with
    | |- match digit_val ?c with _ => _ end = _ =>
        change (digit_val c) with (Some (c - 48)%N); cbv iota beta
    end;
    match goal with
    | |- int_digits ?k _ = _ =>
        let k' := eval vm_compute in k in change k with k'
    end;
    unfold N.of_uint; cbn [Pos.of_uint];
    first [ apply int_digits_zero | apply int_digits_acc ].
Qed.

Lemma to_int_nonnil (x : Z) :
  match Z.to_int x with Decimal.Pos d | Decimal.Neg d => d <> Decimal.Nil end.
Proof.
  destruct x; simpl; try discriminate;
    apply DecimalPos.Unsigned.to_uint_nonnil.
Qed.

(** [int(str(x)) == x] *)
Lemma int_of_str_of_int (x : Z) : int_of_str (str_of_int x) = Ok x.
Proof.
  pose proof (DecimalZ.of_to x) as Hx.
  pose proof (to_int_nonnil x) as Hn.
  unfold int_of_str, str_of_int.
  destruct (Z.to_int x) as [d|d].
  - rewrite int_strip_id by apply uint_digits_not_space.
    pose proof (int_unsigned_digits d Hn) as Hd.
    destruct d; try congruence; cbn [uint_digits] in *;
      cbn [N.eqb Pos.eqb];
      match goal with
      | |- match ?a with _ => _ end = _ => rewrite (Hd : a = _)
      end; simpl in Hx; now rewrite <- Hx.
  - rewrite int_strip_id
      by (constructor; [reflexivity | apply uint_digits_not_space]).
    cbn [N.eqb Pos.eqb].
    rewrite (int_unsigned_digits d Hn). simpl in Hx. now rewrite <- Hx.
Qed.

Example str_of_int_neg : str_of_int (-120) = lit "-120".
Proof. reflexivity. Qed.

Example str_of_int_zero : str_of_int 0 = lit "0".
Proof. reflexivity. Qed.

Example int_of_str_padded : int_of_str (lit "  +1_000 ") = Ok 1000.
Proof. reflexivity. Qed.

Example int_of_str_bad_underscore :
  int_of_str (lit "1__0") = Raise invalid_literal.
Proof. reflexivity. Qed.

Example int_of_str_empty : int_of_str (lit " ") = Raise invalid_literal.
Proof. reflexivity. Qed.

Example int_of_str_separator :
  int_of_str [28; 52; 50]%N = Raise invalid_literal.
Proof. reflexivity. Qed.

Example int_of_str_arabic_indic : int_of_str [1636; 1634]%N = Ok 42.
Proof. reflexivity. Qed.

Example int_of_str_wide_space :
  int_of_str [12288; 65300; 50; 160]%N = Ok 42.
Proof. reflexivity. Qed.

Example strip_both_ends : strip (lit "  buy  milk ") = lit "buy  milk".
Proof. reflexivity. Qed.

Example create_title_blank :
  TaskCreate.validate_title (Some (PStr (lit "  ")))
  = Raise (validation_error "Title cannot be only whitespace").
Proof. reflexivity. Qed.

Example create_title_trimmed :
  TaskCreate.model_validate
    [ (lit "title", PStr (lit " tidy up ")); (lit "description", PStr (lit " ")) ]
  = Ok (TaskCreate.mk (lit "tidy up") None).
Proof. reflexivity. Qed.

(* ================================================================== *)
(** * Token service                                                    *)
(* ================================================================== *)

Section TokenService.

Variable hmac_sha256 : str -> Jose.signing_input -> Jose.digest.
Variable BETTER_AUTH_SECRET : str.

Lemma timegm_expire (t : datetime) :
  timegm (t + timedelta_hours UserService.ACCESS_TOKEN_EXPIRE_HOURS)
  = timegm t + 86400.
Proof.
  unfold timegm, timedelta_hours, UserService.ACCESS_TOKEN_EXPIRE_HOURS.
  replace (t + 24 * 3600 * 1000000) with (t + 86400 * 1000000) by lia.
  now rewrite Z.div_add by lia.
Qed.

(** What [jwt.decode] returns for a token of [create_access_token] that has
    not expired: the three claims, the times in whole seconds. *)
Lemma decode_issued (x : Z) (now_exp now_iat now : datetime) :
  timegm now <= timegm now_exp + 86400 ->
  Jose.decode hmac_sha256
    (UserService.create_access_token hmac_sha256 BETTER_AUTH_SECRET
       x now_exp now_iat)
    BETTER_AUTH_SECRET [Auth.ALGORITHM] now
  = Ok [ (lit "sub", PStr (str_of_int x));
         (lit "exp", PInt (timegm now_exp + 86400));
         (lit "iat", PInt (timegm now_iat)) ].
Proof.
  intro Hfresh.
  unfold UserService.create_access_token, Jose.decode,
    Jose.encode, Jose.jws_verify.
  unfold Jose.digest_eqb; rewrite str_eqb_refl.
  change (existsb (str_eqb UserService.ALGORITHM) [Auth.ALGORITHM])
    with true.
  cbn [negb bind map].
  change (Jose.numeric_date (lit "sub", PStr (str_of_int x)))
    with (lit "sub", PStr (str_of_int x)).
  change (Jose.numeric_date (lit "exp", PDatetime ?d))
    with (lit "exp", PInt (timegm d)).
  change (Jose.numeric_date (lit "iat", PDatetime ?d))
    with (lit "iat", PInt (timegm d)).
  rewrite timegm_expire.
  unfold Jose._validate_claims, Jose._validate_iat, Jose._validate_nbf,
    Jose._validate_exp, Jose._validate_aud, Jose._validate_sub,
    Jose._validate_jti, Jose._validate_at_hash.
  change (get ?c (lit "iat")) with (Some (PInt (timegm now_iat))).
  change (get ?c (lit "nbf")) with (@None value).
  change (get ?c (lit "exp")) with (Some (PInt (timegm now_exp + 86400))).
  change (get ?c (lit "aud")) with (@None value).
  change (get ?c (lit "sub")) with (Some (PStr (str_of_int x))).
  change (get ?c (lit "jti")) with (@None value).
  change (get ?c (lit "at_hash")) with (@None value).
  cbn [bind Jose.claim_int int is_str].
  replace (timegm now_exp + 86400 <? timegm now - 0) with false
    by (symmetry; apply Z.ltb_ge; lia).
  reflexivity.
Qed.

(** C3. Verifying a token freshly issued for [x] returns [x]: under the same
    secret and HS256, [verify_token(create_access_token(x)) == x] whenever
    the verifier's clock, which it reads in whole seconds, has not passed
    the token's expiry of 24 hours after issue. *)
Theorem verify_issue_round_trip (x : Z) (now_exp now_iat now : datetime) :
  timegm now <= timegm (now_exp + timedelta_hours 24) ->
  Auth.verify_token hmac_sha256 BETTER_AUTH_SECRET
    (UserService.create_access_token hmac_sha256 BETTER_AUTH_SECRET
       x now_exp now_iat) now
  = Ok x.
Proof.
  intro Hfresh.
  change 24 with UserService.ACCESS_TOKEN_EXPIRE_HOURS in Hfresh.
  rewrite timegm_expire in Hfresh.
  unfold Auth.verify_token, Auth.verify_token_body.
  rewrite (decode_issued x now_exp now_iat now Hfresh).
  cbn [bind].
  change (get ?c (lit "sub")) with (Some (PStr (str_of_int x))).
  cbn [int]. now rewrite int_of_str_of_int.
Qed.

(** [verify_token] returns an identifier or raises 401 with the bearer
    challenge; nothing else leaves it. *)
Lemma verify_token_raises (token : Jose.token) (now : datetime) (e : exn) :
  Auth.verify_token_body hmac_sha256 BETTER_AUTH_SECRET token now = Raise e ->
  exists detail,
    Auth.verify_token hmac_sha256 BETTER_AUTH_SECRET token now
    = Raise (Auth.unauthorized detail).
Proof.
  intro H; unfold Auth.verify_token; rewrite H.
  destruct (is_JWTError e); [|destruct (is_ValueError e)]; eexists;
    reflexivity.
Qed.

Lemma validate_exp_expired (claims : dict) (v : value) (e now : Z) :
  get claims (lit "exp") = Some v -> int v = Ok e -> e < now ->
  Jose._validate_exp claims now 0
  = Raise (ExpiredSignatureError "Signature has expired.").
Proof.
  intros Hget Hint Hlt; unfold Jose._validate_exp, Jose.claim_int.
  rewrite Hget, Hint; cbn [bind].
  now replace (e <? now - 0) with true by (symmetry; apply Z.ltb_lt; lia).
Qed.

Lemma validate_claims_expired (claims : dict) (v : value) (e now : Z) :
  get claims (lit "exp") = Some v -> int v = Ok e -> e < now ->
  exists err, Jose._validate_claims claims now = Raise err.
Proof.
  intros Hget Hint Hlt; unfold Jose._validate_claims.
  destruct (Jose._validate_iat claims) as [[]|e1]; cbn [bind];
    [|now exists e1].
  destruct (Jose._validate_nbf claims now 0) as [[]|e2]; cbn [bind];
    [|now exists e2].
  rewrite (validate_exp_expired claims v e now Hget Hint Hlt); cbn [bind].
  now eexists.
Qed.

Lemma decode_expired (token : Jose.token) (now : datetime) (e : Z) :
  token_exp token = Some e -> e < timegm now ->
  exists err,
    Jose.decode hmac_sha256 token BETTER_AUTH_SECRET [Auth.ALGORITHM] now
    = Raise err.
Proof.
  intros Hexp Hlt.
  destruct token as [raw | alg [raw | claims] sig]; try discriminate.
  unfold token_exp in Hexp.
  destruct (get claims (lit "exp")) as [v|] eqn:Hget; [|discriminate].
  destruct (int v) as [e'|] eqn:Hint; [|discriminate].
  injection Hexp as ->.
  unfold Jose.decode.
  destruct (Jose.jws_verify hmac_sha256 (Jose.Compact alg (Jose.Claims claims) sig)
              BETTER_AUTH_SECRET [Auth.ALGORITHM]) as [body|err] eqn:Hsig;
    cbn [bind]; [|now exists err].
  assert (body = Jose.Claims claims) as ->.
  { unfold Jose.jws_verify in Hsig. destruct alg as [alg|]; [|discriminate].
    destruct (negb _); [discriminate|].
    destruct (negb _); [discriminate|]. congruence. }
  destruct (validate_claims_expired claims v e (timegm now) Hget Hint Hlt)
    as [err Herr].
  rewrite Herr; cbn [bind]. now exists err.
Qed.

(** C4. A token whose expiry lies before the verifier's clock read in whole
    seconds (the verifier drops the fraction of the current second, so a
    token stays good until the second after its expiry begins) is refused
    with 401 Unauthorized and the bearer challenge, whatever its signature,
    its algorithm and its other claims are, and no identifier is returned
    for it; when its signature is valid under the secret and its [iat] and
    [nbf] claims pass, the refusal is the one for an expired signature. *)
Theorem expired_token_unauthorized
    (token : Jose.token) (now : datetime) (e : Z) :
  token_exp token = Some e -> e < timegm now ->
  (exists detail,
     Auth.verify_token hmac_sha256 BETTER_AUTH_SECRET token now
     = Raise (HTTPException 401 detail true)) /\
  (forall claims,
     Jose.jws_verify hmac_sha256 token BETTER_AUTH_SECRET [Auth.ALGORITHM]
     = Ok (Jose.Claims claims) ->
     Jose._validate_iat claims = Ok tt ->
     Jose._validate_nbf claims (timegm now) 0 = Ok tt ->
     Auth.verify_token hmac_sha256 BETTER_AUTH_SECRET token now
     = Raise (HTTPException 401
         "Invalid or expired token: Signature has expired." true)).
Proof.
  intros Hexp Hlt. split.
  - destruct (decode_expired token now e Hexp Hlt) as [err Herr].
    apply (verify_token_raises token now err).
    unfold Auth.verify_token_body. now rewrite Herr.
  - intros claims Hsig Hiat Hnbf.
    assert (Hget : exists v, get claims (lit "exp") = Some v /\ int v = Ok e).
    { destruct token as [raw | alg [raw | c] sig]; try discriminate.
      assert (c = claims) as ->.
      { unfold Jose.jws_verify in Hsig. destruct alg as [alg|]; [|discriminate].
        destruct (negb _); [discriminate|].
        destruct (negb _); [discriminate|]. congruence. }
      unfold token_exp in Hexp.
      destruct (get claims (lit "exp")) as [v|]; [|discriminate].
      destruct (int v) as [e'|] eqn:Hint; [|discriminate].
      exists v. split; congruence. }
    destruct Hget as (v & Hget & Hint).
    unfold Auth.verify_token, Auth.verify_token_body, Jose.decode.
    rewrite Hsig; cbn [bind]. unfold Jose._validate_claims.
    rewrite Hiat, Hnbf; cbn [bind].
    rewrite (validate_exp_expired claims v e (timegm now) Hget Hint Hlt).
    reflexivity.
Qed.

(** The same on a token of this service, whose signature is valid: after the
    24 hours it is refused as expired. *)
Lemma verify_issued_after_expiry (x : Z) (now_exp now_iat now : datetime) :
  timegm now_exp + 86400 < timegm now ->
  Auth.verify_token hmac_sha256 BETTER_AUTH_SECRET
    (UserService.create_access_token hmac_sha256 BETTER_AUTH_SECRET
       x now_exp now_iat) now
  = Raise (Auth.unauthorized
             "Invalid or expired token: Signature has expired.").
Proof.
  intro Hlate.
  unfold Auth.verify_token, Auth.verify_token_body,
    UserService.create_access_token, Jose.decode, Jose.encode,
    Jose.jws_verify.
  unfold Jose.digest_eqb; rewrite str_eqb_refl.
  change (existsb (str_eqb UserService.ALGORITHM) [Auth.ALGORITHM])
    with true.
  cbn [negb bind map].
  change (Jose.numeric_date (lit "sub", PStr (str_of_int x)))
    with (lit "sub", PStr (str_of_int x)).
  change (Jose.numeric_date (lit "exp", PDatetime ?d))
    with (lit "exp", PInt (timegm d)).
  change (Jose.numeric_date (lit "iat", PDatetime ?d))
    with (lit "iat", PInt (timegm d)).
  rewrite timegm_expire.
  unfold Jose._validate_claims, Jose._validate_iat, Jose._validate_nbf.
  change (get ?c (lit "iat")) with (Some (PInt (timegm now_iat))).
  change (get ?c (lit "nbf")) with (@None value).
  cbn [bind Jose.claim_int int].
  erewrite validate_exp_expired; [reflexivity| | |exact Hlate]; reflexivity.
Qed.

End TokenService.

Lemma verify_issue_round_trip_witness :
  Auth.verify_token sample_mac (lit "secret")
    (UserService.create_access_token sample_mac (lit "secret") 42
       1700000000000000 1700000000000003)
    1700000360000000
  = Ok 42.
Proof.
  apply (verify_issue_round_trip sample_mac (lit "secret") 42
           1700000000000000 1700000000000003 1700000360000000).
  vm_compute; discriminate.
Defined.

Lemma expired_token_unauthorized_witness :
  (exists detail,
     Auth.verify_token sample_mac (lit "secret") stale_token 1700000000000000
     = Raise (HTTPException 401 detail true)) /\
  Auth.verify_token sample_mac (lit "secret") stale_token 1700000000000000
  = Raise (HTTPException 401
      "Invalid or expired token: Signature has expired." true).
Proof.
  split.
  - apply (proj1 (expired_token_unauthorized sample_mac (lit "secret")
                    stale_token 1700000000000000 1699996400 eq_refl
                    eq_refl)).
  - apply (proj2 (expired_token_unauthorized sample_mac (lit "secret")
                    stale_token 1700000000000000 1699996400 eq_refl
                    eq_refl)
             [ (lit "sub", PStr (lit "7")); (lit "exp", PInt 1699996400) ]);
      reflexivity.
Defined.

(** A token with a valid signature whose expiry, 1700000000 s, lies before
    the wall clock, 1700000000.999999 s, and which still verifies: the
    verifier compares whole seconds. *)
Lemma expiry_second_still_accepted :
  token_exp last_second_token = Some 1700000000 /\
  1700000000 * 1000000 < 1700000000999999 /\
  Auth.verify_token sample_mac (lit "secret") last_second_token
    1700000000999999
  = Ok 7 /\
  ~ (exists detail,
       Auth.verify_token sample_mac (lit "secret") last_second_token
         1700000000999999
       = Raise (HTTPException 401 detail true)).
Proof.
  split; [reflexivity|]. split; [reflexivity|].
  assert (H : Auth.verify_token sample_mac (lit "secret") last_second_token
                1700000000999999 = Ok 7) by reflexivity.
  split; [exact H|]. intros [detail Hd]. rewrite H in Hd. discriminate.
Qed.

(* ================================================================== *)
(** * The tasks table                                                   *)
(* ================================================================== *)

Lemma distinct_cons_inv (x : Z) (l : list Z) :
  Db.distinct (x :: l) = true -> ~ In x l /\ Db.distinct l = true.
Proof.
  cbn [Db.distinct]; intro H; apply andb_true_iff in H as [H1 H2].
  split; [|exact H2].
  intro Hin. apply negb_true_iff in H1.
  assert (existsb (Z.eqb x) l = true) as E; [|congruence].
  apply existsb_exists; exists x; split; [exact Hin | apply Z.eqb_refl].
Qed.

Lemma filter_none {A} (p : A -> bool) (l : list A) :
  (forall x, In x l -> p x = false) -> filter p l = [].
Proof.
  induction l as [|x l IH]; intro H; [reflexivity|]; cbn [filter].
  rewrite (H x (or_introl eq_refl)). apply IH; intros y Hy; apply H; now right.
Qed.

(** A key names at most one row. *)
Lemma select_by_key (l : list Task.t) (T : Task.t) :
  Db.distinct (map Task.id l) = true -> In T l ->
  filter (fun r => Task.id r =? Task.id T) l = [T].
Proof.
  induction l as [|r l IH]; intros Hpk Hin; [destruct Hin|].
  cbn [map] in Hpk; apply distinct_cons_inv in Hpk as [Hnot Hpk].
  cbn [filter]. destruct Hin as [-> | Hin].
  - rewrite Z.eqb_refl; f_equal.
    apply filter_none; intros r Hr.
    apply Z.eqb_neq; intro E; apply Hnot; rewrite <- E; now apply in_map.
  - destruct (Task.id r =? Task.id T) eqn:E; [|now apply IH].
    apply Z.eqb_eq in E; exfalso; apply Hnot; rewrite E; now apply in_map.
Qed.

Lemma select_absent_key (l : list Task.t) (task_id : Z) :
  ~ In task_id (map Task.id l) ->
  filter (fun r => Task.id r =? task_id) l = [].
Proof.
  intro Hnot; apply filter_none; intros r Hr.
  apply Z.eqb_neq; intro E; apply Hnot; rewrite <- E; now apply in_map.
Qed.

Lemma filter_andb {A} (p q : A -> bool) (l : list A) :
  filter (fun x => p x && q x) l = filter q (filter p l).
Proof.
  induction l as [|x l IH]; [reflexivity|]; cbn [filter].
  destruct (p x); cbn [andb filter]; [destruct (q x)|]; now rewrite IH.
Qed.

(** The owner-scoped query on a key that exists. *)
Lemma select_task_present (d : Db.t) (T : Task.t) (user_id : Z) :
  Db.primary_key d = true -> In T (Db.tasks d) ->
  Db.select_task d (Task.id T) user_id
  = if Task.user_id T =? user_id then [T] else [].
Proof.
  intros Hpk Hin; unfold Db.select_task.
  rewrite (filter_andb (fun r => Task.id r =? Task.id T)
                       (fun r => Task.user_id r =? user_id)).
  rewrite (select_by_key _ T Hpk Hin). reflexivity.
Qed.

Lemma select_task_absent (d : Db.t) (task_id user_id : Z) :
  ~ In task_id (map Task.id (Db.tasks d)) ->
  Db.select_task d task_id user_id = [].
Proof.
  intro Hnot; unfold Db.select_task.
  rewrite (filter_andb (fun r => Task.id r =? task_id)
                       (fun r => Task.user_id r =? user_id)).
  now rewrite (select_absent_key _ task_id Hnot).
Qed.

Lemma lookup_owner (d : Db.t) (T : Task.t) :
  Db.primary_key d = true -> In T (Db.tasks d) ->
  TaskService.lookup d (Task.user_id T) (Task.id T) = Ok T.
Proof.
  intros Hpk Hin; unfold TaskService.lookup.
  rewrite (select_task_present d T _ Hpk Hin), Z.eqb_refl. reflexivity.
Qed.

Lemma lookup_other_owner (d : Db.t) (T : Task.t) (user_id : Z) :
  Db.primary_key d = true -> In T (Db.tasks d) -> user_id <> Task.user_id T ->
  TaskService.lookup d user_id (Task.id T) = Raise TaskService.not_found.
Proof.
  intros Hpk Hin Hne; unfold TaskService.lookup.
  rewrite (select_task_present d T _ Hpk Hin).
  replace (Task.user_id T =? user_id) with false; [reflexivity|].
  symmetry; apply Z.eqb_neq; congruence.
Qed.

Lemma lookup_absent (d : Db.t) (task_id user_id : Z) :
  ~ In task_id (map Task.id (Db.tasks d)) ->
  TaskService.lookup d user_id task_id = Raise TaskService.not_found.
Proof.
  intro Hnot; unfold TaskService.lookup.
  now rewrite (select_task_absent d task_id user_id Hnot).
Qed.

(** The row a key names is the one [find] meets first. *)
Lemma row_present (d : Db.t) (T : Task.t) :
  Db.primary_key d = true -> In T (Db.tasks d) -> row d (Task.id T) = Some T.
Proof.
  unfold row, Db.primary_key; induction (Db.tasks d) as [|r l IH];
    intros Hpk Hin; [destruct Hin|].
  cbn [map] in Hpk; apply distinct_cons_inv in Hpk as [Hnot Hpk].
  cbn [find]. destruct Hin as [-> | Hin]; [now rewrite Z.eqb_refl|].
  destruct (Task.id r =? Task.id T) eqn:E; [|now apply IH].
  apply Z.eqb_eq in E; exfalso; apply Hnot; rewrite E; now apply in_map.
Qed.

(** Rewriting a row by its key keeps every key where it is. *)
Lemma update_task_keys (d : Db.t) (T' : Task.t) :
  map Task.id (Db.tasks (Db.update_task d T')) = map Task.id (Db.tasks d).
Proof.
  unfold Db.update_task; cbn [Db.tasks]; rewrite map_map.
  apply map_ext; intro r.
  destruct (Task.id r =? Task.id T') eqn:E; [|reflexivity].
  apply Z.eqb_eq in E; congruence.
Qed.

Lemma update_task_primary_key (d : Db.t) (T' : Task.t) :
  Db.primary_key d = true -> Db.primary_key (Db.update_task d T') = true.
Proof. unfold Db.primary_key; now rewrite update_task_keys. Qed.

Lemma update_task_stored (d : Db.t) (T T' : Task.t) :
  In T (Db.tasks d) -> Task.id T' = Task.id T ->
  In T' (Db.tasks (Db.update_task d T')).
Proof.
  intros Hin Hid; unfold Db.update_task; cbn [Db.tasks].
  apply in_map_iff; exists T; split; [|exact Hin].
  now rewrite Hid, Z.eqb_refl.
Qed.

Lemma update_task_others (d : Db.t) (T' r : Task.t) :
  In r (Db.tasks d) -> Task.id r <> Task.id T' ->
  In r (Db.tasks (Db.update_task d T')).
Proof.
  intros Hin Hne; unfold Db.update_task; cbn [Db.tasks].
  apply in_map_iff; exists r; split; [|exact Hin].
  now replace (Task.id r =? Task.id T') with false
    by (symmetry; now apply Z.eqb_neq).
Qed.

Lemma distinct_app_fresh (l : list Z) (x : Z) :
  Db.distinct l = true -> ~ In x l -> Db.distinct (l ++ [x]) = true.
Proof.
  induction l as [|y l IH]; intros Hd Hx; [reflexivity|].
  apply distinct_cons_inv in Hd as [Hy Hd].
  cbn [app Db.distinct]. apply andb_true_iff; split.
  - apply negb_true_iff, not_true_iff_false; intro E.
    apply existsb_exists in E as (z & Hz & Ez). apply Z.eqb_eq in Ez; subst z.
    apply in_app_or in Hz as [Hz | [Hz | []]]; [now apply Hy|].
    apply Hx; now left.
  - apply IH; [exact Hd | intro; apply Hx; now right].
Qed.

Lemma distinct_filter {A} (f : A -> Z) (p : A -> bool) (l : list A) :
  Db.distinct (map f l) = true -> Db.distinct (map f (filter p l)) = true.
Proof.
  induction l as [|x l IH]; intro Hd; [reflexivity|].
  cbn [map] in Hd; apply distinct_cons_inv in Hd as [Hx Hd].
  cbn [filter]; destruct (p x); [|now apply IH].
  cbn [map Db.distinct]. apply andb_true_iff; split; [|now apply IH].
  apply negb_true_iff, not_true_iff_false; intro E.
  apply existsb_exists in E as (z & Hz & Ez). apply Z.eqb_eq in Ez; subst z.
  apply Hx. apply in_map_iff in Hz as (y & Hy & Hin).
  apply in_map_iff; exists y; split; [exact Hy|].
  apply (proj1 (filter_In _ _ _)) in Hin; tauto.
Qed.

(** ** The well-formed states are closed under the writes *)

Lemma wf_empty : Db.wf Db.empty = true.
Proof. reflexivity. Qed.

Lemma wf_primary_key (d : Db.t) : Db.wf d = true -> Db.primary_key d = true.
Proof. unfold Db.wf; intro H; now apply andb_true_iff in H. Qed.

Lemma wf_insert_task (d : Db.t) (new_row : Z -> Task.t) :
  (forall k, Task.id (new_row k) = k) ->
  Db.wf d = true -> Db.wf (fst (Db.insert_task d new_row)) = true.
Proof.
  intros Hid Hwf; unfold Db.wf in *.
  apply andb_true_iff in Hwf as [Hpk Hctr].
  unfold Db.insert_task, Db.primary_key, Db.counter_ahead in *;
    cbn [fst Db.tasks Db.next_task_id].
  rewrite forallb_forall in Hctr.
  apply andb_true_iff; split.
  - rewrite map_app; cbn [map]; rewrite Hid.
    apply distinct_app_fresh; [exact Hpk|].
    intro Hin; apply in_map_iff in Hin as (r & Hr & Hin).
    specialize (Hctr r Hin). apply Z.ltb_lt in Hctr. lia.
  - apply forallb_forall; intros r Hin.
    apply in_app_or in Hin as [Hin | [<- | []]]; apply Z.ltb_lt.
    + specialize (Hctr r Hin). apply Z.ltb_lt in Hctr. lia.
    + rewrite Hid; lia.
Qed.

Lemma wf_update_task (d : Db.t) (T T' : Task.t) :
  In T (Db.tasks d) -> Task.id T' = Task.id T ->
  Db.wf d = true -> Db.wf (Db.update_task d T') = true.
Proof.
  intros Hin Hid Hwf; unfold Db.wf in *.
  apply andb_true_iff in Hwf as [Hpk Hctr].
  apply andb_true_iff; split; [now apply update_task_primary_key|].
  unfold Db.counter_ahead, Db.update_task in *;
    cbn [Db.tasks Db.next_task_id].
  rewrite forallb_forall in Hctr. apply forallb_forall; intros r Hr.
  apply in_map_iff in Hr as (r0 & Hr0 & Hin0).
  destruct (Task.id r0 =? Task.id T'); subst r;
    [rewrite Hid; now apply Hctr | now apply Hctr].
Qed.

Lemma wf_delete_task (d : Db.t) (task_id : Z) :
  Db.wf d = true -> Db.wf (Db.delete_task d task_id) = true.
Proof.
  intro Hwf; unfold Db.wf in *.
  apply andb_true_iff in Hwf as [Hpk Hctr].
  unfold Db.primary_key, Db.counter_ahead, Db.delete_task in *;
    cbn [Db.tasks Db.next_task_id].
  apply andb_true_iff; split; [now apply distinct_filter|].
  rewrite forallb_forall in Hctr. apply forallb_forall; intros r Hr.
  apply (proj1 (filter_In _ _ _)) in Hr. now apply Hctr.
Qed.

(* ================================================================== *)
(** * Ownership-checked operations                                     *)
(* ================================================================== *)

Section TaskStore.

Variable updated_at_trigger : Task.t -> Task.t -> datetime -> datetime.

(** Every single-task operation stops where the lookup stops. *)
Lemma lookup_raises (d : Db.t) (user_id task_id : Z) (e : exn)
    (task_data : TaskUpdate.t) (now : datetime) :
  TaskService.lookup d user_id task_id = Raise e ->
  TaskService.get_task_by_id d user_id task_id = Raise e /\
  TaskService.update_task updated_at_trigger d user_id task_id task_data now
  = Raise e /\
  TaskService.delete_task d user_id task_id = Raise e /\
  TaskService.toggle_completion updated_at_trigger d user_id task_id now
  = Raise e.
Proof.
  intro H.
  unfold TaskService.get_task_by_id, TaskService.update_task,
    TaskService.delete_task, TaskService.toggle_completion.
  rewrite H. cbn [bind]. auto.
Qed.

(** C1. Read, update, delete and toggle of a task under an identity that is
    not its owner raise 404 Not Found, the very exception raised for an id
    that does not exist; they never raise 403 and never succeed. *)
Theorem other_owner_not_found
    (d : Db.t) (B task_id : Z) (task_data : TaskUpdate.t) (now : datetime) :
  Db.primary_key d = true ->
  (exists T, In T (Db.tasks d) /\ Task.id T = task_id /\ Task.user_id T <> B)
  \/ ~ In task_id (map Task.id (Db.tasks d)) ->
  let not_found :=
    HTTPException 404 "Task not found or access denied" false in
  TaskService.get_task_by_id d B task_id = Raise not_found /\
  TaskService.update_task updated_at_trigger d B task_id task_data now
  = Raise not_found /\
  TaskService.delete_task d B task_id = Raise not_found /\
  TaskService.toggle_completion updated_at_trigger d B task_id now
  = Raise not_found.
Proof.
  intros Hpk Hcase not_found.
  apply lookup_raises.
  destruct Hcase as [(T & Hin & <- & Hne) | Habsent].
  - apply lookup_other_owner; auto.
  - now apply lookup_absent.
Qed.

(** [toggle_completion] by the owner. *)
Lemma toggle_owner (d : Db.t) (T : Task.t) (now : datetime) :
  Db.primary_key d = true -> In T (Db.tasks d) ->
  let flipped := TaskService.set_is_complete T (negb (Task.is_complete T)) in
  let stored :=
    TaskService.set_updated_at flipped (updated_at_trigger T flipped now) in
  TaskService.toggle_completion updated_at_trigger d
    (Task.user_id T) (Task.id T) now
  = Ok (Db.update_task d stored, TaskResponse.model_validate stored).
Proof.
  intros Hpk Hin; cbv zeta; unfold TaskService.toggle_completion.
  rewrite (lookup_owner d T Hpk Hin). reflexivity.
Qed.

(** C7. Two successive toggles by the owner give the completion flag its
    original value back: each one stores and returns the negation. *)
Theorem toggle_twice_restores (d : Db.t) (T : Task.t) (now1 now2 : datetime) :
  Db.primary_key d = true -> In T (Db.tasks d) ->
  exists d1 r1 d2 r2,
    TaskService.toggle_completion updated_at_trigger d
      (Task.user_id T) (Task.id T) now1 = Ok (d1, r1) /\
    TaskService.toggle_completion updated_at_trigger d1
      (Task.user_id T) (Task.id T) now2 = Ok (d2, r2) /\
    TaskResponse.is_complete r1 = negb (Task.is_complete T) /\
    option_map Task.is_complete (row d1 (Task.id T))
    = Some (negb (Task.is_complete T)) /\
    TaskResponse.is_complete r2 = Task.is_complete T /\
    option_map Task.is_complete (row d2 (Task.id T))
    = Some (Task.is_complete T).
Proof.
  intros Hpk Hin.
  pose proof (toggle_owner d T now1 Hpk Hin) as H1; cbv zeta in H1.
  set (T1 := TaskService.set_updated_at _ _) in H1.
  assert (Hpk1 : Db.primary_key (Db.update_task d T1) = true)
    by now apply update_task_primary_key.
  assert (Hin1 : In T1 (Db.tasks (Db.update_task d T1)))
    by now apply (update_task_stored d T T1).
  pose proof (toggle_owner (Db.update_task d T1) T1 now2 Hpk1 Hin1) as H2;
    cbv zeta in H2.
  set (T2 := TaskService.set_updated_at _ _) in H2.
  assert (Hpk2 : Db.primary_key (Db.update_task (Db.update_task d T1) T2) = true)
    by now apply update_task_primary_key.
  assert (Hin2 : In T2 (Db.tasks (Db.update_task (Db.update_task d T1) T2)))
    by now apply (update_task_stored _ T1 T2).
  do 4 eexists. split; [exact H1|]. split; [exact H2|].
  split; [reflexivity|].
  split; [change (Task.id T) with (Task.id T1);
          now rewrite (row_present _ T1 Hpk1 Hin1)|].
  split; [cbn; apply negb_involutive|].
  change (Task.id T) with (Task.id T2).
  rewrite (row_present _ T2 Hpk2 Hin2). cbn. now rewrite negb_involutive.
Qed.

(** [update_task] on a key that exists: the owner's call rewrites the row,
    any other identity gets 404. *)
Lemma update_task_present (d : Db.t) (T : Task.t) (user_id : Z)
    (task_data : TaskUpdate.t) (now : datetime) :
  Db.primary_key d = true -> In T (Db.tasks d) ->
  TaskService.update_task updated_at_trigger d user_id (Task.id T)
    task_data now
  = if Task.user_id T =? user_id then
      let stored := updated_row updated_at_trigger T task_data now in
      Ok (Db.update_task d stored, TaskResponse.model_validate stored)
    else Raise TaskService.not_found.
Proof.
  intros Hpk Hin.
  unfold TaskService.update_task, TaskService.lookup.
  rewrite (select_task_present d T user_id Hpk Hin).
  destruct (Task.user_id T =? user_id); reflexivity.
Qed.

Lemma updated_row_id (T : Task.t) (task_data : TaskUpdate.t) (now : datetime) :
  Task.id (updated_row updated_at_trigger T task_data now) = Task.id T.
Proof.
  unfold updated_row; destruct (TaskUpdate.title task_data),
    (TaskUpdate.description task_data); reflexivity.
Qed.

Lemma updated_row_description (T : Task.t) (task_data : TaskUpdate.t)
    (now : datetime) :
  Task.description (updated_row updated_at_trigger T task_data now)
  = match TaskUpdate.description task_data with
    | Some v => Some v
    | None => Task.description T
    end.
Proof.
  unfold updated_row; destruct (TaskUpdate.title task_data),
    (TaskUpdate.description task_data); reflexivity.
Qed.

Lemma row_update_stored (d : Db.t) (T T' : Task.t) :
  Db.primary_key d = true -> In T (Db.tasks d) -> Task.id T' = Task.id T ->
  row (Db.update_task d T') (Task.id T) = Some T'.
Proof.
  intros Hpk Hin Hid. rewrite <- Hid. apply row_present.
  - now apply update_task_primary_key.
  - now apply (update_task_stored d T T').
Qed.

Lemma row_update_other (d : Db.t) (T' : Task.t) (k : Z) :
  k <> Task.id T' -> row (Db.update_task d T') k = row d k.
Proof.
  intro Hne; unfold row, Db.update_task; cbn [Db.tasks].
  induction (Db.tasks d) as [|r l IH]; [reflexivity|]; cbn [map find].
  destruct (Task.id r =? Task.id T') eqn:E.
  - apply Z.eqb_eq in E.
    replace (Task.id T' =? k) with false
      by (symmetry; apply Z.eqb_neq; congruence).
    replace (Task.id r =? k) with false
      by (symmetry; apply Z.eqb_neq; congruence).
    exact IH.
  - destruct (Task.id r =? k); [reflexivity | exact IH].
Qed.

Lemma create_title_iff (v t : str) :
  TaskCreate.validate_title (Some (PStr v)) = Ok t <->
  (1 <= List.length v <= 200)%nat /\ strip v <> [] /\ t = strip v.
Proof.
  unfold TaskCreate.validate_title, TaskCreate.title_not_whitespace.
  destruct (List.length v <? 1)%nat eqn:E1;
    [apply Nat.ltb_lt in E1; split; [discriminate | lia]|].
  destruct (200 <? List.length v)%nat eqn:E2;
    [apply Nat.ltb_lt in E2; split; [discriminate | lia]|].
  apply Nat.ltb_ge in E1, E2.
  destruct (strip v) as [|c s] eqn:Es; cbn [truthy negb].
  - split; [discriminate | intros (_ & H & _); now elim H].
  - split; [intros [= <-]; repeat split; try lia; discriminate|].
    intros (_ & _ & ->); reflexivity.
Qed.

Lemma create_description_iff (v : str) (t : option str) :
  TaskCreate.validate_description (Some (PStr v)) = Ok t <->
  (List.length v <= 1000)%nat /\
  t = (if truthy (strip v) then Some (strip v) else None).
Proof.
  unfold TaskCreate.validate_description, TaskCreate.clean_description.
  destruct (1000 <? List.length v)%nat eqn:E;
    [apply Nat.ltb_lt in E; split; [discriminate | lia]|].
  apply Nat.ltb_ge in E.
  assert (Hclean : (if truthy v then
                      if truthy (strip v) then Some (strip v) else None
                    else None)
                   = if truthy (strip v) then Some (strip v) else None)
    by (destruct v; reflexivity).
  rewrite Hclean. split; [intros [= <-]; auto | intros [_ ->]; reflexivity].
Qed.

Lemma bind_ok {A B} (r : result A) (k : A -> result B) (b : B) :
  bind r k = Ok b -> exists a, r = Ok a /\ k a = Ok b.
Proof. destruct r as [a|e]; cbn; [now exists a | discriminate]. Qed.

(** ** The schemas against the specification's field rules *)

Lemma create_title_field_iff (field : option value) (t : str) :
  TaskCreate.validate_title field = Ok t <->
  exists v, field = Some (PStr v) /\ spec_title v t.
Proof.
  destruct field as [[| | |v| | |]|];
    try (split; [discriminate | intros (v0 & Hv & _); discriminate]).
  unfold spec_title. rewrite create_title_iff. split.
  - intro H. now exists v.
  - intros (v0 & [= <-] & H). exact H.
Qed.

Lemma create_description_field_iff (field : option value) (s : option str) :
  TaskCreate.validate_description field = Ok s <-> spec_description field s.
Proof.
  destruct field as [[| | |v| | |]|]; cbn [spec_description];
    try (split; [discriminate | intros []]).
  - cbn. split; [now intros [= <-] | now intros ->].
  - apply create_description_iff.
  - cbn. split; [now intros [= <-] | now intros ->].
Qed.

Lemma update_description_field_iff (field : option value) (s : option str) :
  TaskUpdate.validate_description field = Ok s <-> spec_description field s.
Proof.
  rewrite <- create_description_field_iff.
  now destruct field as [[]|].
Qed.

Lemma update_title_as_create (v : str) :
  TaskUpdate.validate_title (Some (PStr v))
  = (t <- TaskCreate.validate_title (Some (PStr v)) ;; Ok (Some t)).
Proof.
  unfold TaskUpdate.validate_title, TaskCreate.validate_title,
    TaskUpdate.title_not_whitespace, TaskCreate.title_not_whitespace.
  destruct (List.length v <? 1)%nat; [reflexivity|].
  destruct (200 <? List.length v)%nat; [reflexivity|].
  destruct (negb (truthy (strip v))); reflexivity.
Qed.

Lemma update_title_field_iff (field : option value) (t : option str) :
  TaskUpdate.validate_title field = Ok t <-> spec_optional_title field t.
Proof.
  destruct field as [[| | |v| | |]|]; cbn [spec_optional_title];
    try (split; [discriminate | intros []]).
  - cbn. split; [now intros [= <-] | now intros ->].
  - rewrite update_title_as_create. split.
    + intro H. apply bind_ok in H as (t' & Ht & [= <-]).
      exists t'. split; [reflexivity|]. now apply create_title_iff.
    + intros (t' & -> & Ht). apply create_title_iff in Ht.
      now rewrite Ht.
  - cbn. split; [now intros [= <-] | now intros ->].
Qed.

Lemma update_model_validate_iff (body : dict) (data : TaskUpdate.t) :
  TaskUpdate.model_validate body = Ok data <->
  spec_optional_title (get body (lit "title")) (TaskUpdate.title data) /\
  spec_description (get body (lit "description"))
                   (TaskUpdate.description data).
Proof.
  rewrite <- update_title_field_iff, <- update_description_field_iff.
  unfold TaskUpdate.model_validate. destruct data as [t s]; cbn. split.
  - intro H. apply bind_ok in H as (t' & Ht & H).
    apply bind_ok in H as (s' & Hs & [= <- <-]). auto.
  - intros [-> ->]. reflexivity.
Qed.

Lemma create_model_validate_iff (body : dict) (data : TaskCreate.t) :
  TaskCreate.model_validate body = Ok data <->
  (exists v, get body (lit "title") = Some (PStr v) /\
             spec_title v (TaskCreate.title data)) /\
  spec_description (get body (lit "description"))
                   (TaskCreate.description data).
Proof.
  rewrite <- create_title_field_iff, <- create_description_field_iff.
  unfold TaskCreate.model_validate. destruct data as [t s]; cbn. split.
  - intro H. apply bind_ok in H as (t' & Ht & H).
    apply bind_ok in H as (s' & Hs & [= <- <-]). auto.
  - intros [-> ->]. reflexivity.
Qed.

(** On a body that carries a title string, the update schema is the create
    schema. *)
Lemma update_parse_as_create (body : dict) (v : str) :
  get body (lit "title") = Some (PStr v) ->
  TaskUpdate.model_validate body
  = (c <- TaskCreate.model_validate body ;;
     Ok (TaskUpdate.mk (Some (TaskCreate.title c))
                       (TaskCreate.description c))).
Proof.
  intro Hget. unfold TaskUpdate.model_validate, TaskCreate.model_validate.
  rewrite Hget, update_title_as_create.
  destruct (TaskCreate.validate_title _) as [t|e]; cbn [bind];
    [|reflexivity].
  replace (TaskUpdate.validate_description (get body (lit "description")))
    with (TaskCreate.validate_description (get body (lit "description")))
    by (now destruct (get body (lit "description")) as [[]|]).
  destruct (TaskCreate.validate_description _) as [s|e]; reflexivity.
Qed.

(** C6. An update changes only what the request supplies.  Whatever
    [TaskUpdate] makes of the body, the owner's PUT stores a row whose title
    and description are the parsed ones where the request carried them and
    the old ones where it did not, with the key, the owner, the completion
    flag, the creation time and every other row as before, and a body the
    schema refuses changes nothing; the same holds of [update_task] on any
    parsed request.  The parse is the specification's rule, field by field:
    a supplied title has 1 to 200 characters, is not only whitespace and is
    stored trimmed, a description has at most 1000 characters and is stored
    trimmed, an empty one being absent; [TaskCreate] applies the same rule,
    and on every body that carries a title string the update parse is the
    create parse. *)
Theorem update_task_partial :
  (forall (d : Db.t) (T : Task.t) (body : dict) (data : TaskUpdate.t)
          (now : datetime),
      Db.primary_key d = true -> In T (Db.tasks d) ->
      TaskUpdate.model_validate body = Ok data ->
      exists d' T',
        Api.update_task updated_at_trigger d (Task.id T) body
          (Task.user_id T) now
        = Ok (d', TaskResponse.model_validate T') /\
        row d' (Task.id T) = Some T' /\
        Task.title T' = match TaskUpdate.title data with
                        | Some v => v
                        | None => Task.title T
                        end /\
        Task.description T' = match TaskUpdate.description data with
                              | Some v => Some v
                              | None => Task.description T
                              end /\
        Task.id T' = Task.id T /\
        Task.user_id T' = Task.user_id T /\
        Task.is_complete T' = Task.is_complete T /\
        Task.created_at T' = Task.created_at T /\
        (forall k, k <> Task.id T -> row d' k = row d k)) /\
  (forall (d : Db.t) (task_id user_id : Z) (body : dict) (e : exn)
          (now : datetime),
      TaskUpdate.model_validate body = Raise e ->
      Api.update_task updated_at_trigger d task_id body user_id now
      = Raise e) /\
  (forall (d : Db.t) (T : Task.t) (task_data : TaskUpdate.t) (now : datetime),
      Db.primary_key d = true -> In T (Db.tasks d) ->
      exists d' T',
        TaskService.update_task updated_at_trigger d
          (Task.user_id T) (Task.id T) task_data now
        = Ok (d', TaskResponse.model_validate T') /\
        row d' (Task.id T) = Some T' /\
        Task.title T' = match TaskUpdate.title task_data with
                        | Some v => v
                        | None => Task.title T
                        end /\
        Task.description T' = match TaskUpdate.description task_data with
                              | Some v => Some v
                              | None => Task.description T
                              end /\
        Task.id T' = Task.id T /\
        Task.user_id T' = Task.user_id T /\
        Task.is_complete T' = Task.is_complete T /\
        Task.created_at T' = Task.created_at T /\
        (forall k, k <> Task.id T -> row d' k = row d k)) /\
  (forall (body : dict) (data : TaskUpdate.t),
      TaskUpdate.model_validate body = Ok data <->
      spec_optional_title (get body (lit "title")) (TaskUpdate.title data) /\
      spec_description (get body (lit "description"))
                       (TaskUpdate.description data)) /\
  (forall (body : dict) (data : TaskCreate.t),
      TaskCreate.model_validate body = Ok data <->
      (exists v, get body (lit "title") = Some (PStr v) /\
                 spec_title v (TaskCreate.title data)) /\
      spec_description (get body (lit "description"))
                       (TaskCreate.description data)) /\
  (forall (body : dict) (v : str),
      get body (lit "title") = Some (PStr v) ->
      TaskUpdate.model_validate body
      = (c <- TaskCreate.model_validate body ;;
         Ok (TaskUpdate.mk (Some (TaskCreate.title c))
                           (TaskCreate.description c)))).
Proof.
  assert (Hservice :
    forall (d : Db.t) (T : Task.t) (task_data : TaskUpdate.t) (now : datetime),
      Db.primary_key d = true -> In T (Db.tasks d) ->
      exists d' T',
        TaskService.update_task updated_at_trigger d
          (Task.user_id T) (Task.id T) task_data now
        = Ok (d', TaskResponse.model_validate T') /\
        row d' (Task.id T) = Some T' /\
        Task.title T' = match TaskUpdate.title task_data with
                        | Some v => v
                        | None => Task.title T
                        end /\
        Task.description T' = match TaskUpdate.description task_data with
                              | Some v => Some v
                              | None => Task.description T
                              end /\
        Task.id T' = Task.id T /\
        Task.user_id T' = Task.user_id T /\
        Task.is_complete T' = Task.is_complete T /\
        Task.created_at T' = Task.created_at T /\
        (forall k, k <> Task.id T -> row d' k = row d k)).
  { intros d T task_data now Hpk Hin.
    pose proof (update_task_present d T (Task.user_id T) task_data now Hpk Hin)
      as H.
    rewrite Z.eqb_refl in H; cbv zeta in H.
    set (T' := updated_row updated_at_trigger T task_data now) in *.
    assert (Hid : Task.id T' = Task.id T) by apply updated_row_id.
    exists (Db.update_task d T'), T'.
    split; [exact H|].
    split; [now apply row_update_stored|].
    split; [subst T'; unfold updated_row;
            destruct (TaskUpdate.title task_data),
              (TaskUpdate.description task_data); reflexivity|].
    split; [apply updated_row_description|].
    split; [exact Hid|].
    repeat split;
      try (subst T'; unfold updated_row;
           destruct (TaskUpdate.title task_data),
             (TaskUpdate.description task_data); reflexivity).
    intros k Hk. apply row_update_other. congruence. }
  split; [|split; [|split; [exact Hservice|split; [|split]]]].
  - intros d T body data now Hpk Hin Hparse.
    unfold Api.update_task. rewrite Hparse; cbn [bind].
    now apply Hservice.
  - intros d task_id user_id body e now Hparse.
    unfold Api.update_task. now rewrite Hparse.
  - apply update_model_validate_iff.
  - apply create_model_validate_iff.
  - apply update_parse_as_create.
Qed.

Lemma lstrip_blank (s : str) : forallb isspace s = true -> lstrip s = [].
Proof.
  induction s as [|c s IH]; [reflexivity|]; cbn [forallb lstrip]; intro H.
  apply andb_true_iff in H as [-> H]. now apply IH.
Qed.

Lemma strip_blank (s : str) : forallb isspace s = true -> strip s = [].
Proof. intro H; unfold strip; now rewrite (lstrip_blank s H). Qed.

(** The validator turns an empty or whitespace-only description into an
    absent one. *)
Lemma clean_description_blank (s : str) :
  forallb isspace s = true -> TaskUpdate.clean_description (Some s) = None.
Proof.
  intro H; unfold TaskUpdate.clean_description.
  rewrite (strip_blank s H). now destruct (truthy s).
Qed.

(** The stored description after a call of [update_task] on an existing key,
    whoever calls and whatever comes of it. *)
Lemma description_after_update (d : Db.t) (T : Task.t) (user_id : Z)
    (task_data : TaskUpdate.t) (now : datetime) :
  Db.primary_key d = true -> In T (Db.tasks d) ->
  option_map Task.description
    (row (db_after d (TaskService.update_task updated_at_trigger d user_id
                        (Task.id T) task_data now))
         (Task.id T))
  = Some (if Task.user_id T =? user_id then
            match TaskUpdate.description task_data with
            | Some v => Some v
            | None => Task.description T
            end
          else Task.description T).
Proof.
  intros Hpk Hin.
  rewrite (update_task_present d T user_id task_data now Hpk Hin).
  destruct (Task.user_id T =? user_id); cbv zeta; cbn [db_after].
  - rewrite (row_update_stored d T _ Hpk Hin (updated_row_id T task_data now)).
    cbn [option_map]. now rewrite updated_row_description.
  - now rewrite (row_present d T Hpk Hin).
Qed.

(** C9. A request whose description is empty or only whitespace leaves the
    stored description as it was, since the validator hands [update_task] an
    absent description; and no request at all makes a present description
    absent. *)
Theorem blank_description_keeps_stored :
  (forall (d : Db.t) (T : Task.t) (user_id : Z) (body : dict) (s : str)
          (now : datetime),
      Db.primary_key d = true -> In T (Db.tasks d) ->
      get body (lit "description") = Some (PStr s) ->
      forallb isspace s = true ->
      option_map Task.description
        (row (db_after d (Api.update_task updated_at_trigger d (Task.id T)
                            body user_id now))
             (Task.id T))
      = Some (Task.description T)) /\
  (forall (d : Db.t) (T : Task.t) (user_id : Z) (task_data : TaskUpdate.t)
          (now : datetime) (desc : str),
      Db.primary_key d = true -> In T (Db.tasks d) ->
      Task.description T = Some desc ->
      exists desc',
        option_map Task.description
          (row (db_after d (TaskService.update_task updated_at_trigger d
                              user_id (Task.id T) task_data now))
               (Task.id T))
        = Some (Some desc')).
Proof.
  split.
  - intros d T user_id body s now Hpk Hin Hget Hblank.
    unfold Api.update_task, TaskUpdate.model_validate.
    rewrite Hget.
    destruct (TaskUpdate.validate_title (get body (lit "title"))) as [t|e];
      cbn [bind db_after]; [|now rewrite (row_present d T Hpk Hin)].
    unfold TaskUpdate.validate_description.
    destruct (1000 <? List.length s)%nat;
      cbn [bind db_after]; [now rewrite (row_present d T Hpk Hin)|].
    rewrite (clean_description_blank s Hblank).
    rewrite (description_after_update d T user_id _ now Hpk Hin).
    cbn [TaskUpdate.description]. now destruct (Task.user_id T =? user_id).
  - intros d T user_id task_data now desc Hpk Hin Hdesc.
    rewrite (description_after_update d T user_id task_data now Hpk Hin).
    rewrite Hdesc.
    destruct (Task.user_id T =? user_id);
      [destruct (TaskUpdate.description task_data)|]; eexists; reflexivity.
Qed.

(** X12. Every operation of the service takes a well-formed database (keys
    distinct, key counter ahead of every key) to a well-formed one, whether
    it returns or raises. *)
Lemma service_keeps_wf (d : Db.t) (user_id task_id : Z)
    (create_data : TaskCreate.t) (update_data : TaskUpdate.t)
    (created updated now : datetime) :
  Db.wf d = true ->
  Db.wf (db_after d (TaskService.create_task d user_id create_data
                       created updated)) = true /\
  Db.wf (db_after d (TaskService.update_task updated_at_trigger d user_id
                       task_id update_data now)) = true /\
  Db.wf (db_after d (TaskService.delete_task d user_id task_id)) = true /\
  Db.wf (db_after d (TaskService.toggle_completion updated_at_trigger d
                       user_id task_id now)) = true.
Proof.
  intro Hwf.
  assert (Hlook : forall T, TaskService.lookup d user_id task_id = Ok T ->
                            In T (Db.tasks d)).
  { intros T; unfold TaskService.lookup, Db.select_task.
    destruct (filter _ (Db.tasks d)) as [|x [|y l]] eqn:E; cbn;
      try discriminate.
    intros [= <-].
    assert (Hx : In x (filter (fun r => (Task.id r =? task_id)
                                 && (Task.user_id r =? user_id))
                         (Db.tasks d))) by (rewrite E; now left).
    apply (proj1 (filter_In _ _ _)) in Hx; tauto. }
  split; [|split; [|split]].
  - unfold TaskService.create_task.
    refine (wf_insert_task d
              (fun id => Task.mk id user_id (TaskCreate.title create_data)
                           (TaskCreate.description create_data) false
                           created updated) _ Hwf).
    reflexivity.
  - unfold TaskService.update_task.
    destruct (TaskService.lookup d user_id task_id) as [T|e] eqn:E;
      cbn [bind db_after]; [|exact Hwf].
    apply (wf_update_task d T); [now apply Hlook | | exact Hwf].
    destruct (TaskUpdate.title update_data),
      (TaskUpdate.description update_data); reflexivity.
  - unfold TaskService.delete_task.
    destruct (TaskService.lookup d user_id task_id) as [T|e];
      cbn [bind db_after]; [|exact Hwf].
    now apply wf_delete_task.
  - unfold TaskService.toggle_completion.
    destruct (TaskService.lookup d user_id task_id) as [T|e] eqn:E;
      cbn [bind db_after]; [|exact Hwf].
    apply (wf_update_task d T); [now apply Hlook | reflexivity | exact Hwf].
Qed.

End TaskStore.

Lemma other_owner_not_found_witness :
  TaskService.get_task_by_id sample_db 20 1
  = Raise (HTTPException 404 "Task not found or access denied" false) /\
  TaskService.update_task stamp_now sample_db 20 1
    (TaskUpdate.mk (Some (lit "mine now")) None) 5
  = Raise (HTTPException 404 "Task not found or access denied" false) /\
  TaskService.delete_task sample_db 20 1
  = Raise (HTTPException 404 "Task not found or access denied" false) /\
  TaskService.toggle_completion stamp_now sample_db 20 1 5
  = Raise (HTTPException 404 "Task not found or access denied" false).
Proof.
  apply (other_owner_not_found stamp_now sample_db 20 1
           (TaskUpdate.mk (Some (lit "mine now")) None) 5).
  - reflexivity.
  - left. exists sample_task. split; [left; reflexivity|].
    split; [reflexivity | cbn; lia].
Defined.

Lemma toggle_twice_restores_witness :
  exists d1 r1 d2 r2,
    TaskService.toggle_completion stamp_now sample_db 10 1 5 = Ok (d1, r1) /\
    TaskService.toggle_completion stamp_now d1 10 1 6 = Ok (d2, r2) /\
    TaskResponse.is_complete r1 = true /\
    option_map Task.is_complete (row d1 1) = Some true /\
    TaskResponse.is_complete r2 = false /\
    option_map Task.is_complete (row d2 1) = Some false.
Proof.
  apply (toggle_twice_restores stamp_now sample_db sample_task 5 6).
  - reflexivity.
  - left; reflexivity.
Defined.

Lemma update_task_partial_witness :
  exists d' T',
    Api.update_task stamp_now sample_db 1
      [ (lit "title", PStr (lit "  write the report ")) ] 10 1700000400000000
    = Ok (d', TaskResponse.model_validate T') /\
    row d' 1 = Some T' /\
    Task.title T' = lit "write the report" /\
    Task.description T' = Some (lit "first draft") /\
    Task.id T' = 1 /\
    Task.user_id T' = 10 /\
    Task.is_complete T' = false /\
    Task.created_at T' = 1700000000000000 /\
    (forall k, k <> 1 -> row d' k = row sample_db k).
Proof.
  apply (proj1 (update_task_partial stamp_now) sample_db sample_task
           [ (lit "title", PStr (lit "  write the report ")) ]
           (TaskUpdate.mk (Some (lit "write the report")) None)
           1700000400000000).
  - reflexivity.
  - left; reflexivity.
  - reflexivity.
Defined.

Lemma blank_description_keeps_stored_witness :
  option_map Task.description
    (row (db_after sample_db
            (Api.update_task stamp_now sample_db 1
               [ (lit "description", PStr (lit "   ")) ] 10 1700000400000000))
         1)
  = Some (Some (lit "first draft")).
Proof.
  apply (proj1 (blank_description_keeps_stored stamp_now) sample_db
           sample_task 10 [ (lit "description", PStr (lit "   ")) ]
           (lit "   ") 1700000400000000); reflexivity || (left; reflexivity).
Defined.

(* ================================================================== *)
(** * Create and list                                                  *)
(* ================================================================== *)

(** [create_task] always succeeds: it appends one row, owned by the caller. *)
Lemma create_task_ok (d : Db.t) (A : Z) (task_data : TaskCreate.t)
    (created updated : datetime) :
  let T := Task.mk (Db.next_task_id d) A (TaskCreate.title task_data)
                   (TaskCreate.description task_data) false created updated in
  TaskService.create_task d A task_data created updated
  = Ok (Db.mk (Db.tasks d ++ [T]) (Db.next_task_id d + 1) (Db.users d),
        TaskResponse.model_validate T).
Proof. reflexivity. Qed.

(** C2. Whatever the request body holds, a task created under identity [A]
    is stored and returned with owner [A]: the service always succeeds on a
    parsed request and sets the owner from the identity, a body is either
    rejected by the schema or yields such a task, and two bodies with the
    same title and description yield the same outcome, so no other key of
    the body reaches the owner. *)
Theorem create_task_owner_is_caller :
  (forall (d : Db.t) (A : Z) (task_data : TaskCreate.t)
          (created updated : datetime),
      exists d' r T,
        TaskService.create_task d A task_data created updated = Ok (d', r) /\
        TaskResponse.user_id r = A /\
        Db.tasks d' = Db.tasks d ++ [T] /\
        Task.user_id T = A /\ Task.id T = TaskResponse.id r) /\
  (forall (d : Db.t) (A : Z) (body : dict) (created updated : datetime),
      match Api.create_task d body A created updated with
      | Ok (d', r) =>
          TaskResponse.user_id r = A /\
          exists T, Db.tasks d' = Db.tasks d ++ [T] /\
                    Task.user_id T = A /\ Task.id T = TaskResponse.id r
      | Raise e => TaskCreate.model_validate body = Raise e
      end) /\
  (forall (d : Db.t) (A : Z) (body body' : dict) (created updated : datetime),
      get body (lit "title") = get body' (lit "title") ->
      get body (lit "description") = get body' (lit "description") ->
      Api.create_task d body A created updated
      = Api.create_task d body' A created updated).
Proof.
  split; [|split].
  - intros d A task_data created updated.
    rewrite create_task_ok; cbv zeta. do 3 eexists.
    split; [reflexivity|]. repeat split.
  - intros d A body created updated; unfold Api.create_task.
    destruct (TaskCreate.model_validate body) as [task_data|e];
      cbn [bind]; [|reflexivity].
    rewrite create_task_ok; cbv zeta.
    split; [reflexivity|]. eexists; repeat split.
  - intros d A body body' created updated Ht Hd.
    unfold Api.create_task, TaskCreate.model_validate.
    now rewrite Ht, Hd.
Qed.

Lemma create_task_owner_is_caller_witness :
  Api.create_task sample_db
    [ (lit "title", PStr (lit "  pay rent "));
      (lit "user_id", PInt 20) ] 10 7 8
  = Api.create_task sample_db [ (lit "title", PStr (lit "  pay rent ")) ]
      10 7 8.
Proof.
  apply (proj2 (proj2 create_task_owner_is_caller)); reflexivity.
Defined.

Lemma in_insert_desc (x a : Task.t) (l : list Task.t) :
  In x (Db.insert_desc a l) <-> x = a \/ In x l.
Proof.
  induction l as [|y l IH]; cbn [Db.insert_desc].
  - cbn; intuition.
  - destruct (Task.created_at a <? Task.created_at y); cbn [In];
      [rewrite IH|]; intuition.
Qed.

Lemma in_order_by (x : Task.t) (l : list Task.t) :
  In x (Db.order_by_created_at_desc l) <-> In x l.
Proof.
  unfold Db.order_by_created_at_desc.
  induction l as [|a l IH]; cbn [fold_right]; [reflexivity|].
  rewrite in_insert_desc, IH; cbn [In]; intuition.
Qed.

Lemma insert_desc_sorted (a : Task.t) (l : list Task.t) :
  StronglySorted (fun x y => Task.created_at y <= Task.created_at x) l ->
  StronglySorted (fun x y => Task.created_at y <= Task.created_at x)
                 (Db.insert_desc a l).
Proof.
  induction 1 as [|y l Hs IH Hy]; cbn [Db.insert_desc].
  - repeat constructor.
  - destruct (Task.created_at a <? Task.created_at y) eqn:E.
    + apply Z.ltb_lt in E. constructor; [exact IH|].
      apply Forall_forall; intros x Hx.
      apply in_insert_desc in Hx as [-> | Hx]; [lia|].
      rewrite Forall_forall in Hy; now apply Hy.
    + apply Z.ltb_ge in E. constructor; [now constructor|].
      constructor; [exact E|].
      rewrite Forall_forall in Hy |- *; intros x Hx.
      specialize (Hy x Hx); lia.
Qed.

(** The listing order: most recent first. *)
Lemma order_by_sorted (l : list Task.t) :
  StronglySorted (fun x y => Task.created_at y <= Task.created_at x)
                 (Db.order_by_created_at_desc l).
Proof.
  unfold Db.order_by_created_at_desc.
  induction l as [|a l IH]; cbn [fold_right]; [constructor|].
  now apply insert_desc_sorted.
Qed.

Example listing_of_first_user :
  map TaskResponse.id
    (TaskListResponse.tasks (TaskService.get_user_tasks sample_db 10 None))
  = [3; 1]
  /\ TaskService.get_user_tasks sample_db 10 (Some (lit "complete"))
     = TaskListResponse.mk
         [ TaskResponse.mk 3 (lit "call bank") None true
             1700000300000000 1700000300000000 10 ] 2 1.
Proof. split; reflexivity. Qed.

Lemma length_insert_desc (a : Task.t) (l : list Task.t) :
  List.length (Db.insert_desc a l) = S (List.length l).
Proof.
  induction l as [|y l IH]; cbn [Db.insert_desc]; [reflexivity|].
  destruct (Task.created_at a <? Task.created_at y); cbn [List.length];
    [now rewrite IH | reflexivity].
Qed.

Lemma length_order_by (l : list Task.t) :
  List.length (Db.order_by_created_at_desc l) = List.length l.
Proof.
  unfold Db.order_by_created_at_desc.
  induction l as [|a l IH]; cbn [fold_right]; [reflexivity|].
  now rewrite length_insert_desc, IH.
Qed.

Lemma length_filter_le {A} (p : A -> bool) (l : list A) :
  (List.length (filter p l) <= List.length l)%nat.
Proof.
  induction l as [|x l IH]; cbn [filter]; [lia|].
  destruct (p x); cbn [List.length]; lia.
Qed.

(** The rows a listing is built from: the caller's, narrowed by the filter. *)
Lemma listed_rows_incl (d : Db.t) (user_id : Z) (status_filter : option str) :
  let rows :=
    match status_filter with
    | Some f =>
        if str_eqb f (lit "complete") then
          Db.where_is_complete true (Db.select_user_tasks d user_id)
        else if str_eqb f (lit "incomplete") then
          Db.where_is_complete false (Db.select_user_tasks d user_id)
        else Db.select_user_tasks d user_id
    | None => Db.select_user_tasks d user_id
    end in
  incl rows (Db.select_user_tasks d user_id) /\
  (List.length rows <= List.length (Db.select_user_tasks d user_id))%nat.
Proof.
  cbv zeta; unfold Db.where_is_complete.
  destruct status_filter as [f|]; [|split; [apply incl_refl | lia]].
  destruct (str_eqb f (lit "complete"));
    [split; [apply incl_filter | apply length_filter_le]|].
  destruct (str_eqb f (lit "incomplete"));
    [split; [apply incl_filter | apply length_filter_le]|].
  split; [apply incl_refl | lia].
Qed.

(** The caller's stored rows, read off the table itself. *)
Lemma own_rows_in (d : Db.t) (user_id : Z) (T : Task.t) :
  In T (Db.select_user_tasks d user_id) <->
  In T (Db.tasks d) /\ Task.user_id T = user_id.
Proof. unfold Db.select_user_tasks. rewrite filter_In, Z.eqb_eq. tauto. Qed.

(** C5. The unfiltered listing holds exactly the stored tasks of the caller
    and the listing under [complete] exactly the complete ones among them,
    so the second is a subset of the first, as is the listing under any
    filter; in every listing the filtered count is the number of tasks
    listed, the total count is the number of stored tasks the caller owns,
    whatever the filter, and the filtered count is at most the total. *)
Theorem complete_listing_subset
    (d : Db.t) (user_id : Z) (status_filter : option str) :
  (forall r,
      In r (TaskListResponse.tasks
              (TaskService.get_user_tasks d user_id None)) <->
      exists T, In T (Db.tasks d) /\ Task.user_id T = user_id /\
                r = TaskResponse.model_validate T) /\
  (forall r,
      In r (TaskListResponse.tasks
              (TaskService.get_user_tasks d user_id (Some (lit "complete"))))
      <->
      exists T, In T (Db.tasks d) /\ Task.user_id T = user_id /\
                Task.is_complete T = true /\
                r = TaskResponse.model_validate T) /\
  incl (TaskListResponse.tasks
          (TaskService.get_user_tasks d user_id (Some (lit "complete"))))
       (TaskListResponse.tasks (TaskService.get_user_tasks d user_id None)) /\
  incl (TaskListResponse.tasks
          (TaskService.get_user_tasks d user_id status_filter))
       (TaskListResponse.tasks (TaskService.get_user_tasks d user_id None)) /\
  TaskListResponse.filtered_count
    (TaskService.get_user_tasks d user_id status_filter)
  = Z.of_nat (List.length
      (TaskListResponse.tasks
         (TaskService.get_user_tasks d user_id status_filter))) /\
  TaskListResponse.total_count
    (TaskService.get_user_tasks d user_id status_filter)
  = Z.of_nat (List.length
      (filter (fun T => Task.user_id T =? user_id) (Db.tasks d))) /\
  TaskListResponse.filtered_count
    (TaskService.get_user_tasks d user_id status_filter)
  <= TaskListResponse.total_count
       (TaskService.get_user_tasks d user_id status_filter).
Proof.
  assert (Hall : forall r,
            In r (TaskListResponse.tasks
                    (TaskService.get_user_tasks d user_id None)) <->
            exists T, In T (Db.tasks d) /\ Task.user_id T = user_id /\
                      r = TaskResponse.model_validate T).
  { intro r. unfold TaskService.get_user_tasks; cbn [TaskListResponse.tasks].
    rewrite in_map_iff. split.
    - intros (T & <- & HT). apply (proj1 (in_order_by _ _)) in HT.
      apply (proj1 (own_rows_in _ _ _)) in HT as [HT1 HT2]. exists T; auto.
    - intros (T & H1 & H2 & ->). exists T. split; [reflexivity|].
      apply (proj2 (in_order_by _ _)), (proj2 (own_rows_in _ _ _)). auto. }
  assert (Hsub : incl (TaskListResponse.tasks
                         (TaskService.get_user_tasks d user_id status_filter))
                      (TaskListResponse.tasks
                         (TaskService.get_user_tasks d user_id None))).
  { unfold TaskService.get_user_tasks; cbn [TaskListResponse.tasks].
    intros r Hr. apply in_map_iff in Hr as (T & <- & HT).
    apply in_map. apply (proj1 (in_order_by _ _)) in HT.
    apply (proj2 (in_order_by _ _)).
    exact (proj1 (listed_rows_incl d user_id status_filter) T HT). }
  split; [exact Hall|]. split; [|split; [|split; [exact Hsub|split; [|split]]]].
  - intro r. unfold TaskService.get_user_tasks; cbn [TaskListResponse.tasks].
    change (str_eqb (lit "complete") (lit "complete")) with true; cbv iota.
    rewrite in_map_iff. unfold Db.where_is_complete. split.
    + intros (T & <- & HT). apply (proj1 (in_order_by _ _)) in HT.
      apply (proj1 (filter_In _ _ _)) in HT as [HT Hc].
      apply (proj1 (own_rows_in _ _ _)) in HT as [HT1 HT2].
      apply (proj1 (eqb_true_iff _ _)) in Hc. exists T; auto.
    + intros (T & H1 & H2 & H3 & ->). exists T. split; [reflexivity|].
      apply (proj2 (in_order_by _ _)), filter_In.
      split; [apply (proj2 (own_rows_in _ _ _)); auto|].
      now apply (proj2 (eqb_true_iff _ _)).
  - unfold TaskService.get_user_tasks; cbn [TaskListResponse.tasks].
    change (str_eqb (lit "complete") (lit "complete")) with true; cbv iota.
    intros r Hr. apply in_map_iff in Hr as (T & <- & HT).
    apply in_map. apply (proj1 (in_order_by _ _)) in HT.
    apply (proj2 (in_order_by _ _)).
    unfold Db.where_is_complete in HT.
    apply (proj1 (filter_In _ _ _)) in HT. tauto.
  - reflexivity.
  - unfold TaskService.get_user_tasks;
      cbn [TaskListResponse.total_count]. reflexivity.
  - unfold TaskService.get_user_tasks;
      cbn [TaskListResponse.filtered_count TaskListResponse.total_count].
    rewrite length_map, length_order_by.
    apply Nat2Z.inj_le.
    exact (proj2 (listed_rows_incl d user_id status_filter)).
Qed.

(** C8. A status filter that is neither [complete] nor [incomplete] is not
    an error: the listing is the unfiltered one, tasks and counts alike. *)
Theorem unknown_filter_is_unfiltered (d : Db.t) (user_id : Z) (f : str) :
  f <> lit "complete" -> f <> lit "incomplete" ->
  Api.get_tasks d (Some f) user_id = Api.get_tasks d None user_id /\
  Api.get_tasks d (Some f) user_id
  = Ok (TaskService.get_user_tasks d user_id None).
Proof.
  intros Hc Hi.
  assert (E : TaskService.get_user_tasks d user_id (Some f)
              = TaskService.get_user_tasks d user_id None).
  { unfold TaskService.get_user_tasks.
    replace (str_eqb f (lit "complete")) with false
      by (symmetry; apply not_true_iff_false; now rewrite str_eqb_eq).
    replace (str_eqb f (lit "incomplete")) with false
      by (symmetry; apply not_true_iff_false; now rewrite str_eqb_eq).
    reflexivity. }
  unfold Api.get_tasks. now rewrite E.
Qed.

Lemma unknown_filter_is_unfiltered_witness :
  Api.get_tasks sample_db (Some (lit "Complete")) 10
  = Api.get_tasks sample_db None 10 /\
  Api.get_tasks sample_db (Some (lit "Complete")) 10
  = Ok (TaskService.get_user_tasks sample_db 10 None).
Proof.
  apply (unknown_filter_is_unfiltered sample_db 10 (lit "Complete"));
    discriminate.
Defined.

(* ================================================================== *)
(** * Login                                                            *)
(* ================================================================== *)

Section Login.

Variable hmac_sha256 : str -> Jose.signing_input -> Jose.digest.
Variable BETTER_AUTH_SECRET : str.
Variable pwd_context_verify : str -> str -> option bool.

(** What leaves [login_user] with a status is what its body raised with it. *)
Lemma login_user_http (d : Db.t) (login_data : UserLoginRequest.t)
    (now_exp now_iat : datetime) (e : exn) :
  is_HTTPException e = true ->
  UserService.login_user_body hmac_sha256 BETTER_AUTH_SECRET
    pwd_context_verify d login_data now_exp now_iat = Raise e ->
  UserService.login_user hmac_sha256 BETTER_AUTH_SECRET
    pwd_context_verify d login_data now_exp now_iat = Raise e.
Proof.
  intros He H; unfold UserService.login_user. now rewrite H, He.
Qed.

Lemma scalar_one_or_none_some {A} (rows : list A) (r : A) :
  Db.scalar_one_or_none rows = Ok (Some r) -> rows = [r].
Proof.
  destruct rows as [|x [|y rows]]; cbn; try discriminate. now intros [= ->].
Qed.

Lemma scalar_one_or_none_raise {A} (rows : list A) (e : exn) :
  Db.scalar_one_or_none rows = Raise e -> e = MultipleResultsFound.
Proof.
  destruct rows as [|x [|y rows]]; cbn; try discriminate. now intros [= <-].
Qed.

(** C10. A login on an inactive account with a wrong password is refused
    with 401 (bad credentials), not 403: the password is checked before the
    active flag, and 403 leaves [login_user] only for an inactive account
    whose password was right. *)
Theorem inactive_wrong_password_is_401 :
  (forall (d : Db.t) (login_data : UserLoginRequest.t)
          (now_exp now_iat : datetime) (user : User.t),
      Db.select_user_by_email d (UserLoginRequest.email login_data) = [user] ->
      User.is_active user = false ->
      pwd_context_verify (UserLoginRequest.password login_data)
                         (User.password_hash user) = Some false ->
      UserService.login_user hmac_sha256 BETTER_AUTH_SECRET
        pwd_context_verify d login_data now_exp now_iat
      = Raise (HTTPException 401 "Incorrect email or password" true)) /\
  (forall (d : Db.t) (login_data : UserLoginRequest.t)
          (now_exp now_iat : datetime) (detail : string) (challenge : bool),
      UserService.login_user hmac_sha256 BETTER_AUTH_SECRET
        pwd_context_verify d login_data now_exp now_iat
      = Raise (HTTPException 403 detail challenge) ->
      exists user,
        Db.select_user_by_email d (UserLoginRequest.email login_data) = [user]
        /\ User.is_active user = false
        /\ pwd_context_verify (UserLoginRequest.password login_data)
                              (User.password_hash user) = Some true).
Proof.
  split.
  - intros d login_data now_exp now_iat user Hsel Hinactive Hwrong.
    apply login_user_http; [reflexivity|].
    unfold UserService.login_user_body, UserService.verify_password.
    rewrite Hsel; cbn [Db.scalar_one_or_none bind].
    now rewrite Hwrong.
  - intros d login_data now_exp now_iat detail challenge.
    unfold UserService.login_user, UserService.login_user_body,
      UserService.verify_password.
    destruct (Db.scalar_one_or_none _) as [[user|]|e0] eqn:Hsel; cbn [bind].
    + apply scalar_one_or_none_some in Hsel.
      destruct (pwd_context_verify _ _) as [[|]|] eqn:Hpw; cbn [bind negb].
      * destruct (User.is_active user) eqn:Hact; cbn [negb];
          [discriminate|].
        intros _. exists user. auto.
      * discriminate.
      * discriminate.
    + discriminate.
    + apply scalar_one_or_none_raise in Hsel; subst e0. discriminate.
Qed.

End Login.

Lemma inactive_wrong_password_is_401_witness :
  UserService.login_user sample_mac (lit "secret") sample_pwd_verify
    sample_db (UserLoginRequest.mk (lit "b@x.com") (lit "guess")) 0 0
  = Raise (HTTPException 401 "Incorrect email or password" true).
Proof.
  apply (proj1 (inactive_wrong_password_is_401 sample_mac (lit "secret")
                  sample_pwd_verify)
           sample_db (UserLoginRequest.mk (lit "b@x.com") (lit "guess")) 0 0
           (User.mk 20 (lit "b@x.com") (lit "$2b$12$bbbb") (Some (lit "B"))
                    false 1690000000000000 1690000000000000));
    reflexivity.
Defined.

(* ================================================================== *)
(** * Trimming and the request schemas                                  *)
(* ================================================================== *)

Lemma lstrip_length (s : str) : (List.length (lstrip s) <= List.length s)%nat.
Proof.
  induction s as [|c s IH]; cbn [lstrip List.length]; [lia|].
  destruct (isspace c); cbn [List.length]; lia.
Qed.

Lemma strip_length (s : str) : (List.length (strip s) <= List.length s)%nat.
Proof.
  unfold strip, rstrip. rewrite length_rev.
  pose proof (lstrip_length (rev (lstrip s))) as H1.
  rewrite length_rev in H1. pose proof (lstrip_length s). lia.
Qed.

Lemma lstrip_head (s r : str) (c : char) :
  lstrip s = c :: r -> isspace c = false.
Proof.
  induction s as [|x s IH]; cbn [lstrip]; [discriminate|].
  destruct (isspace x) eqn:E; [exact IH | now intros [= <- _]].
Qed.

Lemma lstrip_suffix (s : str) : exists w, s = w ++ lstrip s.
Proof.
  induction s as [|x s [w IH]]; [now exists []|]; cbn [lstrip].
  destruct (isspace x); [|now exists []].
  exists (x :: w); cbn [app]; now f_equal.
Qed.

Lemma rstrip_prefix (s : str) : exists w, s = rstrip s ++ w.
Proof.
  unfold rstrip. destruct (lstrip_suffix (rev s)) as [w Hw].
  exists (rev w). rewrite <- rev_app_distr, <- Hw. now rewrite rev_involutive.
Qed.

(** A trimmed string has no whitespace at either end. *)
Lemma strip_ends (s : str) :
  match strip s with
  | [] => True
  | c :: _ => isspace c = false
  end /\
  match rev (strip s) with
  | [] => True
  | c :: _ => isspace c = false
  end.
Proof.
  split.
  - unfold strip. destruct (rstrip_prefix (lstrip s)) as [w Hw].
    destruct (rstrip (lstrip s)) as [|c r]; [exact I|].
    cbn [app] in Hw. now apply (lstrip_head s (r ++ w) c).
  - unfold strip, rstrip. rewrite rev_involutive.
    destruct (lstrip (rev (lstrip s))) as [|c r] eqn:E; [exact I|].
    now apply (lstrip_head _ r c E).
Qed.

Lemma lstrip_fixed (s : str) :
  match s with [] => True | c :: _ => isspace c = false end -> lstrip s = s.
Proof. destruct s as [|c s]; cbn [lstrip]; [reflexivity | now intros ->]. Qed.

(** Trimming twice is trimming once. *)
Lemma strip_idempotent (s : str) : strip (strip s) = strip s.
Proof.
  destruct (strip_ends s) as [Hhead Hlast].
  unfold strip at 1. rewrite (lstrip_fixed _ Hhead).
  unfold rstrip. rewrite (lstrip_fixed _ Hlast). apply rev_involutive.
Qed.

Lemma truthy_nonempty (s : str) : truthy s = true <-> (1 <= List.length s)%nat.
Proof. destruct s; cbn; split; intros; try lia; try discriminate; auto. Qed.

Lemma create_title_shape (v t : str) :
  TaskCreate.validate_title (Some (PStr v)) = Ok t ->
  (1 <= List.length t <= 200)%nat /\ strip t = t.
Proof.
  intro H; apply create_title_iff in H as (Hlen & Hne & ->).
  pose proof (strip_length v).
  split; [|apply strip_idempotent].
  destruct (strip v); [congruence | cbn [List.length] in *; lia].
Qed.

Lemma create_description_shape (field : option value) (s : str) :
  TaskCreate.validate_description field = Ok (Some s) ->
  (1 <= List.length s <= 1000)%nat /\ strip s = s.
Proof.
  destruct field as [[| | |v| | |]|]; cbn; try discriminate.
  intro H; apply create_description_iff in H as (Hlen & H).
  pose proof (strip_length v).
  destruct (strip v) as [|c r] eqn:E; cbn [truthy] in H; [discriminate|].
  injection H as ->. rewrite <- E.
  split; [rewrite E; cbn [List.length] in *; lia | apply strip_idempotent].
Qed.

Lemma update_title_shape (field : option value) (t : str) :
  TaskUpdate.validate_title field = Ok (Some t) ->
  (1 <= List.length t <= 200)%nat /\ strip t = t.
Proof.
  unfold TaskUpdate.validate_title.
  destruct field as [[| | |v| | |]|]; cbv beta iota; try discriminate.
  intro H. apply (create_title_shape v t). revert H.
  unfold TaskCreate.validate_title, TaskCreate.title_not_whitespace,
    TaskUpdate.title_not_whitespace.
  destruct (List.length v <? 1)%nat; [discriminate|].
  destruct (200 <? List.length v)%nat; [discriminate|].
  destruct (negb (truthy (strip v))); [discriminate|]. congruence.
Qed.

Lemma update_description_shape (field : option value) (s : str) :
  TaskUpdate.validate_description field = Ok (Some s) ->
  (1 <= List.length s <= 1000)%nat /\ strip s = s.
Proof.
  intro H. apply (create_description_shape field s).
  rewrite <- H. destruct field as [[]|]; reflexivity.
Qed.

(** X1. What the two request schemas let through: a title has 1 to 200
    characters and no whitespace at its ends, and a description is absent or
    has 1 to 1000 characters and no whitespace at its ends. *)
Theorem validated_request_shape :
  (forall (body : dict) (data : TaskCreate.t),
      TaskCreate.model_validate body = Ok data ->
      ((1 <= List.length (TaskCreate.title data) <= 200)%nat /\
       strip (TaskCreate.title data) = TaskCreate.title data) /\
      (forall s, TaskCreate.description data = Some s ->
                 (1 <= List.length s <= 1000)%nat /\ strip s = s)) /\
  (forall (body : dict) (data : TaskUpdate.t),
      TaskUpdate.model_validate body = Ok data ->
      (forall t, TaskUpdate.title data = Some t ->
                 (1 <= List.length t <= 200)%nat /\ strip t = t) /\
      (forall s, TaskUpdate.description data = Some s ->
                 (1 <= List.length s <= 1000)%nat /\ strip s = s)).
Proof.
  split; intros body data; unfold TaskCreate.model_validate,
    TaskUpdate.model_validate.
  - destruct (TaskCreate.validate_title _) as [t|] eqn:Ht; [|discriminate].
    destruct (TaskCreate.validate_description _) as [ds|] eqn:Hd;
      cbn [bind]; [|discriminate].
    intros [= <-]; cbn [TaskCreate.title TaskCreate.description]. split.
    + destruct (get body (lit "title")) as [[| | |v| | |]|];
        try discriminate. now apply (create_title_shape v).
    + intros s ->. now apply (create_description_shape _ s Hd).
  - destruct (TaskUpdate.validate_title _) as [t|] eqn:Ht; [|discriminate].
    destruct (TaskUpdate.validate_description _) as [ds|] eqn:Hd;
      cbn [bind]; [|discriminate].
    intros [= <-]; cbn [TaskUpdate.title TaskUpdate.description]. split.
    + intros t' ->. now apply (update_title_shape _ t' Ht).
    + intros s ->. now apply (update_description_shape _ s Hd).
Qed.

Lemma validated_request_shape_witness :
  ((1 <= List.length (lit "tidy up") <= 200)%nat /\
   strip (lit "tidy up") = lit "tidy up") /\
  (forall s, Some (lit "today") = Some s ->
             (1 <= List.length s <= 1000)%nat /\ strip s = s).
Proof.
  apply (proj1 validated_request_shape
           [ (lit "title", PStr (lit " tidy up "));
             (lit "description", PStr (lit "today  ")) ]
           (TaskCreate.mk (lit "tidy up") (Some (lit "today")))).
  reflexivity.
Defined.

(** X2. A title or a description that came out of validation goes through
    it unchanged when it is sent again, on create and on update. *)
Theorem validated_field_resubmitted :
  (forall v t : str,
      TaskCreate.validate_title (Some (PStr v)) = Ok t ->
      TaskCreate.validate_title (Some (PStr t)) = Ok t /\
      TaskUpdate.validate_title (Some (PStr t)) = Ok (Some t)) /\
  (forall (field : option value) (s : str),
      TaskCreate.validate_description field = Ok (Some s) ->
      TaskCreate.validate_description (Some (PStr s)) = Ok (Some s) /\
      TaskUpdate.validate_description (Some (PStr s)) = Ok (Some s)).
Proof.
  split.
  - intros v t H. destruct (create_title_shape v t H) as [Hlen Hs].
    assert (Hc : TaskCreate.validate_title (Some (PStr t)) = Ok t).
    { apply create_title_iff. repeat split; try lia; [|now rewrite Hs].
      rewrite Hs. destruct t; [cbn in Hlen; lia | discriminate]. }
    split; [exact Hc|]. revert Hc.
    unfold TaskCreate.validate_title, TaskCreate.title_not_whitespace,
      TaskUpdate.validate_title, TaskUpdate.title_not_whitespace.
    destruct (List.length t <? 1)%nat; [discriminate|].
    destruct (200 <? List.length t)%nat; [discriminate|].
    destruct (negb (truthy (strip t))); [discriminate|]. congruence.
  - intros field s H. destruct (create_description_shape field s H) as [Hlen Hs].
    assert (Hc : TaskCreate.validate_description (Some (PStr s)) = Ok (Some s)).
    { apply create_description_iff. split; [lia|]. rewrite Hs.
      destruct s; [cbn in Hlen; lia | reflexivity]. }
    split; [exact Hc | exact Hc].
Qed.

Lemma validated_field_resubmitted_witness :
  TaskCreate.validate_title (Some (PStr (lit "tidy up"))) = Ok (lit "tidy up")
  /\ TaskUpdate.validate_title (Some (PStr (lit "tidy up")))
     = Ok (Some (lit "tidy up")).
Proof.
  apply (proj1 validated_field_resubmitted (lit "  tidy up ") (lit "tidy up")).
  reflexivity.
Defined.

(* ================================================================== *)
(** * More on the task operations                                       *)
(* ================================================================== *)

(** What a successful lookup returns: a stored row with the key and the
    owner that were asked for. *)
Lemma lookup_ok (d : Db.t) (user_id task_id : Z) (T : Task.t) :
  TaskService.lookup d user_id task_id = Ok T ->
  In T (Db.tasks d) /\ Task.id T = task_id /\ Task.user_id T = user_id.
Proof.
  unfold TaskService.lookup, Db.select_task.
  destruct (filter _ (Db.tasks d)) as [|x [|y l]] eqn:E; cbn;
    try discriminate.
  intros [= <-].
  assert (Hx : In x (filter (fun r => (Task.id r =? task_id)
                               && (Task.user_id r =? user_id))
                       (Db.tasks d))) by (rewrite E; now left).
  apply (proj1 (filter_In _ _ _)) in Hx as [Hin Hx].
  apply andb_true_iff in Hx as [H1 H2].
  apply Z.eqb_eq in H1, H2. auto.
Qed.


Section TaskStoreMore.

Variable updated_at_trigger : Task.t -> Task.t -> datetime -> datetime.


(** [update_task] in terms of the lookup and the rewritten row. *)
Lemma update_task_unfold (d : Db.t) (user_id task_id : Z)
    (task_data : TaskUpdate.t) (now : datetime) :
  TaskService.update_task updated_at_trigger d user_id task_id task_data now
  = (T <- TaskService.lookup d user_id task_id ;;
     let stored := updated_row updated_at_trigger T task_data now in
     Ok (Db.update_task d stored, TaskResponse.model_validate stored)).
Proof. reflexivity. Qed.



End TaskStoreMore.


(* ================================================================== *)
(** * Reads after writes, and what one user's writes leave alone        *)
(* ================================================================== *)

Lemma filter_split_length {A} (p : A -> bool) (l : list A) :
  (List.length (filter p l) + List.length (filter (fun x => negb (p x)) l)
   = List.length l)%nat.
Proof.
  induction l as [|x l IH]; [reflexivity|]; cbn [filter].
  destruct (p x); cbn [negb List.length]; lia.
Qed.

Lemma filter_andb_swap {A} (p q : A -> bool) (l : list A) :
  filter (fun x => p x && q x) l = filter p (filter q l).
Proof.
  induction l as [|x l IH]; [reflexivity|]; cbn [filter].
  destruct (q x) eqn:Eq; destruct (p x) eqn:Ep; cbn [andb filter];
    rewrite ?Ep; now rewrite IH.
Qed.

(** Under the primary key two stored rows with one key are one row. *)
Lemma key_inj (l : list Task.t) (a b : Task.t) :
  Db.distinct (map Task.id l) = true -> In a l -> In b l ->
  Task.id a = Task.id b -> a = b.
Proof.
  intros Hpk Ha Hb E.
  pose proof (select_by_key l b Hpk Hb) as Hsel.
  assert (Hin : In a (filter (fun r => Task.id r =? Task.id b) l))
    by (apply filter_In; split; [exact Ha | now apply Z.eqb_eq]).
  rewrite Hsel in Hin. destruct Hin as [<- | []]. reflexivity.
Qed.

Lemma filter_map_same {A} (p : A -> bool) (g : A -> A) (l : list A) :
  (forall x, In x l -> g x = x \/ (p x = false /\ p (g x) = false)) ->
  filter p (map g l) = filter p l.
Proof.
  induction l as [|x l IH]; intro H; [reflexivity|]; cbn [map filter].
  rewrite IH by (intros y Hy; apply H; now right).
  destruct (H x (or_introl eq_refl)) as [-> | [-> ->]]; reflexivity.
Qed.

Lemma filter_filter_same {A} (p q : A -> bool) (l : list A) :
  (forall x, In x l -> p x = true -> q x = true) ->
  filter p (filter q l) = filter p l.
Proof.
  induction l as [|x l IH]; intro H; [reflexivity|]; cbn [filter].
  rewrite <- IH by (intros y Hy; apply H; now right).
  destruct (q x) eqn:Eq; cbn [filter]; [reflexivity|].
  destruct (p x) eqn:Ep; [|reflexivity].
  rewrite (H x (or_introl eq_refl) Ep) in Eq. discriminate.
Qed.

(** Everything a user reads goes through the rows that user owns. *)
Lemma reads_from_own_rows (d d' : Db.t) (user_id : Z) :
  Db.select_user_tasks d' user_id = Db.select_user_tasks d user_id ->
  (forall f, TaskService.get_user_tasks d' user_id f
             = TaskService.get_user_tasks d user_id f) /\
  (forall k, TaskService.get_task_by_id d' user_id k
             = TaskService.get_task_by_id d user_id k).
Proof.
  intro H; split.
  - intro f; unfold TaskService.get_user_tasks. now rewrite H.
  - intro k; unfold TaskService.get_task_by_id, TaskService.lookup.
    assert (E : forall x, Db.select_task x k user_id
                          = filter (fun r => Task.id r =? k)
                                   (Db.select_user_tasks x user_id))
      by (intro x; apply (filter_andb_swap (fun r => Task.id r =? k))).
    now rewrite !E, H.
Qed.

Lemma own_rows_after_update (d : Db.t) (T T' : Task.t) (B : Z) :
  Db.primary_key d = true -> In T (Db.tasks d) ->
  Task.id T' = Task.id T -> Task.user_id T' = Task.user_id T ->
  Task.user_id T <> B ->
  Db.select_user_tasks (Db.update_task d T') B = Db.select_user_tasks d B.
Proof.
  intros Hpk Hin Hid Hown Hne.
  unfold Db.select_user_tasks, Db.update_task; cbn [Db.tasks].
  apply filter_map_same; intros r Hr.
  destruct (Task.id r =? Task.id T') eqn:E; [right | now left].
  apply Z.eqb_eq in E. rewrite Hid in E.
  rewrite (key_inj _ r T Hpk Hr Hin E), Hown.
  split; apply Z.eqb_neq; exact Hne.
Qed.

Lemma own_rows_after_delete (d : Db.t) (T : Task.t) (B : Z) :
  Db.primary_key d = true -> In T (Db.tasks d) -> Task.user_id T <> B ->
  Db.select_user_tasks (Db.delete_task d (Task.id T)) B
  = Db.select_user_tasks d B.
Proof.
  intros Hpk Hin Hne.
  unfold Db.select_user_tasks, Db.delete_task; cbn [Db.tasks].
  apply filter_filter_same; intros r Hr Hown.
  apply negb_true_iff, Z.eqb_neq; intro E.
  apply Z.eqb_eq in Hown. apply Hne.
  now rewrite <- (key_inj _ r T Hpk Hr Hin E).
Qed.

Section Isolation.

Variable updated_at_trigger : Task.t -> Task.t -> datetime -> datetime.

Lemma own_rows_after_writes (d : Db.t) (A B task_id : Z)
    (create_data : TaskCreate.t) (update_data : TaskUpdate.t)
    (created updated now : datetime) :
  Db.primary_key d = true -> A <> B ->
  Db.select_user_tasks
    (db_after d (TaskService.create_task d A create_data created updated)) B
  = Db.select_user_tasks d B /\
  Db.select_user_tasks
    (db_after d (TaskService.update_task updated_at_trigger d A task_id
                   update_data now)) B
  = Db.select_user_tasks d B /\
  Db.select_user_tasks
    (db_after d (TaskService.delete_task d A task_id)) B
  = Db.select_user_tasks d B /\
  Db.select_user_tasks
    (db_after d (TaskService.toggle_completion updated_at_trigger d A task_id
                   now)) B
  = Db.select_user_tasks d B.
Proof.
  intros Hpk Hne. split; [|split; [|split]].
  - rewrite create_task_ok; cbv zeta; cbn [db_after].
    unfold Db.select_user_tasks; cbn [Db.tasks].
    rewrite filter_app; cbn [filter Task.user_id].
    replace (A =? B) with false by (symmetry; now apply Z.eqb_neq).
    apply app_nil_r.
  - rewrite update_task_unfold.
    destruct (TaskService.lookup d A task_id) as [T|e] eqn:Hl;
      cbn [bind db_after]; [|reflexivity].
    apply lookup_ok in Hl as (Hin & _ & Hown).
    apply (own_rows_after_update d T); auto; [apply updated_row_id | | ].
    + unfold updated_row; destruct (TaskUpdate.title update_data),
        (TaskUpdate.description update_data); reflexivity.
    + congruence.
  - unfold TaskService.delete_task.
    destruct (TaskService.lookup d A task_id) as [T|e] eqn:Hl;
      cbn [bind db_after]; [|reflexivity].
    apply lookup_ok in Hl as (Hin & _ & Hown).
    apply own_rows_after_delete; auto. congruence.
  - unfold TaskService.toggle_completion.
    destruct (TaskService.lookup d A task_id) as [T|e] eqn:Hl;
      cbn [bind db_after]; [|reflexivity].
    apply lookup_ok in Hl as (Hin & _ & Hown).
    apply (own_rows_after_update d T); auto. congruence.
Qed.

(** X4. Whatever one user creates, updates, deletes or toggles, and whether
    the call succeeds or raises, every other user's listing (under any
    filter) and every other user's read of a single task return what they
    returned before. *)
Theorem other_users_unaffected (d : Db.t) (A B task_id : Z)
    (create_data : TaskCreate.t) (update_data : TaskUpdate.t)
    (created updated now : datetime) :
  Db.primary_key d = true -> A <> B ->
  forall d',
    d' = db_after d (TaskService.create_task d A create_data created updated)
    \/ d' = db_after d (TaskService.update_task updated_at_trigger d A
                          task_id update_data now)
    \/ d' = db_after d (TaskService.delete_task d A task_id)
    \/ d' = db_after d (TaskService.toggle_completion updated_at_trigger d A
                          task_id now) ->
    (forall f, TaskService.get_user_tasks d' B f
               = TaskService.get_user_tasks d B f) /\
    (forall k, TaskService.get_task_by_id d' B k
               = TaskService.get_task_by_id d B k).
Proof.
  intros Hpk Hne d' Hd'.
  destruct (own_rows_after_writes d A B task_id create_data update_data
              created updated now Hpk Hne) as (H1 & H2 & H3 & H4).
  apply reads_from_own_rows.
  destruct Hd' as [-> | [-> | [-> | ->]]]; assumption.
Qed.

End Isolation.

Lemma other_users_unaffected_witness :
  (forall f, TaskService.get_user_tasks
               (db_after sample_db (TaskService.delete_task sample_db 10 1))
               20 f
             = TaskService.get_user_tasks sample_db 20 f) /\
  (forall k, TaskService.get_task_by_id
               (db_after sample_db (TaskService.delete_task sample_db 10 1))
               20 k
             = TaskService.get_task_by_id sample_db 20 k).
Proof.
  apply (other_users_unaffected stamp_now sample_db 10 20 1
           (TaskCreate.mk (lit "t") None) (TaskUpdate.mk None None) 1 2 3).
  - reflexivity.
  - lia.
  - right; right; left; reflexivity.
Defined.

(** X5. A task just created can be read back by its creator as it was
    returned, is not found by anyone else, starts incomplete under the key
    the counter held, and shows in the creator's listing, whose total grows
    by one. *)
Theorem create_then_read (d : Db.t) (A : Z) (task_data : TaskCreate.t)
    (created updated : datetime) :
  Db.wf d = true ->
  exists d' r,
    TaskService.create_task d A task_data created updated = Ok (d', r) /\
    TaskResponse.id r = Db.next_task_id d /\
    TaskResponse.is_complete r = false /\
    TaskResponse.title r = TaskCreate.title task_data /\
    TaskResponse.description r = TaskCreate.description task_data /\
    TaskService.get_task_by_id d' A (TaskResponse.id r) = Ok r /\
    (forall B, B <> A ->
       TaskService.get_task_by_id d' B (TaskResponse.id r)
       = Raise (HTTPException 404 "Task not found or access denied" false)) /\
    In r (TaskListResponse.tasks (TaskService.get_user_tasks d' A None)) /\
    TaskListResponse.total_count (TaskService.get_user_tasks d' A None)
    = TaskListResponse.total_count (TaskService.get_user_tasks d A None) + 1.
Proof.
  intro Hwf.
  pose (new_row := fun id =>
    Task.mk id A (TaskCreate.title task_data)
            (TaskCreate.description task_data) false created updated).
  pose (T := new_row (Db.next_task_id d)).
  pose (d' := Db.mk (Db.tasks d ++ [T]) (Db.next_task_id d + 1) (Db.users d)).
  assert (Hpk' : Db.primary_key d' = true).
  { apply wf_primary_key.
    exact (wf_insert_task d new_row (fun k => eq_refl) Hwf). }
  assert (Hin' : In T (Db.tasks d'))
    by (apply in_or_app; right; now left).
  exists d', (TaskResponse.model_validate T).
  split; [apply create_task_ok|].
  do 4 (split; [reflexivity|]).
  split; [|split; [|split]].
  - unfold TaskService.get_task_by_id.
    change (TaskService.lookup d' A (TaskResponse.id (TaskResponse.model_validate T)))
      with (TaskService.lookup d' (Task.user_id T) (Task.id T)).
    now rewrite (lookup_owner d' T Hpk' Hin').
  - intros B HB. unfold TaskService.get_task_by_id.
    change (TaskService.lookup d' B (TaskResponse.id (TaskResponse.model_validate T)))
      with (TaskService.lookup d' B (Task.id T)).
    now rewrite (lookup_other_owner d' T B Hpk' Hin' HB).
  - unfold TaskService.get_user_tasks; cbn [TaskListResponse.tasks].
    apply in_map, in_order_by. unfold Db.select_user_tasks.
    apply filter_In; split; [exact Hin' | apply Z.eqb_refl].
  - unfold TaskService.get_user_tasks, Db.select_user_tasks;
      cbn [TaskListResponse.total_count Db.tasks d'].
    rewrite filter_app, length_app; cbn [filter Task.user_id T new_row].
    rewrite Z.eqb_refl; cbn [List.length]. lia.
Qed.

Lemma create_then_read_witness :
  exists d' r,
    TaskService.create_task sample_db 20 (TaskCreate.mk (lit "pay rent") None)
      7 8 = Ok (d', r) /\
    TaskResponse.id r = 4 /\
    TaskResponse.is_complete r = false /\
    TaskResponse.title r = lit "pay rent" /\
    TaskResponse.description r = None /\
    TaskService.get_task_by_id d' 20 (TaskResponse.id r) = Ok r /\
    (forall B, B <> 20 ->
       TaskService.get_task_by_id d' B (TaskResponse.id r)
       = Raise (HTTPException 404 "Task not found or access denied" false)) /\
    In r (TaskListResponse.tasks (TaskService.get_user_tasks d' 20 None)) /\
    TaskListResponse.total_count (TaskService.get_user_tasks d' 20 None)
    = TaskListResponse.total_count (TaskService.get_user_tasks sample_db 20 None)
      + 1.
Proof.
  apply (create_then_read sample_db 20 (TaskCreate.mk (lit "pay rent") None)
           7 8).
  reflexivity.
Defined.

Lemma row_delete_other (d : Db.t) (task_id k : Z) :
  k <> task_id -> row (Db.delete_task d task_id) k = row d k.
Proof.
  intro Hne; unfold row, Db.delete_task; cbn [Db.tasks].
  induction (Db.tasks d) as [|r l IH]; [reflexivity|]; cbn [filter find].
  destruct (Task.id r =? task_id) eqn:E; cbn [negb find].
  - apply Z.eqb_eq in E.
    replace (Task.id r =? k) with false
      by (symmetry; apply Z.eqb_neq; congruence).
    exact IH.
  - destruct (Task.id r =? k); [reflexivity | exact IH].
Qed.

Lemma delete_task_key_gone (d : Db.t) (task_id : Z) :
  ~ In task_id (map Task.id (Db.tasks (Db.delete_task d task_id))).
Proof.
  unfold Db.delete_task; cbn [Db.tasks]. intro H.
  apply in_map_iff in H as (r & Hid & Hr).
  apply (proj1 (filter_In _ _ _)) in Hr as [_ Hr].
  apply negb_true_iff, Z.eqb_neq in Hr. contradiction.
Qed.

Lemma row_absent (d : Db.t) (k : Z) :
  ~ In k (map Task.id (Db.tasks d)) -> row d k = None.
Proof.
  unfold row; intro H. destruct (find _ (Db.tasks d)) as [r|] eqn:E;
    [|reflexivity].
  apply find_some in E as [Hin Hk]. apply Z.eqb_eq in Hk.
  exfalso; apply H; rewrite <- Hk; now apply in_map.
Qed.

Section AfterDelete.

Variable updated_at_trigger : Task.t -> Task.t -> datetime -> datetime.

(** X6. The owner's delete of an existing task succeeds and removes that
    row and no other; afterwards the id is not found by read, update, delete
    or toggle, under any identity. *)
Theorem delete_then_gone (d : Db.t) (T : Task.t) (user_id : Z)
    (task_data : TaskUpdate.t) (now : datetime) :
  Db.primary_key d = true -> In T (Db.tasks d) ->
  exists d',
    TaskService.delete_task d (Task.user_id T) (Task.id T) = Ok (d', tt) /\
    row d' (Task.id T) = None /\
    (forall k, k <> Task.id T -> row d' k = row d k) /\
    S (List.length (Db.tasks d')) = List.length (Db.tasks d) /\
    let not_found :=
      HTTPException 404 "Task not found or access denied" false in
    TaskService.get_task_by_id d' user_id (Task.id T) = Raise not_found /\
    TaskService.update_task updated_at_trigger d' user_id (Task.id T)
      task_data now = Raise not_found /\
    TaskService.delete_task d' user_id (Task.id T) = Raise not_found /\
    TaskService.toggle_completion updated_at_trigger d' user_id (Task.id T)
      now = Raise not_found.
Proof.
  intros Hpk Hin.
  exists (Db.delete_task d (Task.id T)).
  pose proof (delete_task_key_gone d (Task.id T)) as Hgone.
  split; [unfold TaskService.delete_task;
          now rewrite (lookup_owner d T Hpk Hin)|].
  split; [now apply row_absent|].
  split; [intros k Hk; now apply row_delete_other|].
  split.
  - unfold Db.delete_task; cbn [Db.tasks].
    pose proof (filter_split_length (fun r => Task.id r =? Task.id T)
                  (Db.tasks d)) as Hlen.
    rewrite (select_by_key _ T Hpk Hin) in Hlen. cbn [List.length] in Hlen.
    lia.
  - cbv zeta. apply lookup_raises. now apply lookup_absent.
Qed.

End AfterDelete.

Lemma delete_then_gone_witness :
  exists d',
    TaskService.delete_task sample_db 10 1 = Ok (d', tt) /\
    row d' 1 = None /\
    (forall k, k <> 1 -> row d' k = row sample_db k) /\
    S (List.length (Db.tasks d')) = List.length (Db.tasks sample_db) /\
    let not_found :=
      HTTPException 404 "Task not found or access denied" false in
    TaskService.get_task_by_id d' 10 1 = Raise not_found /\
    TaskService.update_task stamp_now d' 10 1 (TaskUpdate.mk None None) 9
    = Raise not_found /\
    TaskService.delete_task d' 10 1 = Raise not_found /\
    TaskService.toggle_completion stamp_now d' 10 1 9 = Raise not_found.
Proof.
  apply (delete_then_gone stamp_now sample_db sample_task 10
           (TaskUpdate.mk None None) 9).
  - reflexivity.
  - left; reflexivity.
Defined.

(* ================================================================== *)
(** * The listing                                                       *)
(* ================================================================== *)

(** The rows behind a listing, whatever the filter is. *)
Lemma listed_rows (d : Db.t) (user_id : Z) (status_filter : option str) :
  exists rows,
    TaskListResponse.tasks
      (TaskService.get_user_tasks d user_id status_filter)
    = map TaskResponse.model_validate (Db.order_by_created_at_desc rows) /\
    (forall T, In T rows <->
       In T (Db.tasks d) /\ Task.user_id T = user_id /\
       (status_filter = Some (lit "complete") -> Task.is_complete T = true) /\
       (status_filter = Some (lit "incomplete")
        -> Task.is_complete T = false)).
Proof.
  unfold TaskService.get_user_tasks; cbn [TaskListResponse.tasks].
  eexists; split; [reflexivity|]. intro T.
  assert (Hown : In T (Db.select_user_tasks d user_id) <->
                 In T (Db.tasks d) /\ Task.user_id T = user_id).
  { unfold Db.select_user_tasks. rewrite filter_In, Z.eqb_eq. tauto. }
  assert (Hflag : forall flag,
            In T (Db.where_is_complete flag (Db.select_user_tasks d user_id))
            <-> (In T (Db.tasks d) /\ Task.user_id T = user_id)
                /\ Task.is_complete T = flag).
  { intro flag. unfold Db.where_is_complete.
    rewrite filter_In, Hown, eqb_true_iff. tauto. }
  destruct status_filter as [f|].
  - destruct (str_eqb f (lit "complete")) eqn:Ec.
    + apply str_eqb_eq in Ec; subst f. rewrite Hflag.
      split; [intros [[H1 H2] H3]; repeat split; auto; discriminate|].
      intros (H1 & H2 & H3 & _); auto.
    + destruct (str_eqb f (lit "incomplete")) eqn:Ei.
      * apply str_eqb_eq in Ei; subst f. rewrite Hflag.
        split; [intros [[H1 H2] H3]; repeat split; auto; discriminate|].
        intros (H1 & H2 & _ & H3); auto.
      * rewrite Hown.
        split; [intros [H1 H2]; repeat split; auto|tauto];
          intros [= ->]; rewrite str_eqb_refl in *; discriminate.
  - rewrite Hown.
    split; [intros [H1 H2]; repeat split; auto; discriminate | tauto].
Qed.

(** X7. A listing holds exactly the caller's tasks that pass the filter:
    the complete ones under [complete], the incomplete ones under
    [incomplete], all of them otherwise; nothing of another owner's. *)
Theorem listing_exact (d : Db.t) (user_id : Z) (status_filter : option str)
    (r : TaskResponse.t) :
  In r (TaskListResponse.tasks
          (TaskService.get_user_tasks d user_id status_filter)) <->
  exists T,
    In T (Db.tasks d) /\ r = TaskResponse.model_validate T /\
    Task.user_id T = user_id /\
    (status_filter = Some (lit "complete") -> Task.is_complete T = true) /\
    (status_filter = Some (lit "incomplete") -> Task.is_complete T = false).
Proof.
  destruct (listed_rows d user_id status_filter) as (rows & -> & Hrows).
  rewrite in_map_iff. split.
  - intros (T & <- & HT). apply (proj1 (in_order_by _ _)) in HT.
    apply Hrows in HT. exists T. tauto.
  - intros (T & H1 & -> & H2). exists T. split; [reflexivity|].
    apply in_order_by, Hrows. tauto.
Qed.

Lemma sorted_map {A B} (R : A -> A -> Prop) (R' : B -> B -> Prop)
    (f : A -> B) (l : list A) :
  (forall x y, R x y -> R' (f x) (f y)) ->
  StronglySorted R l -> StronglySorted R' (map f l).
Proof.
  intros HR; induction 1 as [|x l Hs IH Hx]; cbn [map]; constructor;
    [exact IH|].
  rewrite Forall_forall in Hx. apply Forall_forall; intros y Hy.
  apply in_map_iff in Hy as (z & <- & Hz). now apply HR, Hx.
Qed.

(** X8. Every listing is ordered by creation time, most recent first. *)
Theorem listing_most_recent_first
    (d : Db.t) (user_id : Z) (status_filter : option str) :
  StronglySorted
    (fun a b => TaskResponse.created_at b <= TaskResponse.created_at a)
    (TaskListResponse.tasks
       (TaskService.get_user_tasks d user_id status_filter)).
Proof.
  unfold TaskService.get_user_tasks; cbn [TaskListResponse.tasks].
  apply (sorted_map (fun x y => Task.created_at y <= Task.created_at x));
    [auto | apply order_by_sorted].
Qed.

(** X9. The two filters split the caller's tasks: the filtered counts under
    [complete] and under [incomplete] add up to the total count, and under
    any other filter the filtered count is the total count. *)
Theorem listing_counts_split (d : Db.t) (user_id : Z) :
  TaskListResponse.filtered_count
    (TaskService.get_user_tasks d user_id (Some (lit "complete")))
  + TaskListResponse.filtered_count
      (TaskService.get_user_tasks d user_id (Some (lit "incomplete")))
  = TaskListResponse.total_count (TaskService.get_user_tasks d user_id None)
  /\
  forall f, f <> Some (lit "complete") -> f <> Some (lit "incomplete") ->
    TaskListResponse.filtered_count (TaskService.get_user_tasks d user_id f)
    = TaskListResponse.total_count (TaskService.get_user_tasks d user_id f).
Proof.
  split.
  - unfold TaskService.get_user_tasks;
      cbn [TaskListResponse.filtered_count TaskListResponse.total_count].
    change (str_eqb (lit "complete") (lit "complete")) with true.
    change (str_eqb (lit "incomplete") (lit "complete")) with false.
    change (str_eqb (lit "incomplete") (lit "incomplete")) with true.
    cbv iota. rewrite !length_map, !length_order_by.
    unfold Db.where_is_complete.
    pose proof (filter_split_length
                  (fun r => Bool.eqb (Task.is_complete r) true)
                  (Db.select_user_tasks d user_id)) as H.
    rewrite (filter_ext (fun r => negb (Bool.eqb (Task.is_complete r) true))
                        (fun r => Bool.eqb (Task.is_complete r) false)) in H
      by (intro r; now destruct (Task.is_complete r)).
    lia.
  - intros f Hc Hi. unfold TaskService.get_user_tasks;
      cbn [TaskListResponse.filtered_count TaskListResponse.total_count].
    rewrite length_map, length_order_by.
    destruct f as [s|]; [|reflexivity].
    replace (str_eqb s (lit "complete")) with false
      by (symmetry; apply not_true_iff_false; rewrite str_eqb_eq; congruence).
    replace (str_eqb s (lit "incomplete")) with false
      by (symmetry; apply not_true_iff_false; rewrite str_eqb_eq; congruence).
    reflexivity.
Qed.

Lemma listing_counts_split_witness :
  TaskListResponse.filtered_count
    (TaskService.get_user_tasks sample_db 10 (Some (lit "all")))
  = TaskListResponse.total_count
      (TaskService.get_user_tasks sample_db 10 (Some (lit "all"))).
Proof.
  apply (proj2 (listing_counts_split sample_db 10) (Some (lit "all")));
    discriminate.
Defined.

(* ================================================================== *)
(** * Toggle, and the order of validation and lookup                    *)
(* ================================================================== *)

Lemma blank_title_refused (v : str) :
  forallb isspace v = true ->
  (exists msg,
     TaskCreate.validate_title (Some (PStr v)) = Raise (validation_error msg))
  /\
  (exists msg,
     TaskUpdate.validate_title (Some (PStr v)) = Raise (validation_error msg)).
Proof.
  intro Hblank.
  unfold TaskCreate.validate_title, TaskUpdate.validate_title,
    TaskCreate.title_not_whitespace, TaskUpdate.title_not_whitespace.
  rewrite (strip_blank v Hblank); cbn [truthy negb].
  destruct (List.length v <? 1)%nat; [split; eexists; reflexivity|].
  destruct (200 <? List.length v)%nat; split; eexists; reflexivity.
Qed.

Section ToggleAndOrder.

Variable updated_at_trigger : Task.t -> Task.t -> datetime -> datetime.

(** X10. A toggle by the owner negates the completion flag and changes
    nothing else of the task but what the database writes into
    [updated_at]; every other row stays as it was. *)
Theorem toggle_changes_flag_only (d : Db.t) (T : Task.t) (now : datetime) :
  Db.primary_key d = true -> In T (Db.tasks d) ->
  exists d' T',
    TaskService.toggle_completion updated_at_trigger d
      (Task.user_id T) (Task.id T) now
    = Ok (d', TaskResponse.model_validate T') /\
    row d' (Task.id T) = Some T' /\
    Task.is_complete T' = negb (Task.is_complete T) /\
    Task.title T' = Task.title T /\
    Task.description T' = Task.description T /\
    Task.id T' = Task.id T /\
    Task.user_id T' = Task.user_id T /\
    Task.created_at T' = Task.created_at T /\
    (forall k, k <> Task.id T -> row d' k = row d k).
Proof.
  intros Hpk Hin.
  pose proof (toggle_owner updated_at_trigger d T now Hpk Hin) as H;
    cbv zeta in H.
  set (T' := TaskService.set_updated_at _ _) in H.
  exists (Db.update_task d T'), T'.
  split; [exact H|].
  split; [now apply row_update_stored|].
  do 6 (split; [reflexivity|]).
  intros k Hk. now apply row_update_other.
Qed.

(** X11. A body whose title is empty or only whitespace is refused by the
    schema before the handler runs: create stores nothing, and update
    answers with the validation error even for an id that does not exist or
    belongs to someone else. *)
Theorem blank_title_rejected_first (d : Db.t) (body : dict) (v : str)
    (user_id task_id : Z) (created updated now : datetime) :
  get body (lit "title") = Some (PStr v) -> forallb isspace v = true ->
  (exists msg,
     Api.create_task d body user_id created updated
     = Raise (RequestValidationError msg)) /\
  (exists msg,
     Api.update_task updated_at_trigger d task_id body user_id now
     = Raise (RequestValidationError msg)).
Proof.
  intros Hget Hblank.
  destruct (blank_title_refused v Hblank) as [[m1 H1] [m2 H2]].
  unfold Api.create_task, Api.update_task, TaskCreate.model_validate,
    TaskUpdate.model_validate.
  rewrite Hget, H1, H2; cbn [bind]. split; eexists; reflexivity.
Qed.

End ToggleAndOrder.

Lemma toggle_changes_flag_only_witness :
  exists d' T',
    TaskService.toggle_completion stamp_now sample_db 10 1 9
    = Ok (d', TaskResponse.model_validate T') /\
    row d' 1 = Some T' /\
    Task.is_complete T' = true /\
    Task.title T' = lit "write report" /\
    Task.description T' = Some (lit "first draft") /\
    Task.id T' = 1 /\
    Task.user_id T' = 10 /\
    Task.created_at T' = 1700000000000000 /\
    (forall k, k <> 1 -> row d' k = row sample_db k).
Proof.
  apply (toggle_changes_flag_only stamp_now sample_db sample_task 9).
  - reflexivity.
  - left; reflexivity.
Defined.

Lemma blank_title_rejected_first_witness :
  (exists msg,
     Api.create_task sample_db [ (lit "title", PStr (lit "   ")) ] 10 7 8
     = Raise (RequestValidationError msg)) /\
  (exists msg,
     Api.update_task stamp_now sample_db 99
       [ (lit "title", PStr (lit "   ")) ] 10 9
     = Raise (RequestValidationError msg)).
Proof.
  apply (blank_title_rejected_first stamp_now sample_db
           [ (lit "title", PStr (lit "   ")) ] (lit "   ") 10 99 7 8 9);
    reflexivity.
Defined.

Lemma service_keeps_wf_witness :
  Db.wf (db_after sample_db
           (TaskService.create_task sample_db 10
              (TaskCreate.mk (lit "t") None) 1 2)) = true /\
  Db.wf (db_after sample_db
           (TaskService.update_task stamp_now sample_db 10 1
              (TaskUpdate.mk (Some (lit "u")) None) 3)) = true /\
  Db.wf (db_after sample_db (TaskService.delete_task sample_db 10 1)) = true /\
  Db.wf (db_after sample_db
           (TaskService.toggle_completion stamp_now sample_db 10 1 3)) = true.
Proof.
  apply (service_keeps_wf stamp_now sample_db 10 1
           (TaskCreate.mk (lit "t") None)
           (TaskUpdate.mk (Some (lit "u")) None) 1 2 3).
  reflexivity.
Defined.

(* ================================================================== *)
(** * Which tokens verify                                               *)
(* ================================================================== *)

Lemma existsb_singleton (alg a : str) :
  existsb (str_eqb alg) [a] = true -> alg = a.
Proof.
  cbn [existsb]; rewrite orb_false_r. apply str_eqb_eq.
Qed.

Section TokenAcceptance.

Variable hmac_sha256 : str -> Jose.signing_input -> Jose.digest.
Variable BETTER_AUTH_SECRET : str.

(** The token of [create_access_token] verifies while the clock has not
    passed its expiry. *)
Lemma verify_issued_fresh (x : Z) (now_exp now_iat now : datetime) :
  timegm now <= timegm now_exp + 86400 ->
  Auth.verify_token hmac_sha256 BETTER_AUTH_SECRET
    (UserService.create_access_token hmac_sha256 BETTER_AUTH_SECRET
       x now_exp now_iat) now
  = Ok x.
Proof.
  intro Hfresh.
  unfold Auth.verify_token, Auth.verify_token_body.
  rewrite (decode_issued hmac_sha256 BETTER_AUTH_SECRET x now_exp now_iat now
             Hfresh).
  cbn [bind].
  change (get ?c (lit "sub")) with (Some (PStr (str_of_int x))).
  cbn [int]. now rewrite int_of_str_of_int.
Qed.

Lemma verify_token_ok (token : Jose.token) (now : datetime) (x : Z) :
  Auth.verify_token hmac_sha256 BETTER_AUTH_SECRET token now = Ok x ->
  Auth.verify_token_body hmac_sha256 BETTER_AUTH_SECRET token now = Ok x.
Proof.
  unfold Auth.verify_token.
  destruct (Auth.verify_token_body _ _ _ _) as [y|e]; [auto|].
  destruct (is_JWTError e); [discriminate|].
  destruct (is_ValueError e); discriminate.
Qed.

Lemma jws_verify_ok (token : Jose.token) (body : Jose.payload) :
  Jose.jws_verify hmac_sha256 token BETTER_AUTH_SECRET [Auth.ALGORITHM]
  = Ok body ->
  token = Jose.Compact (Some (lit "HS256")) body
            (hmac_sha256 BETTER_AUTH_SECRET (Some (lit "HS256"), body)).
Proof.
  unfold Jose.jws_verify.
  destruct token as [raw | [alg|] b sig]; try discriminate.
  destruct (existsb (str_eqb alg) [Auth.ALGORITHM]) eqn:Ealg;
    cbn [negb]; [|discriminate].
  apply existsb_singleton in Ealg; subst alg.
  destruct (Jose.digest_eqb sig _) eqn:Esig; cbn [negb]; [|discriminate].
  apply str_eqb_eq in Esig. intros [= <-]. now rewrite Esig.
Qed.

Lemma validate_exp_ok (claims : dict) (now : Z) (v : value) :
  Jose._validate_exp claims now 0 = Ok tt ->
  get claims (lit "exp") = Some v ->
  exists e, int v = Ok e /\ now <= e.
Proof.
  unfold Jose._validate_exp, Jose.claim_int. intros H Hget; rewrite Hget in H.
  destruct (int v) as [e|err]; cbn [bind] in H;
    [|destruct (is_ValueError err); discriminate].
  destruct (e <? now - 0) eqn:E; [discriminate|].
  apply Z.ltb_ge in E. exists e; split; [reflexivity | lia].
Qed.

Lemma validate_nbf_ok (claims : dict) (now : Z) (v : value) :
  Jose._validate_nbf claims now 0 = Ok tt ->
  get claims (lit "nbf") = Some v ->
  exists n, int v = Ok n /\ n <= now.
Proof.
  unfold Jose._validate_nbf, Jose.claim_int. intros H Hget; rewrite Hget in H.
  destruct (int v) as [n|err]; cbn [bind] in H;
    [|destruct (is_ValueError err); discriminate].
  destruct (n >? now + 0) eqn:E; [discriminate|].
  exists n; split; [reflexivity|]. rewrite Z.gtb_ltb in E.
  apply Z.ltb_ge in E. lia.
Qed.

(** X13. A token that [verify_token] accepts is genuine: its header names
    HS256, its signature is the MAC of its header and payload under the
    secret, its subject is a string that reads as the returned integer, and
    its expiry and not-before times, when it carries them, include the
    verifier's clock. *)
Theorem accepted_token_is_genuine
    (token : Jose.token) (now : datetime) (x : Z) :
  Auth.verify_token hmac_sha256 BETTER_AUTH_SECRET token now = Ok x ->
  exists claims s,
    token = Jose.Compact (Some (lit "HS256")) (Jose.Claims claims)
              (hmac_sha256 BETTER_AUTH_SECRET
                 (Some (lit "HS256"), Jose.Claims claims)) /\
    get claims (lit "sub") = Some (PStr s) /\
    int_of_str s = Ok x /\
    (forall v, get claims (lit "exp") = Some v ->
               exists e, int v = Ok e /\ timegm now <= e) /\
    (forall v, get claims (lit "nbf") = Some v ->
               exists n, int v = Ok n /\ n <= timegm now).
Proof.
  intro H. apply verify_token_ok in H.
  unfold Auth.verify_token_body, Jose.decode in H.
  apply bind_ok in H as (payload & Hdec & Hsub).
  apply bind_ok in Hdec as (body & Hsig & Hbody).
  apply jws_verify_ok in Hsig.
  destruct body as [raw | claims]; [discriminate|].
  apply bind_ok in Hbody as ([] & Hval & Hpay). injection Hpay as <-.
  unfold Jose._validate_claims in Hval.
  apply bind_ok in Hval as ([] & Hiat & Hval).
  apply bind_ok in Hval as ([] & Hnbf & Hval).
  apply bind_ok in Hval as ([] & Hexp & Hval).
  apply bind_ok in Hval as ([] & Haud & Hval).
  apply bind_ok in Hval as ([] & Hsubv & Hval).
  unfold Jose._validate_sub in Hsubv.
  destruct (get claims (lit "sub")) as [[| | |s| | |]|] eqn:Hget;
    try discriminate.
  exists claims, s.
  split; [exact Hsig|]. split; [exact Hget|]. split; [exact Hsub|].
  split; intros v Hv.
  - now apply (validate_exp_ok claims (timegm now) v).
  - now apply (validate_nbf_ok claims (timegm now) v).
Qed.

(** X14. A token is refused with 401 before its claims are looked at when
    its header names another algorithm than HS256, and when its signature
    is not the MAC of its header and payload under the secret. *)
Theorem forged_token_rejected (alg : str) (body : Jose.payload)
    (sig : Jose.digest) (now : datetime) :
  (alg <> lit "HS256" ->
   Auth.verify_token hmac_sha256 BETTER_AUTH_SECRET
     (Jose.Compact (Some alg) body sig) now
   = Raise (HTTPException 401
       "Invalid or expired token: The specified alg value is not allowed"
       true)) /\
  (sig <> hmac_sha256 BETTER_AUTH_SECRET (Some (lit "HS256"), body) ->
   Auth.verify_token hmac_sha256 BETTER_AUTH_SECRET
     (Jose.Compact (Some (lit "HS256")) body sig) now
   = Raise (HTTPException 401
       "Invalid or expired token: Signature verification failed." true)).
Proof.
  split; intro Hne;
    unfold Auth.verify_token, Auth.verify_token_body, Jose.decode,
      Jose.jws_verify.
  - replace (existsb (str_eqb alg) [Auth.ALGORITHM]) with false;
      [reflexivity|].
    symmetry; apply not_true_iff_false; intro E.
    now apply existsb_singleton in E.
  - change (existsb (str_eqb (lit "HS256")) [Auth.ALGORITHM]) with true.
    cbn [negb].
    replace (Jose.digest_eqb sig _) with false; [reflexivity|].
    symmetry; apply not_true_iff_false; intro E.
    now apply str_eqb_eq in E.
Qed.

(** X15. A token that decodes but has no usable subject is refused with
    401: without a [sub] claim the detail is the handler's own 401 wrapped
    by the catch-all branch, and with a [sub] that does not read as an
    integer it is the message of the [ValueError] branch. *)
Theorem unusable_subject_rejected
    (token : Jose.token) (claims : dict) (now : datetime) :
  Jose.decode hmac_sha256 token BETTER_AUTH_SECRET [Auth.ALGORITHM] now
  = Ok claims ->
  (get claims (lit "sub") = None ->
   Auth.verify_token hmac_sha256 BETTER_AUTH_SECRET token now
   = Raise (HTTPException 401
       "Token verification failed: 401: Invalid token: missing user ID"
       true)) /\
  (forall s, get claims (lit "sub") = Some (PStr s) ->
     int_of_str s = Raise invalid_literal ->
     Auth.verify_token hmac_sha256 BETTER_AUTH_SECRET token now
     = Raise (HTTPException 401
         "Invalid token: user ID must be an integer" true)).
Proof.
  intro Hdec; split.
  - intro Hsub. unfold Auth.verify_token, Auth.verify_token_body.
    rewrite Hdec; cbn [bind]. rewrite Hsub. reflexivity.
  - intros s Hsub Hint. unfold Auth.verify_token, Auth.verify_token_body.
    rewrite Hdec; cbn [bind]. rewrite Hsub; cbn [int]. rewrite Hint.
    reflexivity.
Qed.

Lemma decode_sub_only (x : Z) (now : datetime) :
  Jose.decode hmac_sha256
    (Jose.encode hmac_sha256 [ (lit "sub", PStr (str_of_int x)) ]
       BETTER_AUTH_SECRET (lit "HS256"))
    BETTER_AUTH_SECRET [Auth.ALGORITHM] now
  = Ok [ (lit "sub", PStr (str_of_int x)) ].
Proof.
  unfold Jose.decode, Jose.encode, Jose.jws_verify.
  unfold Jose.digest_eqb; rewrite str_eqb_refl.
  change (existsb (str_eqb (lit "HS256")) [Auth.ALGORITHM]) with true.
  cbn [negb bind map].
  change (Jose.numeric_date (lit "sub", PStr (str_of_int x)))
    with (lit "sub", PStr (str_of_int x)).
  unfold Jose._validate_claims, Jose._validate_iat, Jose._validate_nbf,
    Jose._validate_exp, Jose._validate_aud, Jose._validate_sub,
    Jose._validate_jti, Jose._validate_at_hash.
  change (get ?c (lit "iat")) with (@None value).
  change (get ?c (lit "nbf")) with (@None value).
  change (get ?c (lit "exp")) with (@None value).
  change (get ?c (lit "aud")) with (@None value).
  change (get ?c (lit "sub")) with (Some (PStr (str_of_int x))).
  change (get ?c (lit "jti")) with (@None value).
  change (get ?c (lit "at_hash")) with (@None value).
  reflexivity.
Qed.

(** X16. Expiry is checked only when the token carries it: a token signed
    under the secret with a subject and no [exp] verifies at any time. *)
Theorem token_without_exp_never_expires (x : Z) (now : datetime) :
  Auth.verify_token hmac_sha256 BETTER_AUTH_SECRET
    (Jose.encode hmac_sha256 [ (lit "sub", PStr (str_of_int x)) ]
       BETTER_AUTH_SECRET (lit "HS256")) now
  = Ok x.
Proof.
  unfold Auth.verify_token, Auth.verify_token_body.
  rewrite decode_sub_only; cbn [bind].
  change (get ?c (lit "sub")) with (Some (PStr (str_of_int x))).
  cbn [int]. now rewrite int_of_str_of_int.
Qed.

End TokenAcceptance.

Lemma accepted_token_is_genuine_witness :
  exists claims s,
    UserService.create_access_token sample_mac (lit "secret") 42
      1700000000000000 1700000000000003
    = Jose.Compact (Some (lit "HS256")) (Jose.Claims claims)
        (sample_mac (lit "secret") (Some (lit "HS256"), Jose.Claims claims)) /\
    get claims (lit "sub") = Some (PStr s) /\
    int_of_str s = Ok 42 /\
    (forall v, get claims (lit "exp") = Some v ->
               exists e, int v = Ok e /\ timegm 1700000360000000 <= e) /\
    (forall v, get claims (lit "nbf") = Some v ->
               exists n, int v = Ok n /\ n <= timegm 1700000360000000).
Proof.
  apply (accepted_token_is_genuine sample_mac (lit "secret")
           (UserService.create_access_token sample_mac (lit "secret") 42
              1700000000000000 1700000000000003)
           1700000360000000 42).
  vm_compute; reflexivity.
Defined.

Lemma forged_token_rejected_witness :
  Auth.verify_token sample_mac (lit "secret")
    (Jose.Compact (Some (lit "none"))
       (Jose.Claims [ (lit "sub", PStr (lit "1")) ]) []) 0
  = Raise (HTTPException 401
      "Invalid or expired token: The specified alg value is not allowed" true)
  /\
  Auth.verify_token sample_mac (lit "secret")
    (Jose.Compact (Some (lit "HS256"))
       (Jose.Claims [ (lit "sub", PStr (lit "1")) ]) (lit "guess")) 0
  = Raise (HTTPException 401
      "Invalid or expired token: Signature verification failed." true).
Proof.
  split.
  - apply (proj1 (forged_token_rejected sample_mac (lit "secret") (lit "none")
                    (Jose.Claims [ (lit "sub", PStr (lit "1")) ]) [] 0)).
    vm_compute; discriminate.
  - apply (proj2 (forged_token_rejected sample_mac (lit "secret") (lit "HS256")
                    (Jose.Claims [ (lit "sub", PStr (lit "1")) ])
                    (lit "guess") 0)).
    vm_compute; discriminate.
Defined.

Lemma unusable_subject_rejected_witness :
  Auth.verify_token sample_mac (lit "secret")
    (Jose.encode sample_mac [ (lit "exp", PInt 1700000000) ] (lit "secret")
       (lit "HS256")) 1600000000000000
  = Raise (HTTPException 401
      "Token verification failed: 401: Invalid token: missing user ID" true)
  /\
  Auth.verify_token sample_mac (lit "secret")
    (Jose.encode sample_mac [ (lit "sub", PStr (lit "admin")) ] (lit "secret")
       (lit "HS256")) 1600000000000000
  = Raise (HTTPException 401 "Invalid token: user ID must be an integer" true).
Proof.
  split.
  - apply (proj1 (unusable_subject_rejected sample_mac (lit "secret")
                    (Jose.encode sample_mac [ (lit "exp", PInt 1700000000) ]
                       (lit "secret") (lit "HS256"))
                    [ (lit "exp", PInt 1700000000) ] 1600000000000000
                    eq_refl)).
    reflexivity.
  - apply (proj2 (unusable_subject_rejected sample_mac (lit "secret")
                    (Jose.encode sample_mac [ (lit "sub", PStr (lit "admin")) ]
                       (lit "secret") (lit "HS256"))
                    [ (lit "sub", PStr (lit "admin")) ] 1600000000000000
                    eq_refl) (lit "admin")); reflexivity.
Defined.

(* ================================================================== *)
(** * Accounts: register, login, current user                           *)
(* ================================================================== *)

Lemma next_user_id_above (d : Db.t) (u : User.t) :
  In u (Db.users d) -> User.id u < Db.next_user_id d.
Proof.
  unfold Db.next_user_id. induction (Db.users d) as [|x l IH];
    intro Hin; [destruct Hin|]; cbn [fold_right].
  destruct Hin as [-> | Hin]; [lia|]. specialize (IH Hin). lia.
Qed.

Lemma distinct_str_app_fresh (l : list str) (x : str) :
  Db.distinct_str l = true -> ~ In x l -> Db.distinct_str (l ++ [x]) = true.
Proof.
  induction l as [|y l IH]; intros Hd Hx; [reflexivity|].
  cbn [Db.distinct_str] in Hd; apply andb_true_iff in Hd as [Hy Hd].
  cbn [app Db.distinct_str]. apply andb_true_iff; split.
  - apply negb_true_iff, not_true_iff_false; intro E.
    apply existsb_exists in E as (z & Hz & Ez). apply str_eqb_eq in Ez; subst z.
    apply in_app_or in Hz as [Hz | [Hz | []]].
    + apply negb_true_iff, not_true_iff_false in Hy. apply Hy.
      apply existsb_exists; exists y; split; [exact Hz | apply str_eqb_refl].
    + apply Hx; now left.
  - apply IH; [exact Hd | intro; apply Hx; now right].
Qed.

Lemma select_user_by_email_none (d : Db.t) (email : str) :
  Db.select_user_by_email d email = [] ->
  ~ In email (map User.email (Db.users d)).
Proof.
  unfold Db.select_user_by_email; intros H Hin.
  apply in_map_iff in Hin as (u & Hu & Hin).
  assert (In u (filter (fun u => str_eqb (User.email u) email) (Db.users d)))
    as Hf by (apply filter_In; split; [exact Hin | now apply str_eqb_eq]).
  rewrite H in Hf. destruct Hf.
Qed.

Lemma scalar_one_or_none_none {A} (rows : list A) :
  Db.scalar_one_or_none rows = Ok None -> rows = [].
Proof. destruct rows as [|x [|y rows]]; cbn; try discriminate; auto. Qed.

Section Accounts.

Variable hmac_sha256 : str -> Jose.signing_input -> Jose.digest.
Variable BETTER_AUTH_SECRET : str.
Variable pwd_context_verify : str -> str -> option bool.
Variable pwd_context_hash : str -> str -> option str.

(** [register_user] for an address that is not taken and a password the
    hasher accepts. *)
Lemma register_user_ok (d : Db.t) (user_data : UserRegisterRequest.t)
    (salt h : str) (created updated now_exp now_iat : datetime) :
  Db.select_user_by_email d (UserRegisterRequest.email user_data) = [] ->
  pwd_context_hash salt (UserRegisterRequest.password user_data) = Some h ->
  let u := User.mk (Db.next_user_id d) (UserRegisterRequest.email user_data) h
                   (UserRegisterRequest.full_name user_data) true
                   created updated in
  UserService.register_user hmac_sha256 BETTER_AUTH_SECRET pwd_context_hash
    d user_data salt created updated now_exp now_iat
  = Ok (Db.mk (Db.tasks d) (Db.next_task_id d) (Db.users d ++ [u]),
        TokenResponse.mk
          (UserService.create_access_token hmac_sha256 BETTER_AUTH_SECRET
             (Db.next_user_id d) now_exp now_iat)
          (lit "bearer") (UserResponse.model_validate u)).
Proof.
  intros Hfree Hhash; cbv zeta.
  unfold UserService.register_user, UserService.register_user_body,
    UserService.hash_password.
  rewrite Hfree; cbn [Db.scalar_one_or_none bind]. rewrite Hhash.
  reflexivity.
Qed.

(** What a successful registration went through. *)
Lemma register_user_inv (d d' : Db.t) (user_data : UserRegisterRequest.t)
    (salt : str) (created updated now_exp now_iat : datetime)
    (resp : TokenResponse.t) :
  UserService.register_user hmac_sha256 BETTER_AUTH_SECRET pwd_context_hash
    d user_data salt created updated now_exp now_iat = Ok (d', resp) ->
  Db.select_user_by_email d (UserRegisterRequest.email user_data) = [] /\
  exists h,
    pwd_context_hash salt (UserRegisterRequest.password user_data) = Some h.
Proof.
  unfold UserService.register_user, UserService.register_user_body,
    UserService.hash_password.
  destruct (Db.scalar_one_or_none _) as [[existing|]|e] eqn:Hsel;
    cbn [bind]; try discriminate.
  - apply scalar_one_or_none_none in Hsel.
    destruct (pwd_context_hash _ _) as [h|]; cbn [bind]; [|discriminate].
    intros _. split; [exact Hsel | now exists h].
  - destruct (is_HTTPException e); discriminate.
Qed.

(** X17. A registration under a free address stores one new active user
    with the hasher's output, touches no task, and returns that user with a
    bearer token whose subject, when verified within the 24 hours, is the
    new user's id. *)
Theorem register_returns_own_token (d : Db.t)
    (user_data : UserRegisterRequest.t) (salt h : str)
    (created updated now_exp now_iat now : datetime) :
  Db.select_user_by_email d (UserRegisterRequest.email user_data) = [] ->
  pwd_context_hash salt (UserRegisterRequest.password user_data) = Some h ->
  timegm now <= timegm now_exp + 86400 ->
  exists d' resp u,
    UserService.register_user hmac_sha256 BETTER_AUTH_SECRET pwd_context_hash
      d user_data salt created updated now_exp now_iat = Ok (d', resp) /\
    Db.users d' = Db.users d ++ [u] /\
    Db.tasks d' = Db.tasks d /\
    User.email u = UserRegisterRequest.email user_data /\
    User.password_hash u = h /\
    User.is_active u = true /\
    (forall u0, In u0 (Db.users d) -> User.id u0 <> User.id u) /\
    TokenResponse.user resp = UserResponse.model_validate u /\
    TokenResponse.token_type resp = lit "bearer" /\
    Auth.verify_token hmac_sha256 BETTER_AUTH_SECRET
      (TokenResponse.access_token resp) now = Ok (User.id u).
Proof.
  intros Hfree Hhash Hfresh.
  do 3 eexists.
  split; [apply (register_user_ok d user_data salt h); assumption|].
  cbn [Db.users Db.tasks TokenResponse.user TokenResponse.token_type
       TokenResponse.access_token User.email User.password_hash
       User.is_active User.id].
  do 5 (split; [reflexivity|]).
  split; [intros u0 Hu0; pose proof (next_user_id_above d u0 Hu0);
          cbn [User.id]; lia|].
  do 2 (split; [reflexivity|]).
  cbn [TokenResponse.access_token User.id].
  now apply verify_issued_fresh.
Qed.

(** X18. Registering an address that is already stored raises 400 "Email
    already registered" whatever else the request holds, and nothing but
    that 400 and the generic 500 ever leaves [register_user]. *)
Theorem register_errors (d : Db.t) (user_data : UserRegisterRequest.t)
    (salt : str) (created updated now_exp now_iat : datetime) :
  (forall existing,
      Db.select_user_by_email d (UserRegisterRequest.email user_data)
      = [existing] ->
      UserService.register_user hmac_sha256 BETTER_AUTH_SECRET
        pwd_context_hash d user_data salt created updated now_exp now_iat
      = Raise (HTTPException 400 "Email already registered" false)) /\
  (forall e,
      UserService.register_user hmac_sha256 BETTER_AUTH_SECRET
        pwd_context_hash d user_data salt created updated now_exp now_iat
      = Raise e ->
      e = HTTPException 400 "Email already registered" false \/
      e = HTTPException 500 "Registration failed due to server error" false).
Proof.
  split.
  - intros existing Hsel.
    unfold UserService.register_user, UserService.register_user_body.
    now rewrite Hsel.
  - intro e.
    unfold UserService.register_user, UserService.register_user_body,
      UserService.hash_password.
    destruct (Db.scalar_one_or_none _) as [[existing|]|e0] eqn:Hsel;
      cbn [bind].
    + intros [= <-]; now left.
    + destruct (pwd_context_hash _ _) as [h|]; cbn [bind];
        [discriminate|]. intros [= <-]; now right.
    + apply scalar_one_or_none_raise in Hsel; subst e0.
      intros [= <-]; now right.
Qed.

Lemma select_user_by_email_new (d : Db.t) (u : User.t) :
  Db.select_user_by_email d (User.email u) = [] ->
  Db.select_user_by_email
    (Db.mk (Db.tasks d) (Db.next_task_id d) (Db.users d ++ [u]))
    (User.email u)
  = [u].
Proof.
  unfold Db.select_user_by_email; cbn [Db.users]; intro H.
  rewrite filter_app, H; cbn [filter app]. now rewrite str_eqb_refl.
Qed.

(** X19. After a registration, a login with the same address and password
    succeeds, provided the hasher's check accepts the hash it produced: it
    returns the registered user and a token for that user's id.  With a
    password the check refuses, the login raises 401. *)
Theorem register_then_login (d d' : Db.t) (user_data : UserRegisterRequest.t)
    (salt h password : str) (created updated now_exp now_iat : datetime)
    (login_exp login_iat : datetime) (resp : TokenResponse.t) :
  UserService.register_user hmac_sha256 BETTER_AUTH_SECRET pwd_context_hash
    d user_data salt created updated now_exp now_iat = Ok (d', resp) ->
  pwd_context_hash salt (UserRegisterRequest.password user_data) = Some h ->
  (pwd_context_verify password h = Some true ->
   UserService.login_user hmac_sha256 BETTER_AUTH_SECRET pwd_context_verify
     d' (UserLoginRequest.mk (UserRegisterRequest.email user_data) password)
     login_exp login_iat
   = Ok (TokenResponse.mk
           (UserService.create_access_token hmac_sha256 BETTER_AUTH_SECRET
              (UserResponse.id (TokenResponse.user resp)) login_exp login_iat)
           (lit "bearer") (TokenResponse.user resp))) /\
  (pwd_context_verify password h = Some false ->
   UserService.login_user hmac_sha256 BETTER_AUTH_SECRET pwd_context_verify
     d' (UserLoginRequest.mk (UserRegisterRequest.email user_data) password)
     login_exp login_iat
   = Raise (HTTPException 401 "Incorrect email or password" true)).
Proof.
  intros Hreg Hhash.
  destruct (register_user_inv d d' user_data salt created updated now_exp
              now_iat resp Hreg) as [Hfree _].
  rewrite (register_user_ok d user_data salt h created updated now_exp now_iat
             Hfree Hhash) in Hreg; cbv zeta in Hreg.
  injection Hreg as <- <-.
  set (u := User.mk _ _ _ _ _ _ _).
  pose proof (select_user_by_email_new d u Hfree) as Hsel.
  split; intro Hpw;
    unfold UserService.login_user, UserService.login_user_body,
      UserService.verify_password;
    cbn [UserLoginRequest.email UserLoginRequest.password];
    change (UserRegisterRequest.email user_data) with (User.email u);
    rewrite Hsel; cbn [Db.scalar_one_or_none bind];
    change (User.password_hash u) with h; rewrite Hpw; reflexivity.
Qed.

End Accounts.

Lemma select_user_by_id_fresh (d : Db.t) (u : User.t) :
  User.id u = Db.next_user_id d ->
  Db.select_user_by_id
    (Db.mk (Db.tasks d) (Db.next_task_id d) (Db.users d ++ [u])) (User.id u)
  = [u].
Proof.
  intro Hid; unfold Db.select_user_by_id; cbn [Db.users].
  rewrite filter_app; cbn [filter]. rewrite Z.eqb_refl.
  rewrite filter_none; [reflexivity|].
  intros u0 Hu0. pose proof (next_user_id_above d u0 Hu0).
  apply Z.eqb_neq; lia.
Qed.

Section AccountsMore.

Variable hmac_sha256 : str -> Jose.signing_input -> Jose.digest.
Variable BETTER_AUTH_SECRET : str.
Variable pwd_context_verify : str -> str -> option bool.
Variable pwd_context_hash : str -> str -> option str.
Variable validate_email : str -> option str.

(** X20. Registration keeps the users table well-formed: ids stay distinct
    and no address is stored twice, whether the call returns or raises. *)
Theorem register_keeps_users_wf (d : Db.t)
    (user_data : UserRegisterRequest.t) (salt : str)
    (created updated now_exp now_iat : datetime) :
  Db.users_wf d = true ->
  Db.users_wf
    (db_after d
       (UserService.register_user hmac_sha256 BETTER_AUTH_SECRET
          pwd_context_hash d user_data salt created updated now_exp now_iat))
  = true.
Proof.
  intro Hwf.
  destruct (UserService.register_user _ _ _ _ _ _ _ _ _ _)
    as [[d' resp]|e] eqn:Hreg; cbn [db_after]; [|exact Hwf].
  destruct (register_user_inv hmac_sha256 BETTER_AUTH_SECRET pwd_context_hash
              d d' user_data salt created updated now_exp now_iat resp Hreg)
    as [Hfree [h Hhash]].
  rewrite (register_user_ok hmac_sha256 BETTER_AUTH_SECRET pwd_context_hash
             d user_data salt h created updated now_exp now_iat Hfree Hhash)
    in Hreg; cbv zeta in Hreg.
  injection Hreg as <- _.
  unfold Db.users_wf in *; cbn [Db.users].
  apply andb_true_iff in Hwf as [Hid Hem].
  rewrite !map_app; cbn [map User.id User.email].
  apply andb_true_iff; split.
  - apply distinct_app_fresh; [exact Hid|].
    intro Hin. apply in_map_iff in Hin as (u0 & Hu0 & Hin).
    pose proof (next_user_id_above d u0 Hin). lia.
  - apply distinct_str_app_fresh; [exact Hem|].
    now apply select_user_by_email_none.
Qed.

(** X21. The user a registration returns is the one GET /auth/me returns
    for the new id; and [get_current_user] raises nothing but 404 "User not
    found", since the lookup it relies on swallows every exception. *)
Theorem registered_user_is_current_user :
  (forall (d d' : Db.t) (user_data : UserRegisterRequest.t) (salt : str)
          (created updated now_exp now_iat : datetime)
          (resp : TokenResponse.t),
      UserService.register_user hmac_sha256 BETTER_AUTH_SECRET
        pwd_context_hash d user_data salt created updated now_exp now_iat
      = Ok (d', resp) ->
      Api.get_current_user d' (UserResponse.id (TokenResponse.user resp))
      = Ok (TokenResponse.user resp)) /\
  (forall (d : Db.t) (user_id : Z) (e : exn),
      Api.get_current_user d user_id = Raise e ->
      e = HTTPException 404 "User not found" false).
Proof.
  split.
  - intros d d' user_data salt created updated now_exp now_iat resp Hreg.
    destruct (register_user_inv hmac_sha256 BETTER_AUTH_SECRET
                pwd_context_hash d d' user_data salt created updated now_exp
                now_iat resp Hreg) as [Hfree [h Hhash]].
    rewrite (register_user_ok hmac_sha256 BETTER_AUTH_SECRET pwd_context_hash
               d user_data salt h created updated now_exp now_iat Hfree Hhash)
      in Hreg; cbv zeta in Hreg.
    injection Hreg as <- <-.
    set (u := User.mk _ _ _ _ _ _ _).
    unfold Api.get_current_user, UserService.get_current_user,
      UserService.get_current_user_body, UserService.get_user_by_id.
    change (UserResponse.id (TokenResponse.user _)) with (User.id u).
    now rewrite (select_user_by_id_fresh d u eq_refl).
  - intros d user_id e.
    unfold Api.get_current_user, UserService.get_current_user,
      UserService.get_current_user_body, UserService.get_user_by_id.
    destruct (Db.scalar_one_or_none _) as [[u|]|e0]; cbn;
      [discriminate | now intros [= <-] | now intros [= <-]].
Qed.

(** X22. The outcomes of [login_user]: it succeeds only for the single
    stored user of that address, active, whose hash the check accepts, and
    then returns that user with a token for that user's id; it raises
    nothing but 401, 403 and the generic 500; and an address that is not
    stored gets the very 401 of a wrong password. *)
Theorem login_outcomes (d : Db.t) (login_data : UserLoginRequest.t)
    (now_exp now_iat : datetime) :
  (forall resp,
      UserService.login_user hmac_sha256 BETTER_AUTH_SECRET
        pwd_context_verify d login_data now_exp now_iat = Ok resp ->
      exists user,
        Db.select_user_by_email d (UserLoginRequest.email login_data) = [user]
        /\ pwd_context_verify (UserLoginRequest.password login_data)
                              (User.password_hash user) = Some true
        /\ User.is_active user = true
        /\ resp = TokenResponse.mk
                    (UserService.create_access_token hmac_sha256
                       BETTER_AUTH_SECRET (User.id user) now_exp now_iat)
                    (lit "bearer") (UserResponse.model_validate user)) /\
  (forall e,
      UserService.login_user hmac_sha256 BETTER_AUTH_SECRET
        pwd_context_verify d login_data now_exp now_iat = Raise e ->
      e = HTTPException 401 "Incorrect email or password" true \/
      e = HTTPException 403 "Account is inactive" false \/
      e = HTTPException 500 "Login failed due to server error" false) /\
  (Db.select_user_by_email d (UserLoginRequest.email login_data) = [] ->
   UserService.login_user hmac_sha256 BETTER_AUTH_SECRET
     pwd_context_verify d login_data now_exp now_iat
   = Raise (HTTPException 401 "Incorrect email or password" true)).
Proof.
  unfold UserService.login_user, UserService.login_user_body,
    UserService.verify_password.
  split; [|split].
  - intro resp.
    destruct (Db.scalar_one_or_none _) as [[user|]|e0] eqn:Hsel; cbn [bind];
      [| discriminate | destruct (is_HTTPException e0); discriminate].
    apply scalar_one_or_none_some in Hsel.
    destruct (pwd_context_verify _ _) as [[|]|] eqn:Hpw; cbn [bind negb];
      try discriminate.
    destruct (User.is_active user) eqn:Hact; cbn [negb]; [|discriminate].
    intros [= <-]. exists user. auto.
  - intro e.
    destruct (Db.scalar_one_or_none _) as [[user|]|e0] eqn:Hsel; cbn [bind].
    + destruct (pwd_context_verify _ _) as [[|]|]; cbn [bind negb].
      * destruct (User.is_active user); cbn [negb];
          [discriminate | intros [= <-]; auto].
      * intros [= <-]; auto.
      * intros [= <-]; auto.
    + intros [= <-]; auto.
    + apply scalar_one_or_none_raise in Hsel; subst e0.
      intros [= <-]; auto.
  - intros ->. reflexivity.
Qed.

(** X23. POST /auth/register creates an account only from a body whose
    email the address check accepts and whose password has 8 to 100
    characters; the row it appends holds the accepted address and the
    hasher's output for that password, and is active. *)
Theorem register_body_requirements (d d' : Db.t) (body : dict) (salt : str)
    (created updated now_exp now_iat : datetime) (resp : TokenResponse.t) :
  Api.register hmac_sha256 BETTER_AUTH_SECRET pwd_context_hash validate_email
    d body salt created updated now_exp now_iat = Ok (d', resp) ->
  exists address password h u,
    get body (lit "email") = Some (PStr address) /\
    validate_email address = Some (User.email u) /\
    get body (lit "password") = Some (PStr password) /\
    (8 <= List.length password <= 100)%nat /\
    pwd_context_hash salt password = Some h /\
    Db.users d' = Db.users d ++ [u] /\
    User.password_hash u = h /\
    User.is_active u = true /\
    TokenResponse.user resp = UserResponse.model_validate u.
Proof.
  unfold Api.register, UserRegisterRequest.model_validate.
  intro H. apply bind_ok in H as (user_data & Hval & Hreg).
  apply bind_ok in Hval as (email & Hemail & Hval).
  apply bind_ok in Hval as (password & Hpw & Hval).
  apply bind_ok in Hval as (full_name & Hname & Hval).
  injection Hval as <-.
  unfold UserRegisterRequest.validate_email_field in Hemail.
  destruct (get body (lit "email")) as [[| | |address| | |]|];
    try discriminate.
  destruct (validate_email address) as [email'|] eqn:Hv; [|discriminate].
  injection Hemail as ->.
  unfold UserRegisterRequest.validate_password in Hpw.
  destruct (get body (lit "password")) as [[| | |pw| | |]|];
    try discriminate.
  destruct (List.length pw <? 8)%nat eqn:E1; [discriminate|].
  destruct (100 <? List.length pw)%nat eqn:E2; [discriminate|].
  injection Hpw as ->. apply Nat.ltb_ge in E1, E2.
  destruct (register_user_inv hmac_sha256 BETTER_AUTH_SECRET pwd_context_hash
              d d' _ salt created updated now_exp now_iat resp Hreg)
    as [Hfree [h Hhash]].
  rewrite (register_user_ok hmac_sha256 BETTER_AUTH_SECRET pwd_context_hash
             d _ salt h created updated now_exp now_iat Hfree Hhash)
    in Hreg; cbv zeta in Hreg.
  injection Hreg as <- <-.
  cbn [UserRegisterRequest.password UserRegisterRequest.email] in *.
  exists address, password, h,
    (User.mk (Db.next_user_id d) email h full_name true created updated).
  split; [reflexivity|]. split; [exact Hv|]. split; [reflexivity|].
  split; [lia|]. split; [exact Hhash|].
  cbn [Db.users TokenResponse.user]. repeat split.
Qed.

End AccountsMore.

Lemma register_returns_own_token_witness :
  exists d' resp u,
    UserService.register_user sample_mac (lit "secret") sample_pwd_hash
      sample_db sample_registration [] 1 2 1700000000000000 1700000000000003
    = Ok (d', resp) /\
    Db.users d' = Db.users sample_db ++ [u] /\
    Db.tasks d' = Db.tasks sample_db /\
    User.email u = lit "c@x.com" /\
    User.password_hash u = lit "$2b$12$pw12345678" /\
    User.is_active u = true /\
    (forall u0, In u0 (Db.users sample_db) -> User.id u0 <> User.id u) /\
    TokenResponse.user resp = UserResponse.model_validate u /\
    TokenResponse.token_type resp = lit "bearer" /\
    Auth.verify_token sample_mac (lit "secret")
      (TokenResponse.access_token resp) 1700000360000000 = Ok (User.id u).
Proof.
  apply (register_returns_own_token sample_mac (lit "secret") sample_pwd_hash
           sample_db sample_registration [] (lit "$2b$12$pw12345678") 1 2
           1700000000000000 1700000000000003 1700000360000000).
  - reflexivity.
  - reflexivity.
  - vm_compute; discriminate.
Defined.

Lemma register_errors_witness :
  UserService.register_user sample_mac (lit "secret") sample_pwd_hash
    sample_db (UserRegisterRequest.mk (lit "a@x.com") (lit "whatever1") None)
    [] 1 2 3 4
  = Raise (HTTPException 400 "Email already registered" false).
Proof.
  apply (proj1 (register_errors sample_mac (lit "secret") sample_pwd_hash
                  sample_db
                  (UserRegisterRequest.mk (lit "a@x.com") (lit "whatever1")
                     None) [] 1 2 3 4)
           (User.mk 10 (lit "a@x.com") (lit "$2b$12$aaaa") None true
                    1690000000000000 1690000000000000)).
  reflexivity.
Defined.

Lemma register_then_login_witness :
  exists d' resp,
    UserService.register_user sample_mac (lit "secret") sample_pwd_hash
      sample_db sample_registration [] 1 2 3 4 = Ok (d', resp) /\
    UserService.login_user sample_mac (lit "secret") sample_pwd_verify d'
      (UserLoginRequest.mk (lit "c@x.com") (lit "pw12345678")) 5 6
    = Ok (TokenResponse.mk
            (UserService.create_access_token sample_mac (lit "secret")
               (UserResponse.id (TokenResponse.user resp)) 5 6)
            (lit "bearer") (TokenResponse.user resp)).
Proof.
  do 2 eexists. split; [reflexivity|].
  apply (proj1 (register_then_login sample_mac (lit "secret")
                  sample_pwd_verify sample_pwd_hash sample_db _
                  sample_registration [] (lit "$2b$12$pw12345678")
                  (lit "pw12345678") 1 2 3 4 5 6 _ eq_refl eq_refl)).
  reflexivity.
Defined.

Lemma register_keeps_users_wf_witness :
  Db.users_wf
    (db_after sample_db
       (UserService.register_user sample_mac (lit "secret") sample_pwd_hash
          sample_db sample_registration [] 1 2 3 4))
  = true.
Proof.
  apply (register_keeps_users_wf sample_mac (lit "secret") sample_pwd_hash
           sample_db sample_registration [] 1 2 3 4).
  reflexivity.
Defined.

Lemma registered_user_is_current_user_witness :
  exists d' resp,
    UserService.register_user sample_mac (lit "secret") sample_pwd_hash
      sample_db sample_registration [] 1 2 3 4 = Ok (d', resp) /\
    Api.get_current_user d' (UserResponse.id (TokenResponse.user resp))
    = Ok (TokenResponse.user resp).
Proof.
  do 2 eexists. split; [reflexivity|].
  apply (proj1 (registered_user_is_current_user sample_mac (lit "secret")
                  sample_pwd_hash) sample_db _ sample_registration [] 1 2 3 4
           _ eq_refl).
Defined.

Lemma login_outcomes_witness :
  exists user,
    Db.select_user_by_email sample_db (lit "a@x.com") = [user] /\
    sample_pwd_verify (lit "aaaa") (User.password_hash user) = Some true /\
    User.is_active user = true /\
    TokenResponse.mk
      (UserService.create_access_token sample_mac (lit "secret") 10 5 6)
      (lit "bearer")
      (UserResponse.mk 10 (lit "a@x.com") None true 1690000000000000)
    = TokenResponse.mk
        (UserService.create_access_token sample_mac (lit "secret")
           (User.id user) 5 6)
        (lit "bearer") (UserResponse.model_validate user).
Proof.
  apply (proj1 (login_outcomes sample_mac (lit "secret") sample_pwd_verify
                  sample_db (UserLoginRequest.mk (lit "a@x.com") (lit "aaaa"))
                  5 6)).
  reflexivity.
Defined.

Lemma register_body_requirements_witness :
  exists d' resp,
    Api.register sample_mac (lit "secret") sample_pwd_hash
      sample_validate_email sample_db sample_register_body [] 1 2 3 4
    = Ok (d', resp) /\
    exists address password h u,
      get sample_register_body (lit "email") = Some (PStr address) /\
      sample_validate_email address = Some (User.email u) /\
      get sample_register_body (lit "password") = Some (PStr password) /\
      (8 <= List.length password <= 100)%nat /\
      sample_pwd_hash [] password = Some h /\
      Db.users d' = Db.users sample_db ++ [u] /\
      User.password_hash u = h /\
      User.is_active u = true /\
      TokenResponse.user resp = UserResponse.model_validate u.
Proof.
  do 2 eexists. split; [reflexivity|].
  apply (register_body_requirements sample_mac (lit "secret") sample_pwd_hash
           sample_validate_email sample_db _ sample_register_body [] 1 2 3 4
           _ eq_refl).
Defined.

(* ================================================================== *)
(** * Reading one's own writes                                          *)
(* ================================================================== *)

Section ReadYourWrites.

Variable updated_at_trigger : Task.t -> Task.t -> datetime -> datetime.

Lemma read_rewritten (d : Db.t) (T T' : Task.t) :
  Db.primary_key d = true -> In T (Db.tasks d) ->
  Task.id T' = Task.id T -> Task.user_id T' = Task.user_id T ->
  TaskService.get_task_by_id (Db.update_task d T') (Task.user_id T)
    (Task.id T)
  = Ok (TaskResponse.model_validate T').
Proof.
  intros Hpk Hin Hid Hown. unfold TaskService.get_task_by_id.
  rewrite <- Hid, <- Hown.
  rewrite (lookup_owner (Db.update_task d T') T'); [reflexivity| |].
  - now apply update_task_primary_key.
  - now apply (update_task_stored d T T').
Qed.

(** X24. The owner reads back what an update or a toggle returned: after
    either call, [get_task_by_id] on the same id gives the same response. *)
Theorem write_then_read (d : Db.t) (T : Task.t) (task_data : TaskUpdate.t)
    (now : datetime) :
  Db.primary_key d = true -> In T (Db.tasks d) ->
  (exists d' r,
     TaskService.update_task updated_at_trigger d (Task.user_id T)
       (Task.id T) task_data now = Ok (d', r) /\
     TaskService.get_task_by_id d' (Task.user_id T) (Task.id T) = Ok r) /\
  (exists d' r,
     TaskService.toggle_completion updated_at_trigger d (Task.user_id T)
       (Task.id T) now = Ok (d', r) /\
     TaskService.get_task_by_id d' (Task.user_id T) (Task.id T) = Ok r).
Proof.
  intros Hpk Hin. split.
  - pose proof (update_task_present updated_at_trigger d T (Task.user_id T)
                  task_data now Hpk Hin) as H.
    rewrite Z.eqb_refl in H; cbv zeta in H.
    do 2 eexists. split; [exact H|].
    apply read_rewritten; auto; [apply updated_row_id|].
    unfold updated_row; destruct (TaskUpdate.title task_data),
      (TaskUpdate.description task_data); reflexivity.
  - pose proof (toggle_owner updated_at_trigger d T now Hpk Hin) as H;
      cbv zeta in H.
    do 2 eexists. split; [exact H|].
    now apply read_rewritten.
Qed.

End ReadYourWrites.

Lemma write_then_read_witness :
  (exists d' r,
     TaskService.update_task stamp_now sample_db 10 1
       (TaskUpdate.mk None (Some (lit "second draft"))) 9 = Ok (d', r) /\
     TaskService.get_task_by_id d' 10 1 = Ok r) /\
  (exists d' r,
     TaskService.toggle_completion stamp_now sample_db 10 1 9 = Ok (d', r) /\
     TaskService.get_task_by_id d' 10 1 = Ok r).
Proof.
  apply (write_then_read stamp_now sample_db sample_task
           (TaskUpdate.mk None (Some (lit "second draft"))) 9).
  - reflexivity.
  - left; reflexivity.
Defined.
